(** * Transparency aggregation of the donation site

  A shallow embedding of the client-side logic of the public pages
  (completed projects, ledger, partners, giving circle) and of the
  dashboard forms (projects, giving circle), followed by the properties
  the specification states about them.

  Part I holds the definitions, one module per source page, on top of a
  small model of the JavaScript runtime.  Part II holds the lemmas and
  theorems. *)

From Stdlib Require Import ZArith List Bool String Ascii Lia.
From Stdlib Require Import Floats Uint63 PArith Permutation Sorted.
Import ListNotations.

Set Warnings "-inexact-float".

(* ================================================================== *)
(** * Part I.  Definitions                                             *)
(* ================================================================== *)

(** ** The JavaScript runtime, as far as the pages use it *)
Module JS.

(** A [number] is an IEEE 754 binary64 value. *)
Definition number : Type := float.

Definition NaN : number := PrimFloat.nan.

(** [ToBoolean] on numbers: [+0], [-0] and [NaN] are falsy. *)
Definition truthy_number (x : number) : bool :=
  negb (PrimFloat.is_zero x || PrimFloat.is_nan x).

(** [ToBoolean] on strings: only the empty string is falsy. *)
Definition truthy_string (s : string) : bool :=
  match s with EmptyString => false | String _ _ => true end.

(** [ToBoolean] on an optional property: [undefined] is falsy. *)
Definition truthy_opt {A} (t : A -> bool) (o : option A) : bool :=
  match o with Some a => t a | None => false end.

Definition truthy_bool (b : bool) : bool := b.

(** [a || d] on an optional number and on an optional string. *)
Definition or_number (a : option number) (d : number) : number :=
  match a with
  | Some x => if truthy_number x then x else d
  | None => d
  end.

Definition or_string (a : option string) (d : string) : string :=
  match a with
  | Some x => if truthy_string x then x else d
  | None => d
  end.

(** [x > 0] and [x <= 0]; both are false on [NaN]. *)
Definition gt0 (x : number) : bool := PrimFloat.ltb 0%float x.
Definition le0 (x : number) : bool := PrimFloat.leb x 0%float.

(** [Math.min] of two arguments: [NaN] if either is [NaN], and [-0] is
    below [+0]. *)
Definition Math_min (a b : number) : number :=
  if PrimFloat.is_nan a || PrimFloat.is_nan b then NaN
  else if PrimFloat.ltb a b then a
  else if PrimFloat.ltb b a then b
  else if PrimFloat.get_sign a then a else b.

(** [Math.round]: the nearest integer, ties towards +infinity; the sign
    of a zero result is the sign of the argument.  A finite double with a
    non-negative exponent is already integral. *)
Definition Math_round (x : number) : number :=
  match Prim2SF x with
  | S754_finite s m e =>
      if (0 <=? e)%Z then x
      else
        let v := ((cond_Zopp s (Zpos m) + 2 ^ (- e - 1)) / 2 ^ (- e))%Z in
        SF2Prim (binary_normalize prec emax v 0 s)
  | _ => x
  end.

(** The double that holds a non-negative integer below 2^63. *)
Definition Z2F (z : Z) : number := PrimFloat.of_uint63 (Uint63.of_Z z).

(** The integer part of a non-negative finite double, and 0 elsewhere. *)
Definition F2Z (x : number) : Z :=
  match Prim2SF x with
  | S754_finite false m e => Z.shiftl (Zpos m) e
  | _ => 0%Z
  end.

(** A whole amount: a non-negative integer held exactly. *)
Definition whole (x : number) : Prop := x = Z2F (F2Z x).

(** The exact total of a list of amounts, read as integers. *)
Definition wholeTotal (xs : list number) : Z :=
  fold_right (fun x acc => (F2Z x + acc)%Z) 0%Z xs.

(** Whole amounts whose total stays below 2^53: every partial sum is then
    held exactly. *)
Definition wholeAmounts (xs : list number) : Prop :=
  Forall whole xs /\ (wholeTotal xs < 2 ^ 53)%Z.

(** Strings are sequences of code units; the model covers the code units
    below 256.  [is_white] holds the white space and line terminators of
    that range. *)
Definition is_white (c : ascii) : bool :=
  let n := nat_of_ascii c in
  ((9 <=? n) && (n <=? 13) || (n =? 32) || (n =? 160))%nat.

Fixpoint trimStart (s : string) : string :=
  match s with
  | EmptyString => EmptyString
  | String c s' => if is_white c then trimStart s' else s
  end.

Fixpoint trimEnd (s : string) : string :=
  match s with
  | EmptyString => EmptyString
  | String c s' =>
      match trimEnd s' with
      | EmptyString => if is_white c then EmptyString else String c EmptyString
      | t => String c t
      end
  end.

Definition trim (s : string) : string := trimEnd (trimStart s).


Definition lower_char (c : ascii) : ascii :=
  let n := nat_of_ascii c in
  if ((65 <=? n) && (n <=? 90)
      || (192 <=? n) && (n <=? 222) && negb (n =? 215))%nat
  then ascii_of_nat (n + 32) else c.

Fixpoint toLowerCase (s : string) : string :=
  match s with
  | EmptyString => EmptyString
  | String c s' => String (lower_char c) (toLowerCase s')
  end.

(** [Array.prototype.join]. *)
Fixpoint join (sep : string) (l : list string) : string :=
  match l with
  | [] => EmptyString
  | [x] => x
  | x :: l' => (x ++ sep ++ join sep l')%string
  end.

(** [s.split(c)[0]]: the text before the first occurrence of [c]. *)
Fixpoint split_head (c : ascii) (s : string) : string :=
  match s with
  | EmptyString => EmptyString
  | String a s' => if Ascii.eqb a c then EmptyString else String a (split_head c s')
  end.

(** [Array.prototype.reduce] with an initial value. *)
Definition reduce {A B} (f : B -> A -> B) (init : B) (l : list A) : B :=
  fold_left f l init.

(** [Array.prototype.sort] with a comparator.  The comparator returns a
    number, here an integer or [None] for [NaN]; the runtime reads [NaN]
    as [+0].  The sort is stable; with a consistent comparator every
    stable sort returns the same array, and this one inserts from the
    right. *)
Definition SortCompare {A} (cmp : A -> A -> option Z) (x y : A) : Z :=
  match cmp x y with Some v => v | None => 0%Z end.

Fixpoint insert {A} (cmp : A -> A -> option Z) (x : A) (l : list A) : list A :=
  match l with
  | [] => [x]
  | y :: l' =>
      if (0 <? SortCompare cmp x y)%Z then y :: insert cmp x l'
      else x :: y :: l'
  end.

Definition sort {A} (cmp : A -> A -> option Z) (l : list A) : list A :=
  fold_right (insert cmp) [] l.

(** In a list sorted by a key, latest first, [b] may follow [a]: its key is
    not above. *)
Definition descending {A} (key : A -> Z) (a b : A) : Prop := (key b <= key a)%Z.

(** The comparator is [key b - key a] on the elements of [l]. *)
Definition compares {A} (cmp : A -> A -> option Z) (key : A -> Z) (l : list A)
  : Prop :=
  forall a b, In a l -> In b l -> cmp a b = Some (key b - key a)%Z.

(** [dateB - dateA] on time values: integers of milliseconds, [None] for
    the [NaN] of an invalid date.  Time values are integers of magnitude
    at most 8.64e15, so the double difference has the sign of the integer
    difference. *)
Definition time_sub (a b : option Z) : option Z :=
  match a, b with
  | Some x, Some y => Some (x - y)%Z
  | _, _ => None
  end.

(** A [Set] of strings: its members in insertion order, each once. *)
Definition Set_has (s : list string) (x : string) : bool :=
  existsb (String.eqb x) s.

Definition Set_add (s : list string) (x : string) : list string :=
  if Set_has s x then s else s ++ [x].

Definition Set_delete (s : list string) (x : string) : list string :=
  filter (fun y => negb (String.eqb y x)) s.

(** [s.includes(sub)]: [sub] occurs in [s] at some position. *)
Fixpoint includes (s sub : string) : bool :=
  String.prefix sub s
  || match s with
     | EmptyString => false
     | String _ s' => includes s' sub
     end.

(** [arr.filter((_, i) => keep(i))], the callback reading the index only;
    [i] is the index of the head. *)
Fixpoint filter_index {A} (keep : nat -> bool) (i : nat) (l : list A) : list A :=
  match l with
  | [] => []
  | x :: l' =>
      if keep i then x :: filter_index keep (S i) l' else filter_index keep (S i) l'
  end.

(** [arr[index] = value]: an element of the array is replaced, the index
    just after the last one extends the array; [None] beyond that, where the
    array would get holes. *)
Fixpoint assign_index {A} (index : nat) (value : A) (arr : list A) : option (list A) :=
  match arr, index with
  | [], O => Some [value]
  | [], S _ => None
  | _ :: arr', O => Some (value :: arr')
  | x :: arr', S i => option_map (cons x) (assign_index i value arr')
  end.

(** [arr.find(test)]. *)
Fixpoint find_first {A} (test : A -> bool) (arr : list A) : option A :=
  match arr with
  | [] => None
  | x :: arr' => if test x then Some x else find_first test arr'
  end.

End JS.

(** ** Documents shared by the pages *)
Module Model.
Import JS.

Record Testimonial := {
  t_name : string;
  t_text : string;
  t_role : option string
}.

Record ImpactStats := {
  peopleHelped : option number;
  itemsDistributed : option number;
  customMetric : option string
}.

Record CompletionData := {
  completedDate : option string;
  completionStory : option string;
  beforeImages : option (list string);
  afterImages : option (list string);
  progressImages : option (list string);
  testimonials : option (list Testimonial);
  impactStats : option ImpactStats
}.

(** An entry of a project's embedded [subProjects] array. *)
Record SubProject := {
  sub_id : string;
  sub_title : string;
  sub_description : option string;
  sub_communityName : option string;
  sub_goal : number;
  sub_raised : number;
  sub_isCompleted : option bool;
  sub_completionData : option CompletionData;
  sub_createdAt : option string
}.

(** An entry of a workspace's embedded [expenses] array. *)
Record Expense := {
  ex_id : string;
  ex_description : string;
  ex_amount : number;
  ex_date : option string;
  ex_note : option string
}.

Record Workspace := {
  ws_id : string;
  ws_name : string;
  ws_logo : option string;
  ws_totalReceived : number;
  ws_date : option string;
  ws_note : option string;
  ws_expenses : option (list Expense)
}.

(** The state of the completion form of the dashboard. *)
Record TestimonialForm := {
  tf_name : string;
  tf_text : string;
  tf_role : string
}.

Record ImpactStatsForm := {
  isf_peopleHelped : number;
  isf_itemsDistributed : number;
  isf_customMetric : string
}.

Record CompletionForm := {
  cf_completedDate : string;
  cf_completionStory : string;
  cf_beforeImages : list string;
  cf_afterImages : list string;
  cf_progressImages : list string;
  cf_testimonials : list TestimonialForm;
  cf_impactStats : ImpactStatsForm
}.

Definition testimonial_of_form (t : TestimonialForm) : Testimonial :=
  {| t_name := tf_name t; t_text := tf_text t; t_role := Some (tf_role t) |}.

Definition impactStats_of_form (s : ImpactStatsForm) : ImpactStats :=
  {| peopleHelped := Some (isf_peopleHelped s);
     itemsDistributed := Some (isf_itemsDistributed s);
     customMetric := Some (isf_customMetric s) |}.

(** What a failed write throws: an [Error] with its message, or another
    value. *)
Inductive thrown := ErrorObject (message : string) | OtherValue.

(** [err instanceof Error ? err.message : 'Unknown error']. *)
Definition error_message (t : thrown) : string :=
  match t with ErrorObject m => m | OtherValue => "Unknown error" end.

End Model.

(** ** The public page of completed projects *)
Module CompletedProjectsPage.
Import JS Model.

Record CompletedItem := {
  id : string;
  title : string;
  subtitle : option string;
  description : string;
  category : string;
  goal : number;
  raised : option number;
  supporters : option number;
  image : option string;
  completionData : option CompletionData;
  parentTitle : option string;
  communityName : option string;
  isSubProject : option bool
}.

Record FirestoreProject := {
  p_id : string;
  p_title : string;
  p_subtitle : option string;
  p_description : string;
  p_category : string;
  p_goal : number;
  p_raised : option number;
  p_supporters : option number;
  p_image : option string;
  p_isCompleted : option bool;
  p_isParent : option bool;
  p_completionData : option CompletionData;
  p_subProjects : option (list SubProject)
}.

(** The item pushed for a completed top-level project. *)
Definition topItem (data : FirestoreProject) : CompletedItem :=
  {| id := p_id data;
     title := p_title data;
     subtitle := p_subtitle data;
     description := p_description data;
     category := p_category data;
     goal := p_goal data;
     raised := p_raised data;
     supporters := p_supporters data;
     image := p_image data;
     completionData := p_completionData data;
     parentTitle := None;
     communityName := None;
     isSubProject := None |}.

(** The item pushed for a completed sub-project of [data]. *)
Definition subItem (data : FirestoreProject) (sub : SubProject) : CompletedItem :=
  {| id := (p_id data ++ "_" ++ sub_id sub)%string;
     title := sub_title sub;
     subtitle := None;
     description := or_string (sub_description sub) (p_description data);
     category := p_category data;
     goal := sub_goal sub;
     raised := Some (sub_raised sub);
     supporters := p_supporters data;
     image := p_image data;
     completionData := sub_completionData sub;
     parentTitle := Some (p_title data);
     communityName := sub_communityName sub;
     isSubProject := Some true |}.

Definition push {A} (items : list A) (x : A) : list A := items ++ [x].

Definition isCompleted (data : FirestoreProject) : bool :=
  truthy_opt truthy_bool (p_isCompleted data).
Definition isParent (data : FirestoreProject) : bool :=
  truthy_opt truthy_bool (p_isParent data).
Definition subCompleted (sub : SubProject) : bool :=
  truthy_opt truthy_bool (sub_isCompleted sub).

(** The body of [snapshot.docs.forEach], threading the [items] array. *)
Definition forEach_body (items : list CompletedItem) (data : FirestoreProject)
  : list CompletedItem :=
  let items :=
    if isCompleted data && negb (isParent data)
    then push items (topItem data) else items in
  match isParent data, p_subProjects data with
  | true, Some subs =>
      fold_left (fun acc sub => push acc (subItem data sub))
                (filter subCompleted subs) items
  | _, _ => items
  end.

(** The [items] array before it is sorted. *)
Definition flatten (docs : list FirestoreProject) : list CompletedItem :=
  fold_left forEach_body docs [].

Section Sorting.
(** [new Date(s).getTime()]: the time value of a date string, [None]
    when the string is not a date ([NaN]). *)
Variable getTime : string -> option Z.

(** [a.completionData?.completedDate ? new Date(..).getTime() : 0]. *)
Definition sortKey (a : CompletedItem) : option Z :=
  match completionData a with
  | Some cd =>
      match completedDate cd with
      | Some d => if truthy_string d then getTime d else Some 0%Z
      | None => Some 0%Z
      end
  | None => Some 0%Z
  end.

(** The comparator [(a, b) => dateB - dateA]. *)
Definition byDateDesc (a b : CompletedItem) : option Z :=
  time_sub (sortKey b) (sortKey a).

(** The array handed to [setCompletedItems]. *)
Definition completedItems (docs : list FirestoreProject) : list CompletedItem :=
  sort byDateDesc (flatten docs).
End Sorting.

(** Whether an item carries a completion date (the comparator's test). *)
Definition hasDate (a : CompletedItem) : bool :=
  match completionData a with
  | Some cd => truthy_opt truthy_string (completedDate cd)
  | None => false
  end.

(** Time values of date-only ISO strings [YYYY-MM-DD] (UTC midnight), the
    format the dashboard's date input produces; any other string is taken
    as not a date. *)
Definition digit (c : ascii) : option Z :=
  let n := nat_of_ascii c in
  if ((48 <=? n) && (n <=? 57))%nat then Some (Z.of_nat n - 48)%Z else None.

Fixpoint digits (s : list ascii) (acc : Z) : option Z :=
  match s with
  | [] => Some acc
  | c :: s' =>
      match digit c with
      | Some d => digits s' (10 * acc + d)%Z
      | None => None
      end
  end.

Definition days_from_civil (y m d : Z) : Z :=
  let y' := if (m <=? 2)%Z then (y - 1)%Z else y in
  let era := (y' / 400)%Z in
  let yoe := (y' - era * 400)%Z in
  let mp := ((m + 9) mod 12)%Z in
  let doy := ((153 * mp + 2) / 5 + d - 1)%Z in
  let doe := (yoe * 365 + yoe / 4 - yoe / 100 + doy)%Z in
  (era * 146097 + doe - 719468)%Z.

Definition isoDateTime (s : string) : option Z :=
  match list_ascii_of_string s with
  | [y1; y2; y3; y4; "-"%char; m1; m2; "-"%char; d1; d2] =>
      match digits [y1; y2; y3; y4] 0, digits [m1; m2] 0, digits [d1; d2] 0 with
      | Some y, Some m, Some d =>
          if ((1 <=? m) && (m <=? 12) && (1 <=? d) && (d <=? 31))%Z
          then Some (days_from_civil y m d * 86400000)%Z
          else None
      | _, _, _ => None
      end
  | _ => None
  end.

(** The time value an item is sorted by, when its date is a date. *)
Definition timeValue (getTime : string -> option Z) (a : CompletedItem) : Z :=
  match sortKey getTime a with Some v => v | None => 0%Z end.

(** What one pass of the loop body adds to the flat list for a project, by
    the loop's own tests: the project itself when it is completed and not a
    parent, and each completed sub-project when it is a parent. *)
Definition itemsOf (data : FirestoreProject) : list CompletedItem :=
  (if isCompleted data && negb (isParent data) then [topItem data] else [])
  ++ match isParent data, p_subProjects data with
     | true, Some subs => map (subItem data) (filter subCompleted subs)
     | _, _ => []
     end.

(** The specification's contract for one project, in its words and on the
    fields of the documents: a project flagged completed that is not a
    parent is one item, and each sub-project flagged completed of a parent
    is one item.  A flag is set when the field holds [true]. *)
Definition flagged (flag : option bool) : bool :=
  match flag with Some true => true | _ => false end.

Definition contractItems (d : FirestoreProject) : list CompletedItem :=
  (if flagged (p_isCompleted d)
   then if flagged (p_isParent d) then [] else [topItem d]
   else [])
  ++ (if flagged (p_isParent d)
      then match p_subProjects d with
           | Some subs =>
               map (subItem d) (filter (fun s => flagged (sub_isCompleted s)) subs)
           | None => []
           end
      else []).

(** The records of the specification's example; the fields the example
    leaves out are empty. *)
Definition onlyDate (d : string) : CompletionData :=
  {| completedDate := Some d; completionStory := None; beforeImages := None;
     afterImages := None; progressImages := None; testimonials := None;
     impactStats := None |}.

Definition wellA : SubProject :=
  {| sub_id := "a"; sub_title := "Well A"; sub_description := None;
     sub_communityName := None; sub_goal := 0%float; sub_raised := 0%float;
     sub_isCompleted := Some true;
     sub_completionData := Some (onlyDate "2024-01-01");
     sub_createdAt := None |}.

Definition wellB : SubProject :=
  {| sub_id := "b"; sub_title := "Well B"; sub_description := None;
     sub_communityName := None; sub_goal := 0%float; sub_raised := 0%float;
     sub_isCompleted := Some false; sub_completionData := None;
     sub_createdAt := None |}.

Definition waterProgram : FirestoreProject :=
  {| p_id := "water"; p_title := "Water Program"; p_subtitle := None;
     p_description := EmptyString; p_category := EmptyString; p_goal := 0%float;
     p_raised := None; p_supporters := Some 12%float; p_image := None;
     p_isCompleted := None; p_isParent := Some true; p_completionData := None;
     p_subProjects := Some [wellA; wellB] |}.

(** Two further projects for examples: one completed in 2023 and one
    completed without a date. *)
Definition school : FirestoreProject :=
  {| p_id := "school"; p_title := "School"; p_subtitle := None;
     p_description := EmptyString; p_category := EmptyString; p_goal := 0%float;
     p_raised := None; p_supporters := None; p_image := None;
     p_isCompleted := Some true; p_isParent := None;
     p_completionData := Some (onlyDate "2023-05-01");
     p_subProjects := None |}.

Definition clinic : FirestoreProject :=
  {| p_id := "clinic"; p_title := "Clinic"; p_subtitle := None;
     p_description := EmptyString; p_category := EmptyString; p_goal := 0%float;
     p_raised := None; p_supporters := None; p_image := None;
     p_isCompleted := Some true; p_isParent := None;
     p_completionData := None;
     p_subProjects := None |}.

(** A project that is not completed, and one completed with a date that is
    not a date. *)
Definition library : FirestoreProject :=
  {| p_id := "library"; p_title := "Library"; p_subtitle := None;
     p_description := EmptyString; p_category := EmptyString; p_goal := 0%float;
     p_raised := None; p_supporters := None; p_image := None;
     p_isCompleted := Some false; p_isParent := None;
     p_completionData := None;
     p_subProjects := None |}.

Definition garden : FirestoreProject :=
  {| p_id := "garden"; p_title := "Garden"; p_subtitle := None;
     p_description := EmptyString; p_category := EmptyString; p_goal := 0%float;
     p_raised := None; p_supporters := None; p_image := None;
     p_isCompleted := Some true; p_isParent := None;
     p_completionData := Some (onlyDate "not a date");
     p_subProjects := None |}.

(** The totals of the page's header, over the items shown. *)
Definition totalRaised (completedItems : list CompletedItem) : number :=
  reduce (fun sum p => (sum + or_number (raised p) 0)%float) 0%float completedItems.

Definition totalSupporters (completedItems : list CompletedItem) : number :=
  reduce (fun sum p => (sum + or_number (supporters p) 0)%float) 0%float completedItems.

(** The supporters [totalSupporters] adds, in order. *)
Definition supporterAmounts (completedItems : list CompletedItem) : list number :=
  map (fun p => or_number (supporters p) 0%float) completedItems.

End CompletedProjectsPage.

(** ** The public ledger page *)
Module LedgerPage.
Import JS Model.

Inductive TransactionType := income | expense.

Definition type_eqb (a b : TransactionType) : bool :=
  match a, b with
  | income, income | expense, expense => true
  | _, _ => false
  end.

(** The string a [type] field holds. *)
Definition type_string (t : TransactionType) : string :=
  match t with income => "income" | expense => "expense" end.

Record Transaction := {
  id : string;
  date : string;
  type : TransactionType;
  category : string;
  description : string;
  amount : number;
  project : string;
  receipt : option string;
  paymentMethod : option string;
  donorEmail : option string
}.

Record Project := {
  p_id : string;
  p_title : string;
  p_raised : number;
  p_goal : number;
  p_category : string;
  p_isActive : bool
}.

Definition ofType (ty : TransactionType) (transactions : list Transaction)
  : list Transaction :=
  filter (fun t => type_eqb (type t) ty) transactions.

Definition totalIncome (transactions : list Transaction) : number :=
  reduce (fun sum t => (sum + amount t)%float) 0%float (ofType income transactions).

Definition totalExpenses (transactions : list Transaction) : number :=
  reduce (fun sum t => (sum + amount t)%float) 0%float (ofType expense transactions).

Definition totalProjectFunds (projects : list Project) : number :=
  reduce (fun sum p => (sum + p_raised p)%float) 0%float projects.

(** The amounts [totalIncome] and [totalExpenses] add, in order. *)
Definition amountsOfType (ty : TransactionType) (transactions : list Transaction)
  : list number :=
  map amount (ofType ty transactions).

(** A transaction that has only a type and an amount, for examples. *)
Definition entry (ty : TransactionType) (a : number) : Transaction :=
  {| id := EmptyString; date := EmptyString; type := ty; category := EmptyString;
     description := EmptyString; amount := a; project := EmptyString;
     receipt := None; paymentMethod := None; donorEmail := None |}.

(** The counts shown next to the totals. *)
Definition incomeCount (transactions : list Transaction) : nat :=
  List.length (ofType income transactions).

Definition expenseCount (transactions : list Transaction) : nat :=
  List.length (ofType expense transactions).

(** The number in the label next to a project's progress bar. *)
Definition progressLabel (p : Project) : number :=
  if gt0 (p_goal p)
  then Math_round ((p_raised p / p_goal p) * 100)%float
  else 0%float.

(** The number in the [width] of a project's progress bar. *)
Definition progressWidth (p : Project) : number :=
  if gt0 (p_goal p)
  then Math_min ((p_raised p / p_goal p) * 100)%float 100%float
  else 0%float.

Definition dquote : string := String (ascii_of_nat 34) EmptyString.
Definition newline : string := String (ascii_of_nat 10) EmptyString.

Definition headers : list string :=
  ["Date"; "Type"; "Description"; "Project"; "Amount"; "Category";
   "Receipt/Payment"]%string.

Section CsvExport.
(** [new Date(s).toLocaleDateString()], the conversion of a number to a
    string inside a template, and [new Date().toISOString()] at the time of
    the click: the runtime's, taken as given. *)
Variable toLocaleDateString : string -> string.
Variable Number_toString : number -> string.
Variable nowISOString : string.

(** One entry of [csvData]. *)
Definition csvRow (t : Transaction) : list string :=
  [ toLocaleDateString (date t);
    type_string (type t);
    description t;
    project t;
    Number_toString (amount t);
    category t;
    or_string (receipt t) (or_string (paymentMethod t) EmptyString) ].

(** The template that wraps a cell. *)
Definition quoteCell (cell : string) : string :=
  (dquote ++ cell ++ dquote)%string.

Definition csvLines (transactions : list Transaction) : list string :=
  join "," headers
    :: map (fun row => join "," (map quoteCell row)) (map csvRow transactions).

Record Download := {
  csvContent : string;
  download : string
}.

Definition exportToCSV (transactions : list Transaction) : Download :=
  {| csvContent := join newline (csvLines transactions);
     download := ("ledger-" ++ split_head "T" nowISOString ++ ".csv")%string |}.
End CsvExport.

(** [filteredTransactions]; [selectedFilter] is ['all'] or the string of a
    type. *)
Definition matchesFilter (selectedFilter : string) (t : Transaction) : bool :=
  String.eqb selectedFilter "all" || String.eqb (type_string (type t)) selectedFilter.

Definition matchesSearch (searchTerm : string) (t : Transaction) : bool :=
  includes (toLowerCase (description t)) (toLowerCase searchTerm)
  || includes (toLowerCase (project t)) (toLowerCase searchTerm).

Definition filteredTransactions (selectedFilter searchTerm : string)
           (transactions : list Transaction) : list Transaction :=
  filter (fun t => matchesFilter selectedFilter t && matchesSearch searchTerm t)
         transactions.

(** The property [toDate] of [createdAt], as [fetchData] reads it: absent
    ([undefined] or [null], also when [createdAt] itself is absent), a value
    that is not a function (calling it throws a [TypeError]), or a function,
    which in a document is the method of a store timestamp and returns a
    [Date].  [toISOString] of that date gives the ISO string or throws a
    [RangeError] when the time value is not valid ([None]). *)
Inductive ToDate :=
| NoToDate
| ToDateValue (truthy : bool)
| ToDateMethod (toISOString : option string).

(** [createdAt] with its property [seconds]: [None] when it is absent or
    falsy, and otherwise what [new Date(seconds * 1000).toISOString()]
    gives, the ISO string or a [RangeError] ([None]) for a time value that
    is out of range or not a number. *)
Record CreatedAt := {
  toDate : ToDate;
  seconds : option (option string)
}.

Record DonationDoc := {
  dn_id : string;
  dn_createdAt : CreatedAt;
  dn_donorEmail : option string;
  dn_amount : option number;
  dn_projectId : option string
}.

Record ExpenseDoc := {
  xp_id : string;
  xp_createdAt : CreatedAt;
  xp_date : option string;
  xp_category : option string;
  xp_description : option string;
  xp_amount : option number;
  xp_project : option string;
  xp_receipt : option string
}.

(** The state [fetchData] sets. *)
Record LedgerState := {
  transactions : list Transaction;
  loading : bool
}.

Section Fetch.
(** [new Date().toISOString()] at the time of the fetch, and the time value
    of a date string. *)
Variable nowISOString : string.
Variable getTime : string -> option Z.

(** [data.createdAt?.toDate?.()?.toISOString?.() || new Date().toISOString()];
    [None] when the expression throws. *)
Definition donationDate (c : CreatedAt) : option string :=
  match toDate c with
  | NoToDate => Some nowISOString
  | ToDateValue _ => None
  | ToDateMethod (Some iso) => Some (if truthy_string iso then iso else nowISOString)
  | ToDateMethod None => None
  end.

(** The object pushed for a donation, once its date is there. *)
Definition donationEntry (d : DonationDoc) (date : string) : Transaction :=
  {| id := dn_id d;
     date := date;
     type := income;
     category := "donation";
     description := ("Donation from " ++ or_string (dn_donorEmail d) "Anonymous")%string;
     amount := or_number (dn_amount d) 0%float;
     project := or_string (dn_projectId d) "General";
     receipt := None;
     paymentMethod := Some "Stripe"%string;
     donorEmail := dn_donorEmail d |}.

Definition donationTransaction (d : DonationDoc) : option Transaction :=
  option_map (donationEntry d) (donationDate (dn_createdAt d)).

(** The chain of tests that picks the date of an expense; [None] when the
    branch taken throws. *)
Definition expenseDate (x : ExpenseDoc) : option string :=
  let fromSeconds :=
    match seconds (xp_createdAt x) with
    | Some iso => iso
    | None =>
        match xp_date x with
        | Some d => Some (if truthy_string d then d else nowISOString)
        | None => Some nowISOString
        end
    end in
  match toDate (xp_createdAt x) with
  | ToDateMethod iso => iso
  | ToDateValue true => None
  | ToDateValue false => fromSeconds
  | NoToDate => fromSeconds
  end.

(** The object pushed for an expense, once its date is there. *)
Definition expenseEntry (x : ExpenseDoc) (date : string) : Transaction :=
  {| id := xp_id x;
     date := date;
     type := expense;
     category := or_string (xp_category x) "general";
     description := or_string (xp_description x) "Expense";
     amount := or_number (xp_amount x) 0%float;
     project := or_string (xp_project x) "General";
     receipt := xp_receipt x;
     paymentMethod := None;
     donorEmail := None |}.

Definition expenseTransaction (x : ExpenseDoc) : option Transaction :=
  option_map (expenseEntry x) (expenseDate x).

(** The comparator of the ledger: [dateB - dateA]. *)
Definition newestFirst (a b : Transaction) : option Z :=
  time_sub (getTime (date b)) (getTime (date a)).

(** [snapshot.forEach(doc => allTransactions.push(..))]: the pushes, in
    order, up to the first document whose callback throws. *)
Fixpoint pushEach {A} (entry : A -> option Transaction) (docs : list A)
         (allTransactions : list Transaction) : option (list Transaction) :=
  match docs with
  | [] => Some allTransactions
  | d :: docs' =>
      match entry d with
      | Some t => pushEach entry docs' (allTransactions ++ [t])
      | None => None
      end
  end.

(** The transactions [fetchData] hands to [setTransactions], for the
    snapshots its queries resolved with; [None] when the [try] block is left
    by an exception before [setTransactions]. *)
Definition fetchTransactions (donations : list DonationDoc) (expenses : list ExpenseDoc)
  : option (list Transaction) :=
  match pushEach donationTransaction donations [] with
  | Some allTransactions =>
      match pushEach expenseTransaction expenses allTransactions with
      | Some allTransactions => Some (sort newestFirst allTransactions)
      | None => None
      end
  | None => None
  end.

(** [fetchData] on the state: the list is set when the [try] block runs to
    its end; the [catch] block only logs, and [loading] is turned off on
    both ways. *)
Definition fetchData (donations : list DonationDoc) (expenses : list ExpenseDoc)
           (st : LedgerState) : LedgerState :=
  match fetchTransactions donations expenses with
  | Some allTransactions => {| transactions := allTransactions; loading := false |}
  | None => {| transactions := transactions st; loading := false |}
  end.
End Fetch.

(** The time value of a transaction, when its date is a date. *)
Definition timeOf (getTime : string -> option Z) (t : Transaction) : Z :=
  match getTime (date t) with Some v => v | None => 0%Z end.

End LedgerPage.

(** ** The public partners page *)
Module PartnersPage.
Import JS Model.

Record Partner := {
  id : string;
  name : string;
  logo : string;
  website : option string;
  amount : option number;
  project : option string;
  note : option string;
  date : option string;
  featured : option bool
}.

Definition FOUNDING_PARTNERS : list Partner :=
  [ {| id := "grow-with-google"; name := "Grow with Google";
       logo := "/grow-with-google-logo.png";
       website := Some "https://grow.google"%string;
       amount := None; project := None; note := None; date := None;
       featured := Some true |};
    {| id := "goodstack"; name := "GoodStack"; logo := "/60.png";
       website := Some "https://goodstack.org/"%string;
       amount := None; project := None; note := None; date := None;
       featured := Some true |};
    {| id := "techsoup"; name := "TechSoup"; logo := "/TechSoup-US-Logo.png";
       website := Some "https://www.techsoup.org"%string;
       amount := None; project := None; note := None; date := None;
       featured := Some true |} ].

(** [p.amount && p.amount > 0]. *)
Definition contributes (p : Partner) : bool :=
  match amount p with
  | Some a => truthy_number a && gt0 a
  | None => false
  end.

Definition contributingPartners (firestorePartners : list Partner) : list Partner :=
  filter contributes firestorePartners.

Definition totalContributed (firestorePartners : list Partner) : number :=
  reduce (fun sum p => (sum + or_number (amount p) 0)%float) 0%float
         (contributingPartners firestorePartners).

(** The amounts [totalContributed] adds, in order. *)
Definition contributedAmounts (firestorePartners : list Partner) : list number :=
  map (fun p => or_number (amount p) 0%float) (contributingPartners firestorePartners).

(** The number shown under "Contributing Partners". *)
Definition contributingCount (firestorePartners : list Partner) : nat :=
  List.length (contributingPartners firestorePartners).

(** A [Set] of strings, with [has]. *)
Definition StringSet := list string.
Definition has (s : StringSet) (x : string) : bool := existsb (String.eqb x) s.

Section Merge.
(** The fixed list the live collection is merged with; the page uses
    [FOUNDING_PARTNERS]. *)
Variable seed : list Partner.

Definition foundingIds : StringSet := map (fun p => toLowerCase (name p)) seed.

Definition additionalPartners (firestorePartners : list Partner) : list Partner :=
  filter (fun p => negb (has foundingIds (toLowerCase (name p)))) firestorePartners.

(** The partners in the order the page renders them: the fixed list, then
    the additional ones. *)
Definition displayPartners (firestorePartners : list Partner) : list Partner :=
  seed ++ additionalPartners firestorePartners.
End Merge.

Definition pagePartners (firestorePartners : list Partner) : list Partner :=
  displayPartners FOUNDING_PARTNERS firestorePartners.

(** A partner that has only a name, as in the specification's example. *)
Definition named (n : string) : Partner :=
  {| id := EmptyString; name := n; logo := EmptyString; website := None;
     amount := None; project := None; note := None; date := None;
     featured := None |}.

Definition withAmount (n : string) (a : number) : Partner :=
  {| id := EmptyString; name := n; logo := EmptyString; website := None;
     amount := Some a; project := None; note := None; date := None;
     featured := None |}.

(** [totalContributed > 0 && ...]: whether the total is shown. *)
Definition showsTotal (firestorePartners : list Partner) : bool :=
  gt0 (totalContributed firestorePartners).

End PartnersPage.

(** ** The public giving-circle page *)
Module GivingCirclePage.
Import JS Model.

Definition expensesOf (workspace : Workspace) : list Expense :=
  match ws_expenses workspace with Some l => l | None => [] end.

(** [e.amount || 0]. *)
Definition amountOr0 (e : Expense) : number :=
  if truthy_number (ex_amount e) then ex_amount e else 0%float.

Definition totalSpent (workspace : Workspace) : number :=
  reduce (fun sum e => (sum + amountOr0 e)%float) 0%float (expensesOf workspace).

(** The progress bar is rendered only when [totalReceived > 0]; [None] is
    the absent bar. *)
Definition allocatedLabel (workspace : Workspace) : option number :=
  if gt0 (ws_totalReceived workspace)
  then Some (Math_min
               (Math_round ((totalSpent workspace / ws_totalReceived workspace) * 100)%float)
               100%float)
  else None.

Definition allocatedWidth (workspace : Workspace) : option number :=
  if gt0 (ws_totalReceived workspace)
  then Some (Math_min
               ((totalSpent workspace / ws_totalReceived workspace) * 100)%float
               100%float)
  else None.

(** A workspace with a total and one expense, for examples. *)
Definition sample (received spent : number) : Workspace :=
  {| ws_id := "w"; ws_name := "Workspace"; ws_logo := None;
     ws_totalReceived := received; ws_date := None; ws_note := None;
     ws_expenses := Some [ {| ex_id := "e"; ex_description := "spent";
                              ex_amount := spent; ex_date := None;
                              ex_note := None |} ] |}.

End GivingCirclePage.

(** ** The document store, as the dashboard writes to it *)
Module Firestore.
Import JS Model.

Inductive value :=
| VString (s : string)
| VNumber (n : number)
| VBool (b : bool)
| VServerTimestamp
| VSubProjects (l : list SubProject)
| VExpenses (l : list Expense)
| VCompletion (c : CompletionData).

(** An object literal: its fields in order. *)
Definition fields := list (string * value).

Fixpoint set_field (k : string) (v : value) (f : fields) : fields :=
  match f with
  | [] => [(k, v)]
  | (k', v') :: f' =>
      if String.eqb k' k then (k, v) :: f' else (k', v') :: set_field k v f'
  end.

(** [{...base, ...over}]: the fields of [over] replace or extend [base]. *)
Definition spread (base over : fields) : fields :=
  fold_left (fun acc kv => set_field (fst kv) (snd kv) acc) over base.

Fixpoint get_field (k : string) (f : fields) : option value :=
  match f with
  | [] => None
  | (k', v) :: f' => if String.eqb k' k then Some v else get_field k f'
  end.

Record document := {
  doc_id : string;
  doc_fields : fields
}.

(** The collections, by name. *)
Definition database := list (string * list document).

Fixpoint docs_of (coll : string) (db : database) : list document :=
  match db with
  | [] => []
  | (c, ds) :: db' => if String.eqb c coll then ds else docs_of coll db'
  end.

Fixpoint set_docs (coll : string) (ds : list document) (db : database) : database :=
  match db with
  | [] => [(coll, ds)]
  | (c, ds') :: db' =>
      if String.eqb c coll then (c, ds) :: db' else (c, ds') :: set_docs coll ds db'
  end.

Inductive write :=
| UpdateDoc (coll id : string) (data : fields)
| AddDoc (coll : string) (data : fields).

(** The store after a write that succeeded: [updateDoc] merges the fields
    into the document, [addDoc] appends a document under a new id. *)
Definition apply_write (newId : string) (w : write) (db : database) : database :=
  match w with
  | UpdateDoc coll id data =>
      if existsb (fun d => String.eqb (doc_id d) id) (docs_of coll db)
      then set_docs coll
             (map (fun d => if String.eqb (doc_id d) id
                            then {| doc_id := doc_id d;
                                    doc_fields := spread (doc_fields d) data |}
                            else d)
                  (docs_of coll db))
             db
      else db
  | AddDoc coll data =>
      set_docs coll (docs_of coll db ++ [{| doc_id := newId; doc_fields := data |}]) db
  end.

(** What a handler leaves behind outside its own state: the alerts shown,
    the writes issued (in order), and the store. *)
Record World := {
  db : database;
  issued : list write;
  alerts : list string
}.

(** The environment of one submission: whether the awaited write rejects
    (and with what), and the id the store gives a new document. *)
Record Env := {
  rejects : write -> option thrown;
  newDocId : string
}.

Definition alert (msg : string) (w : World) : World :=
  {| db := db w; issued := issued w; alerts := alerts w ++ [msg] |}.

(** [await updateDoc(..)] or [await addDoc(..)]: the write is issued; it
    either rejects, leaving the store as it is, or is applied. *)
Definition await_write (env : Env) (wr : write) (w : World)
  : World * option thrown :=
  match rejects env wr with
  | Some t =>
      ({| db := db w; issued := issued w ++ [wr]; alerts := alerts w |}, Some t)
  | None =>
      ({| db := apply_write (newDocId env) wr (db w);
          issued := issued w ++ [wr]; alerts := alerts w |}, None)
  end.

(** The writes a handler issued: those in the log after it ran that were not
    there before. *)
Definition newWrites (before after : World) : list write :=
  skipn (List.length (issued before)) (issued after).

(** An embedded array after a write, against the array before it: the
    elements whose id is not the target's are where they were, unchanged. *)
Definition keptInPlace {A} (idOf : A -> string) (target : string)
           (old new : list A) : Prop :=
  List.length new = List.length old
  /\ forall i x, nth_error old i = Some x -> idOf x <> target ->
                 nth_error new i = Some x.

(** The elements whose id is not the target's are the same before and
    after, in the same order. *)
Definition keptInOrder {A} (idOf : A -> string) (target : string)
           (old new : list A) : Prop :=
  filter (fun x => negb (String.eqb (idOf x) target)) new
  = filter (fun x => negb (String.eqb (idOf x) target)) old.

(** A store with an empty [projects] collection, nothing issued, nothing
    alerted; and an environment in which every write resolves. *)
Definition emptyWorld : World :=
  {| db := [("projects"%string, [])]; issued := []; alerts := [] |}.

Definition allResolve (newId : string) : Env :=
  {| rejects := fun _ => None; newDocId := newId |}.

End Firestore.

(** ** The projects dashboard with communities (sub-projects) *)
Module ProjectsPage.
Import JS Model Firestore.

Record Project := {
  id : string;
  title : string;
  description : string;
  category : string;
  goal : number;
  raised : option number;
  supporters : option number;
  isCompleted : option bool;
  isParent : option bool;
  subProjects : option (list SubProject);
  completionData : option CompletionData
}.

Record FormData := {
  f_title : string;
  f_subtitle : string;
  f_tagline : string;
  f_description : string;
  f_callToAction : string;
  f_category : string;
  f_goal : number;
  f_raised : number;
  f_supporters : number;
  f_image : string;
  f_tag : string;
  f_isActive : bool;
  f_isLive : bool;
  f_isCompleted : bool;
  f_isParent : bool
}.

Definition defaultFormData : FormData :=
  {| f_title := EmptyString; f_subtitle := EmptyString; f_tagline := EmptyString;
     f_description := EmptyString; f_callToAction := EmptyString;
     f_category := "water"; f_goal := 0%float; f_raised := 0%float;
     f_supporters := 0%float; f_image := EmptyString; f_tag := EmptyString;
     f_isActive := true; f_isLive := false; f_isCompleted := false;
     f_isParent := false |}.

Record SubFormData := {
  sf_title : string;
  sf_description : string;
  sf_communityName : string;
  sf_goal : number;
  sf_raised : number
}.

(** The fields [...formData] spreads into a document. *)
Definition formFields (f : FormData) : fields :=
  [ ("title", VString (f_title f)); ("subtitle", VString (f_subtitle f));
    ("tagline", VString (f_tagline f)); ("description", VString (f_description f));
    ("callToAction", VString (f_callToAction f));
    ("category", VString (f_category f)); ("goal", VNumber (f_goal f));
    ("raised", VNumber (f_raised f)); ("supporters", VNumber (f_supporters f));
    ("image", VString (f_image f)); ("tag", VString (f_tag f));
    ("isActive", VBool (f_isActive f)); ("isLive", VBool (f_isLive f));
    ("isCompleted", VBool (f_isCompleted f));
    ("isParent", VBool (f_isParent f)) ]%string.

(** The component's state, as far as the handlers read or set it. *)
Record State := {
  saving : bool;
  showModal : bool;
  editingProject : option Project;
  formData : FormData;
  showSubModal : bool;
  subModalParent : option Project;
  editingSubProject : option SubProject;
  subFormData : SubFormData;
  showCompletionModal : bool;
  completingProject : option Project;
  completingSubProject : option SubProject;
  completionFormData : CompletionForm
}.

Definition setSaving (b : bool) (st : State) : State :=
  {| saving := b; showModal := showModal st; editingProject := editingProject st;
     formData := formData st; showSubModal := showSubModal st;
     subModalParent := subModalParent st; editingSubProject := editingSubProject st;
     subFormData := subFormData st; showCompletionModal := showCompletionModal st;
     completingProject := completingProject st;
     completingSubProject := completingSubProject st;
     completionFormData := completionFormData st |}.

(** [setShowModal(false); setEditingProject(null)]. *)
Definition closeModal (st : State) : State :=
  {| saving := saving st; showModal := false; editingProject := None;
     formData := formData st; showSubModal := showSubModal st;
     subModalParent := subModalParent st; editingSubProject := editingSubProject st;
     subFormData := subFormData st; showCompletionModal := showCompletionModal st;
     completingProject := completingProject st;
     completingSubProject := completingSubProject st;
     completionFormData := completionFormData st |}.

(** [setShowSubModal(false); setSubModalParent(null); setEditingSubProject(null)]. *)
Definition closeSubModal (st : State) : State :=
  {| saving := saving st; showModal := showModal st;
     editingProject := editingProject st; formData := formData st;
     showSubModal := false; subModalParent := None; editingSubProject := None;
     subFormData := subFormData st; showCompletionModal := showCompletionModal st;
     completingProject := completingProject st;
     completingSubProject := completingSubProject st;
     completionFormData := completionFormData st |}.

(** [setShowCompletionModal(false); setCompletingProject(null);
    setCompletingSubProject(null)]. *)
Definition closeCompletionModal (st : State) : State :=
  {| saving := saving st; showModal := showModal st;
     editingProject := editingProject st; formData := formData st;
     showSubModal := showSubModal st; subModalParent := subModalParent st;
     editingSubProject := editingSubProject st; subFormData := subFormData st;
     showCompletionModal := false; completingProject := None;
     completingSubProject := None;
     completionFormData := completionFormData st |}.

(** The form of communities and the completion form as [useState] first
    holds them; [today] is the date part of [new Date().toISOString()]. *)
Definition defaultSubProjectForm : SubFormData :=
  {| sf_title := EmptyString; sf_description := EmptyString;
     sf_communityName := EmptyString; sf_goal := 0%float; sf_raised := 0%float |}.

Definition defaultCompletionForm (today : string) : CompletionForm :=
  {| cf_completedDate := today; cf_completionStory := EmptyString;
     cf_beforeImages := [EmptyString]; cf_afterImages := [EmptyString];
     cf_progressImages := [EmptyString];
     cf_testimonials :=
       [ {| tf_name := EmptyString; tf_text := EmptyString; tf_role := EmptyString |} ];
     cf_impactStats :=
       {| isf_peopleHelped := 0%float; isf_itemsDistributed := 0%float;
          isf_customMetric := EmptyString |} |}.

Definition initialState (today : string) : State :=
  {| saving := false; showModal := false; editingProject := None;
     formData := defaultFormData; showSubModal := false; subModalParent := None;
     editingSubProject := None; subFormData := defaultSubProjectForm;
     showCompletionModal := false; completingProject := None;
     completingSubProject := None;
     completionFormData := defaultCompletionForm today |}.

(** The state after the "add project" modal was opened and filled in. *)
Definition withForm (f : FormData) (st : State) : State :=
  {| saving := saving st; showModal := true; editingProject := None;
     formData := f; showSubModal := showSubModal st;
     subModalParent := subModalParent st; editingSubProject := editingSubProject st;
     subFormData := subFormData st; showCompletionModal := showCompletionModal st;
     completingProject := completingProject st;
     completingSubProject := completingSubProject st;
     completionFormData := completionFormData st |}.

(** [!formData.title || !formData.description || formData.goal <= 0]. *)
Definition projectFormInvalid (f : FormData) : bool :=
  negb (truthy_string (f_title f))
  || negb (truthy_string (f_description f))
  || le0 (f_goal f).

Definition projectWrite (st : State) : write :=
  match editingProject st with
  | Some p =>
      UpdateDoc "projects" (id p)
        (spread (formFields (formData st)) [("updatedAt", VServerTimestamp)]%string)
  | None =>
      AddDoc "projects"
        (spread (formFields (formData st))
           [ ("subProjects", VSubProjects []); ("isCompleted", VBool false);
             ("createdAt", VServerTimestamp); ("updatedAt", VServerTimestamp) ]%string)
  end.

Definition handleProjectSubmit (env : Env) (st : State) (w : World) : State * World :=
  if projectFormInvalid (formData st)
  then (st, alert "Please fill in all required fields" w)
  else
    let st1 := setSaving true st in
    match await_write env (projectWrite st) w with
    | (w1, None) => (setSaving false (closeModal st1), w1)
    | (w1, Some t) =>
        (setSaving false st1,
         alert ("Failed to save: " ++ error_message t)%string w1)
    end.

(** [progressPct = (raised = 0, goal = 1) => ..]; an absent argument takes
    its default. *)
Definition progressPct (raised goal : option number) : number :=
  let raised := match raised with Some r => r | None => 0%float end in
  let goal := match goal with Some g => g | None => 1%float end in
  if gt0 goal then Math_min ((raised / goal) * 100)%float 100%float else 0%float.

(** The label formats with [toFixed(1)] the number it is given, which is
    [progressPct] of the same record, as the bar's width is. *)
Definition progressLabelNumber (raised goal : option number) : number :=
  progressPct raised goal.

Definition progressWidth (raised goal : option number) : number :=
  progressPct raised goal.

(** [u => u.trim()] as a test. *)
Definition nonBlank (u : string) : bool := truthy_string (trim u).

Definition buildCleanCompletionData (completionFormData : CompletionForm)
  : CompletionData :=
  {| completedDate := Some (cf_completedDate completionFormData);
     completionStory := Some (cf_completionStory completionFormData);
     beforeImages := Some (filter nonBlank (cf_beforeImages completionFormData));
     afterImages := Some (filter nonBlank (cf_afterImages completionFormData));
     progressImages := Some (filter nonBlank (cf_progressImages completionFormData));
     testimonials :=
       Some (map testimonial_of_form
               (filter (fun t => truthy_string (trim (tf_name t))
                                 && truthy_string (trim (tf_text t)))
                       (cf_testimonials completionFormData)));
     impactStats := Some (impactStats_of_form (cf_impactStats completionFormData)) |}.

(** [{ ...s, ...subFormData }]. *)
Definition applySubForm (s : SubProject) (f : SubFormData) : SubProject :=
  {| sub_id := sub_id s;
     sub_title := sf_title f;
     sub_description := Some (sf_description f);
     sub_communityName := Some (sf_communityName f);
     sub_goal := sf_goal f;
     sub_raised := sf_raised f;
     sub_isCompleted := sub_isCompleted s;
     sub_completionData := sub_completionData s;
     sub_createdAt := sub_createdAt s |}.

(** [{ ...s, isCompleted: true, completionData: cleanData }]. *)
Definition markCompleted (s : SubProject) (cleanData : CompletionData) : SubProject :=
  {| sub_id := sub_id s;
     sub_title := sub_title s;
     sub_description := sub_description s;
     sub_communityName := sub_communityName s;
     sub_goal := sub_goal s;
     sub_raised := sub_raised s;
     sub_isCompleted := Some true;
     sub_completionData := Some cleanData;
     sub_createdAt := sub_createdAt s |}.

(** [project.subProjects || []]. *)
Definition subsOf (p : Project) : list SubProject :=
  match subProjects p with Some l => l | None => [] end.

(** The environment of a sub-project submission: the id [generateSubId()]
    returns and [new Date().toISOString()]. *)
Record SubEnv := {
  generatedSubId : string;
  nowISOString : string
}.

(** [updatedSubs] in [handleSubProjectSubmit]. *)
Definition updatedSubs_submit (senv : SubEnv) (parent : Project)
           (editing : option SubProject) (f : SubFormData) : list SubProject :=
  let currentSubs := subsOf parent in
  match editing with
  | Some e =>
      map (fun s => if String.eqb (sub_id s) (sub_id e) then applySubForm s f else s)
          currentSubs
  | None =>
      currentSubs ++
        [ {| sub_id := generatedSubId senv;
             sub_title := sf_title f;
             sub_description := Some (sf_description f);
             sub_communityName := Some (sf_communityName f);
             sub_goal := sf_goal f;
             sub_raised := sf_raised f;
             sub_isCompleted := Some false;
             sub_completionData := None;
             sub_createdAt := Some (nowISOString senv) |} ]
  end.

Definition handleSubProjectSubmit (env : Env) (senv : SubEnv) (st : State) (w : World)
  : State * World :=
  match subModalParent st with
  | None => (st, alert "Please fill in Title and Goal" w)
  | Some parent =>
      if negb (truthy_string (sf_title (subFormData st))) || le0 (sf_goal (subFormData st))
      then (st, alert "Please fill in Title and Goal" w)
      else
        let st1 := setSaving true st in
        let updatedSubs :=
          updatedSubs_submit senv parent (editingSubProject st) (subFormData st) in
        match await_write env
                (UpdateDoc "projects" (id parent)
                   [ ("subProjects", VSubProjects updatedSubs);
                     ("updatedAt", VServerTimestamp) ]%string) w with
        | (w1, None) => (setSaving false (closeSubModal st1), w1)
        | (w1, Some t) =>
            (setSaving false st1,
             alert ("Failed to save community: " ++ error_message t)%string w1)
        end
  end.

(** [updatedSubs] in [handleCompletionSubmit]. *)
Definition updatedSubs_completion (parent : Project) (completing : SubProject)
           (cleanData : CompletionData) : list SubProject :=
  map (fun s => if String.eqb (sub_id s) (sub_id completing)
                then markCompleted s cleanData else s)
      (subsOf parent).

Definition completionWrite (parent : Project) (completing : option SubProject)
           (cleanData : CompletionData) : write :=
  match completing with
  | Some sub =>
      UpdateDoc "projects" (id parent)
        [ ("subProjects", VSubProjects (updatedSubs_completion parent sub cleanData));
          ("updatedAt", VServerTimestamp) ]%string
  | None =>
      UpdateDoc "projects" (id parent)
        [ ("isCompleted", VBool true); ("completionData", VCompletion cleanData);
          ("updatedAt", VServerTimestamp) ]%string
  end.

Definition handleCompletionSubmit (env : Env) (st : State) (w : World) : State * World :=
  match completingProject st with
  | None => (st, w)
  | Some parent =>
      let st1 := setSaving true st in
      let cleanData := buildCleanCompletionData (completionFormData st) in
      match await_write env
              (completionWrite parent (completingSubProject st) cleanData) w with
      | (w1, None) =>
          (setSaving false (closeCompletionModal st1),
           alert "Marked as completed successfully!" w1)
      | (w1, Some t) =>
          (setSaving false st1, alert ("Failed: " ++ error_message t)%string w1)
      end
  end.

(** The array a write stores under [subProjects], if it stores one. *)
Definition writtenSubProjects (wr : write) : option (list SubProject) :=
  match wr with
  | UpdateDoc _ _ data | AddDoc _ data =>
      match get_field "subProjects" data with
      | Some (VSubProjects l) => Some l
      | _ => None
      end
  end.

(** [toggleExpand], on the set of expanded ids; the giving-circle pages
    have the same function. *)
Definition toggleExpand (id : string) (prev : list string) : list string :=
  if Set_has prev id then Set_delete prev id else Set_add prev id.

(** The three lists of image addresses of the completion form. *)
Inductive ImageField := beforeImagesField | afterImagesField | progressImagesField.

Definition getImages (type : ImageField) (f : CompletionForm) : list string :=
  match type with
  | beforeImagesField => cf_beforeImages f
  | afterImagesField => cf_afterImages f
  | progressImagesField => cf_progressImages f
  end.

(** [{ ...prev, [type]: arr }]. *)
Definition setImages (type : ImageField) (arr : list string) (f : CompletionForm)
  : CompletionForm :=
  {| cf_completedDate := cf_completedDate f;
     cf_completionStory := cf_completionStory f;
     cf_beforeImages :=
       match type with beforeImagesField => arr | _ => cf_beforeImages f end;
     cf_afterImages :=
       match type with afterImagesField => arr | _ => cf_afterImages f end;
     cf_progressImages :=
       match type with progressImagesField => arr | _ => cf_progressImages f end;
     cf_testimonials := cf_testimonials f;
     cf_impactStats := cf_impactStats f |}.

(** [{ ...prev, testimonials: arr }]. *)
Definition setTestimonials (arr : list TestimonialForm) (f : CompletionForm)
  : CompletionForm :=
  {| cf_completedDate := cf_completedDate f;
     cf_completionStory := cf_completionStory f;
     cf_beforeImages := cf_beforeImages f;
     cf_afterImages := cf_afterImages f;
     cf_progressImages := cf_progressImages f;
     cf_testimonials := arr;
     cf_impactStats := cf_impactStats f |}.

(** The edits of the date, the story and the impact figures: the lists stay. *)
Definition setScalars (date story : string) (stats : ImpactStatsForm)
           (f : CompletionForm) : CompletionForm :=
  {| cf_completedDate := date;
     cf_completionStory := story;
     cf_beforeImages := cf_beforeImages f;
     cf_afterImages := cf_afterImages f;
     cf_progressImages := cf_progressImages f;
     cf_testimonials := cf_testimonials f;
     cf_impactStats := stats |}.

Definition emptyTestimonial : TestimonialForm :=
  {| tf_name := EmptyString; tf_text := EmptyString; tf_role := EmptyString |}.

Definition addImageField (type : ImageField) (f : CompletionForm) : CompletionForm :=
  setImages type (getImages type f ++ [EmptyString]) f.

(** [None] when [index] is beyond the end of the list by more than one: the
    array would get holes.  The handler is called with the index of a
    rendered field. *)
Definition updateImageField (type : ImageField) (index : nat) (value : string)
           (f : CompletionForm) : option CompletionForm :=
  option_map (fun arr => setImages type arr f)
             (assign_index index value (getImages type f)).

(** [arr.length > 0 ? arr : ['']]. *)
Definition orOne {A} (one : A) (arr : list A) : list A :=
  match arr with [] => [one] | _ :: _ => arr end.

Definition removeImageField (type : ImageField) (index : nat) (f : CompletionForm)
  : CompletionForm :=
  let arr := filter_index (fun i => negb (Nat.eqb i index)) 0 (getImages type f) in
  setImages type (orOne EmptyString arr) f.

Definition addTestimonial (f : CompletionForm) : CompletionForm :=
  setTestimonials (cf_testimonials f ++ [emptyTestimonial]) f.

Inductive TestimonialField := nameField | textField | roleField.

(** [arr[index][field] = value] on one testimonial. *)
Definition assignField (field : TestimonialField) (value : string)
           (t : TestimonialForm) : TestimonialForm :=
  match field with
  | nameField => {| tf_name := value; tf_text := tf_text t; tf_role := tf_role t |}
  | textField => {| tf_name := tf_name t; tf_text := value; tf_role := tf_role t |}
  | roleField => {| tf_name := tf_name t; tf_text := tf_text t; tf_role := value |}
  end.

(** [None] when [index] is beyond the list: [arr[index]] is then undefined,
    the assignment throws and the state is not set. *)
Definition updateTestimonial (index : nat) (field : TestimonialField) (value : string)
           (f : CompletionForm) : option CompletionForm :=
  match nth_error (cf_testimonials f) index with
  | Some t =>
      option_map (fun arr => setTestimonials arr f)
                 (assign_index index (assignField field value t) (cf_testimonials f))
  | None => None
  end.

Definition removeTestimonial (index : nat) (f : CompletionForm) : CompletionForm :=
  let arr := filter_index (fun i => negb (Nat.eqb i index)) 0 (cf_testimonials f) in
  setTestimonials (orOne emptyTestimonial arr) f.

(** [data.beforeImages?.length ? data.beforeImages : ['']]. *)
Definition listOrOne {A} (one : A) (arr : option (list A)) : list A :=
  match arr with
  | Some (x :: l) => x :: l
  | _ => [one]
  end.

(** [prefillCompletionForm]; [loadDay] is the date of [defaultCompletionForm],
    taken when the module is loaded, and [today] the date at the call. *)
Definition prefillCompletionForm (loadDay today : string) (data : option CompletionData)
  : CompletionForm :=
  match data with
  | Some data =>
      {| cf_completedDate := or_string (completedDate data) today;
         cf_completionStory := or_string (completionStory data) EmptyString;
         cf_beforeImages := listOrOne EmptyString (beforeImages data);
         cf_afterImages := listOrOne EmptyString (afterImages data);
         cf_progressImages := listOrOne EmptyString (progressImages data);
         cf_testimonials :=
           match testimonials data with
           | Some (t :: l) =>
               map (fun t => {| tf_name := t_name t; tf_text := t_text t;
                                tf_role := or_string (t_role t) EmptyString |})
                   (t :: l)
           | _ => [emptyTestimonial]
           end;
         cf_impactStats :=
           {| isf_peopleHelped :=
                match impactStats data with
                | Some st => match peopleHelped st with Some v => v | None => 0%float end
                | None => 0%float
                end;
              isf_itemsDistributed :=
                match impactStats data with
                | Some st => match itemsDistributed st with Some v => v | None => 0%float end
                | None => 0%float
                end;
              isf_customMetric :=
                match impactStats data with
                | Some st => match customMetric st with Some v => v | None => EmptyString end
                | None => EmptyString
                end |} |}
  | None => defaultCompletionForm loadDay
  end.

(** One change of the completion form: every call of [setCompletionFormData]
    in the component is one of these. *)
Inductive formStep : CompletionForm -> CompletionForm -> Prop :=
| step_addImage type f : formStep f (addImageField type f)
| step_updateImage type index value f f' :
    updateImageField type index value f = Some f' -> formStep f f'
| step_removeImage type index f : formStep f (removeImageField type index f)
| step_addTestimonial f : formStep f (addTestimonial f)
| step_updateTestimonial index field value f f' :
    updateTestimonial index field value f = Some f' -> formStep f f'
| step_removeTestimonial index f : formStep f (removeTestimonial index f)
| step_prefill loadDay today data f :
    formStep f (prefillCompletionForm loadDay today data)
| step_scalars date story stats f : formStep f (setScalars date story stats f).

(** The forms the component can hold, from its first state on. *)
Inductive formReachable (loadDay : string) : CompletionForm -> Prop :=
| reach_initial : formReachable loadDay (defaultCompletionForm loadDay)
| reach_step f f' : formReachable loadDay f -> formStep f f' -> formReachable loadDay f'.

(** Every list of the form has a field to type in. *)
Definition hasFields (f : CompletionForm) : Prop :=
  cf_beforeImages f <> [] /\ cf_afterImages f <> []
  /\ cf_progressImages f <> [] /\ cf_testimonials f <> [].

(** [!p.isCompleted] and [p.isCompleted] as tests. *)
Definition projectCompleted (p : Project) : bool :=
  truthy_opt truthy_bool (isCompleted p).

Definition activeProjects (projects : list Project) : list Project :=
  filter (fun p => negb (projectCompleted p)) projects.

Definition completedProjects (projects : list Project) : list Project :=
  filter projectCompleted projects.

Definition subIsCompleted (s : SubProject) : bool :=
  truthy_opt truthy_bool (sub_isCompleted s).

(** [completedSubs] and [activeSub] of a project card. *)
Definition completedSubs (p : Project) : nat :=
  List.length (filter subIsCompleted (subsOf p)).

Definition activeSub (p : Project) : option SubProject :=
  find_first (fun s => negb (subIsCompleted s)) (subsOf p).

(** The state [handleDeleteSubProject] reads and sets. *)
Record DeleteSubState := {
  deleting : bool;
  showDeleteSubModal : bool;
  deletingSubProject : option (SubProject * Project)
}.

Definition handleDeleteSubProject (env : Env) (st : DeleteSubState) (w : World)
  : DeleteSubState * World :=
  match deletingSubProject st with
  | None => (st, w)
  | Some (sub, parent) =>
      let updatedSubs :=
        filter (fun s => negb (String.eqb (sub_id s) (sub_id sub))) (subsOf parent) in
      match await_write env
              (UpdateDoc "projects" (id parent)
                 [ ("subProjects", VSubProjects updatedSubs);
                   ("updatedAt", VServerTimestamp) ]%string) w with
      | (w1, None) =>
          ({| deleting := false; showDeleteSubModal := false;
              deletingSubProject := None |}, w1)
      | (w1, Some t) =>
          ({| deleting := false; showDeleteSubModal := showDeleteSubModal st;
              deletingSubProject := deletingSubProject st |},
           alert ("Failed to delete: " ++ error_message t)%string w1)
      end
  end.

End ProjectsPage.

(** ** The projects dashboard without communities
    ([src/app/dashboard/projects/page.tsx]) *)
Module DashboardProjectsPage.
Import JS Model Firestore.

Record Project := {
  id : string;
  title : string;
  description : string;
  goal : number;
  raised : option number;
  isCompleted : option bool;
  completionData : option CompletionData
}.

Record FormData := {
  f_title : string;
  f_subtitle : string;
  f_tagline : string;
  f_description : string;
  f_callToAction : string;
  f_category : string;
  f_goal : number;
  f_raised : number;
  f_supporters : number;
  f_image : string;
  f_tag : string;
  f_isActive : bool;
  f_isLive : bool;
  f_isCompleted : bool
}.

Record State := {
  saving : bool;
  showModal : bool;
  editingProject : option Project;
  formData : FormData;
  showCompletionModal : bool;
  completingProject : option Project;
  completionFormData : CompletionForm
}.

Definition setSaving (b : bool) (st : State) : State :=
  {| saving := b; showModal := showModal st; editingProject := editingProject st;
     formData := formData st; showCompletionModal := showCompletionModal st;
     completingProject := completingProject st;
     completionFormData := completionFormData st |}.

Definition handleCloseModal (st : State) : State :=
  {| saving := saving st; showModal := false; editingProject := None;
     formData := formData st; showCompletionModal := showCompletionModal st;
     completingProject := completingProject st;
     completionFormData := completionFormData st |}.

Definition handleCloseCompletionModal (st : State) : State :=
  {| saving := saving st; showModal := showModal st;
     editingProject := editingProject st; formData := formData st;
     showCompletionModal := false; completingProject := None;
     completionFormData := completionFormData st |}.

(** [s.replace(/\s+/g, '-')]: every maximal run of white space becomes one
    dash. *)
Fixpoint dashes (inRun : bool) (s : string) : string :=
  match s with
  | EmptyString => EmptyString
  | String c s' =>
      if is_white c
      then if inRun then dashes true s' else String "-"%char (dashes true s')
      else String c (dashes false s')
  end.

Definition formInvalid (f : FormData) : bool :=
  negb (truthy_string (f_title f))
  || negb (truthy_string (f_description f))
  || le0 (f_goal f).

(** The fields both branches of [handleSubmit] write, up to [isLive]. *)
Definition commonFields (f : FormData) : fields :=
  [ ("title", VString (f_title f)); ("subtitle", VString (f_subtitle f));
    ("tagline", VString (f_tagline f)); ("description", VString (f_description f));
    ("callToAction", VString (f_callToAction f));
    ("category", VString (f_category f)); ("goal", VNumber (f_goal f));
    ("raised", VNumber (or_number (Some (f_raised f)) 0%float));
    ("supporters", VNumber (or_number (Some (f_supporters f)) 0%float));
    ("image", VString (f_image f)); ("tag", VString (f_tag f));
    ("isActive", VBool (f_isActive f)); ("isLive", VBool (f_isLive f)) ]%string.

Definition submitWrite (st : State) : write :=
  let f := formData st in
  match editingProject st with
  | Some p =>
      UpdateDoc "projects" (id p)
        (commonFields f ++
           [ ("isCompleted", VBool (f_isCompleted f));
             ("updatedAt", VServerTimestamp) ]%string)
  | None =>
      AddDoc "projects"
        (commonFields f ++
           [ ("isCompleted", VBool (f_isCompleted f || false));
             ("id", VString (dashes false (toLowerCase (f_title f))));
             ("createdAt", VServerTimestamp);
             ("updatedAt", VServerTimestamp) ]%string)
  end.

Definition handleSubmit (env : Env) (st : State) (w : World) : State * World :=
  if formInvalid (formData st)
  then (st, alert "Please fill in all required fields (Title, Description, Goal)" w)
  else
    let st1 := setSaving true st in
    match await_write env (submitWrite st) w with
    | (w1, None) => (setSaving false (handleCloseModal st1), w1)
    | (w1, Some t) =>
        (setSaving false st1,
         alert ("Failed to save project: " ++ error_message t)%string w1)
    end.

(** The number in the [width] of a project's progress bar, and the number
    the label formats with [toFixed(1)]. *)
Definition progressWidth (p : Project) : number :=
  if gt0 (goal p)
  then Math_min ((or_number (raised p) 0%float / goal p) * 100)%float 100%float
  else 0%float.

Definition progressLabelNumber (p : Project) : number :=
  if gt0 (goal p)
  then ((or_number (raised p) 0%float / goal p) * 100)%float
  else 0%float.

(** [url => url.trim() !== '']. *)
Definition notEmptyTrimmed (u : string) : bool := negb (String.eqb (trim u) EmptyString).

(** [cleanCompletionData] in [handleCompletionSubmit]. *)
Definition cleanCompletionData (completionFormData : CompletionForm) : CompletionData :=
  {| completedDate := Some (cf_completedDate completionFormData);
     completionStory := Some (cf_completionStory completionFormData);
     beforeImages := Some (filter notEmptyTrimmed (cf_beforeImages completionFormData));
     afterImages := Some (filter notEmptyTrimmed (cf_afterImages completionFormData));
     progressImages :=
       Some (filter notEmptyTrimmed (cf_progressImages completionFormData));
     testimonials :=
       Some (map testimonial_of_form
               (filter (fun t => notEmptyTrimmed (tf_name t)
                                 && notEmptyTrimmed (tf_text t))
                       (cf_testimonials completionFormData)));
     impactStats := Some (impactStats_of_form (cf_impactStats completionFormData)) |}.

Definition handleCompletionSubmit (env : Env) (st : State) (w : World) : State * World :=
  match completingProject st with
  | None => (st, w)
  | Some p =>
      let st1 := setSaving true st in
      match await_write env
              (UpdateDoc "projects" (id p)
                 [ ("isCompleted", VBool true);
                   ("completionData",
                    VCompletion (cleanCompletionData (completionFormData st)));
                   ("updatedAt", VServerTimestamp) ]%string) w with
      | (w1, None) =>
          (setSaving false (handleCloseCompletionModal st1),
           alert "Project marked as completed successfully!" w1)
      | (w1, Some t) =>
          (setSaving false st1,
           alert ("Failed to complete project: " ++ error_message t)%string w1)
      end
  end.

(** The form [handleOpenCompletionModal] sets; [today] is the date at the
    call.  A list that is stored is taken as it is, also when it is empty. *)
Definition openCompletionForm (today : string) (data : option CompletionData)
  : CompletionForm :=
  let one := {| tf_name := EmptyString; tf_text := EmptyString;
                tf_role := EmptyString |} in
  match data with
  | Some data =>
      {| cf_completedDate := or_string (completedDate data) today;
         cf_completionStory := or_string (completionStory data) EmptyString;
         cf_beforeImages :=
           match beforeImages data with Some l => l | None => [EmptyString] end;
         cf_afterImages :=
           match afterImages data with Some l => l | None => [EmptyString] end;
         cf_progressImages :=
           match progressImages data with Some l => l | None => [EmptyString] end;
         cf_testimonials :=
           match testimonials data with
           | Some (t :: l) =>
               map (fun t => {| tf_name := t_name t; tf_text := t_text t;
                                tf_role := or_string (t_role t) EmptyString |})
                   (t :: l)
           | _ => [one]
           end;
         cf_impactStats :=
           {| isf_peopleHelped :=
                match impactStats data with
                | Some st => match peopleHelped st with Some v => v | None => 0%float end
                | None => 0%float
                end;
              isf_itemsDistributed :=
                match impactStats data with
                | Some st => match itemsDistributed st with Some v => v | None => 0%float end
                | None => 0%float
                end;
              isf_customMetric :=
                match impactStats data with
                | Some st => match customMetric st with Some v => v | None => EmptyString end
                | None => EmptyString
                end |} |}
  | None =>
      {| cf_completedDate := today; cf_completionStory := EmptyString;
         cf_beforeImages := [EmptyString]; cf_afterImages := [EmptyString];
         cf_progressImages := [EmptyString]; cf_testimonials := [one];
         cf_impactStats :=
           {| isf_peopleHelped := 0%float; isf_itemsDistributed := 0%float;
              isf_customMetric := EmptyString |} |}
  end.

(** The [id] of a listed project: the snapshot maps a document to
    [{ id: doc.id, ...doc.data() }], so a field [id] of the data comes after
    the document's id and replaces it.  [None] stands for a stored [id] that
    is not a string. *)
Definition listedId (d : document) : option string :=
  match get_field "id" (doc_fields d) with
  | Some (VString s) => Some s
  | Some _ => None
  | None => Some (doc_id d)
  end.

(** The id a new project stores in its data. *)
Definition projectId (f : FormData) : string := dashes false (toLowerCase (f_title f)).

(** The state in which the modal edits the listed project [p] with the form
    [f], and the state in which it adds a project. *)
Definition editing (p : Project) (f : FormData) (st : State) : State :=
  {| saving := saving st; showModal := true; editingProject := Some p;
     formData := f; showCompletionModal := showCompletionModal st;
     completingProject := completingProject st;
     completionFormData := completionFormData st |}.

Definition adding (f : FormData) (st : State) : State :=
  {| saving := saving st; showModal := true; editingProject := None;
     formData := f; showCompletionModal := showCompletionModal st;
     completingProject := completingProject st;
     completionFormData := completionFormData st |}.

(** [!p.isCompleted] and [p.isCompleted] as tests. *)
Definition projectCompleted (p : Project) : bool :=
  truthy_opt truthy_bool (isCompleted p).

Definition activeProjects (projects : list Project) : list Project :=
  filter (fun p => negb (projectCompleted p)) projects.

Definition completedProjects (projects : list Project) : list Project :=
  filter projectCompleted projects.

End DashboardProjectsPage.

(** ** The giving-circle dashboard *)
Module AdminGivingCirclePage.
Import JS Model Firestore.

Record ExpenseForm := {
  ef_description : string;
  ef_amount : number;
  ef_date : string;
  ef_note : string
}.

Record State := {
  saving : bool;
  deleting : bool;
  showExpenseModal : bool;
  expenseParent : option Workspace;
  editingExpense : option Expense;
  expenseForm : ExpenseForm;
  showDeleteExpense : bool;
  deletingExpense : option (Expense * Workspace)
}.

Definition setSaving (b : bool) (st : State) : State :=
  {| saving := b; deleting := deleting st; showExpenseModal := showExpenseModal st;
     expenseParent := expenseParent st; editingExpense := editingExpense st;
     expenseForm := expenseForm st; showDeleteExpense := showDeleteExpense st;
     deletingExpense := deletingExpense st |}.

Definition setDeleting (b : bool) (st : State) : State :=
  {| saving := saving st; deleting := b; showExpenseModal := showExpenseModal st;
     expenseParent := expenseParent st; editingExpense := editingExpense st;
     expenseForm := expenseForm st; showDeleteExpense := showDeleteExpense st;
     deletingExpense := deletingExpense st |}.

Definition setShowExpenseModal (b : bool) (st : State) : State :=
  {| saving := saving st; deleting := deleting st; showExpenseModal := b;
     expenseParent := expenseParent st; editingExpense := editingExpense st;
     expenseForm := expenseForm st; showDeleteExpense := showDeleteExpense st;
     deletingExpense := deletingExpense st |}.

(** [setShowDeleteExpense(false); setDeletingExpense(null)]. *)
Definition closeDeleteExpense (st : State) : State :=
  {| saving := saving st; deleting := deleting st;
     showExpenseModal := showExpenseModal st;
     expenseParent := expenseParent st; editingExpense := editingExpense st;
     expenseForm := expenseForm st; showDeleteExpense := false;
     deletingExpense := None |}.

(** [{ ...ex, ...expenseForm, amount: Number(expenseForm.amount) }];
    [Number] of a number is that number. *)
Definition applyExpenseForm (ex : Expense) (f : ExpenseForm) : Expense :=
  {| ex_id := ex_id ex;
     ex_description := ef_description f;
     ex_amount := ef_amount f;
     ex_date := Some (ef_date f);
     ex_note := Some (ef_note f) |}.

(** [expenseParent.expenses || []]. *)
Definition expensesOf (w : Workspace) : list Expense :=
  match ws_expenses w with Some l => l | None => [] end.

(** [updated] in [handleExpenseSubmit]; [genId] is the id [genId()] returns. *)
Definition updated_submit (genId : string) (parent : Workspace)
           (editing : option Expense) (f : ExpenseForm) : list Expense :=
  let current := expensesOf parent in
  match editing with
  | Some e =>
      map (fun ex => if String.eqb (ex_id ex) (ex_id e) then applyExpenseForm ex f else ex)
          current
  | None =>
      current ++
        [ {| ex_id := genId; ex_description := ef_description f;
             ex_amount := ef_amount f; ex_date := Some (ef_date f);
             ex_note := Some (ef_note f) |} ]
  end.

(** A rejection is shown as ['Failed: ' + (err instanceof Error ?
    err.message : err)]; the text of a thrown value that is not an [Error]
    is its own conversion to a string, taken as given. *)
Definition failedText (otherText : string) (t : thrown) : string :=
  match t with
  | ErrorObject m => ("Failed: " ++ m)%string
  | OtherValue => ("Failed: " ++ otherText)%string
  end.

Definition handleExpenseSubmit (env : Env) (genId otherText : string)
           (st : State) (w : World) : State * World :=
  match expenseParent st with
  | None => (st, w)
  | Some parent =>
      if negb (truthy_string (ef_description (expenseForm st))) then (st, w)
      else
        let st1 := setSaving true st in
        let updated := updated_submit genId parent (editingExpense st) (expenseForm st) in
        match await_write env
                (UpdateDoc "workspaces" (ws_id parent)
                   [ ("expenses", VExpenses updated);
                     ("updatedAt", VServerTimestamp) ]%string) w with
        | (w1, None) => (setSaving false (setShowExpenseModal false st1), w1)
        | (w1, Some t) => (setSaving false st1, alert (failedText otherText t) w1)
        end
  end.

(** [updated] in [handleDeleteExpense], on the workspace's [expenses] array. *)
Definition updated_delete (target : Expense) (expenses : list Expense) : list Expense :=
  filter (fun e => negb (String.eqb (ex_id e) (ex_id target))) expenses.

(** [handleDeleteExpense] reads [workspace.expenses] as it is: on a
    workspace without the array the call of [filter] throws a [TypeError]
    inside the [try], with the runtime's message [typeErrorMessage]. *)
Definition handleDeleteExpense (env : Env) (otherText typeErrorMessage : string)
           (st : State) (w : World) : State * World :=
  match deletingExpense st with
  | None => (st, w)
  | Some (target, workspace) =>
      let st1 := setDeleting true st in
      match ws_expenses workspace with
      | None =>
          (setDeleting false st1,
           alert (failedText otherText (ErrorObject typeErrorMessage)) w)
      | Some expenses =>
          match await_write env
                  (UpdateDoc "workspaces" (ws_id workspace)
                     [ ("expenses", VExpenses (updated_delete target expenses));
                       ("updatedAt", VServerTimestamp) ]%string) w with
          | (w1, None) => (setDeleting false (closeDeleteExpense st1), w1)
          | (w1, Some t) => (setDeleting false st1, alert (failedText otherText t) w1)
          end
      end
  end.

(** The array a write stores under [expenses], if it stores one. *)
Definition writtenExpenses (wr : write) : option (list Expense) :=
  match wr with
  | UpdateDoc _ _ data | AddDoc _ data =>
      match get_field "expenses" data with
      | Some (VExpenses l) => Some l
      | _ => None
      end
  end.

Record WorkspaceForm := {
  wf_name : string;
  wf_logo : string;
  wf_totalReceived : number;
  wf_date : string;
  wf_note : string
}.

(** The state [handleWorkspaceSubmit] reads and sets. *)
Record WorkspaceState := {
  ws_saving : bool;
  showWorkspaceModal : bool;
  editingWorkspace : option Workspace;
  workspaceForm : WorkspaceForm
}.

(** [{ ...workspaceForm, totalReceived: Number(workspaceForm.totalReceived) }]. *)
Definition workspaceFields (f : WorkspaceForm) : fields :=
  spread [ ("name", VString (wf_name f)); ("logo", VString (wf_logo f));
           ("totalReceived", VNumber (wf_totalReceived f));
           ("date", VString (wf_date f)); ("note", VString (wf_note f)) ]%string
         [ ("totalReceived", VNumber (wf_totalReceived f)) ]%string.

Definition workspaceWrite (st : WorkspaceState) : write :=
  match editingWorkspace st with
  | Some ws =>
      UpdateDoc "workspaces" (ws_id ws)
        (spread (workspaceFields (workspaceForm st))
                [("updatedAt", VServerTimestamp)]%string)
  | None =>
      AddDoc "workspaces"
        (spread (workspaceFields (workspaceForm st))
                [ ("expenses", VExpenses []); ("createdAt", VServerTimestamp);
                  ("updatedAt", VServerTimestamp) ]%string)
  end.

Definition handleWorkspaceSubmit (env : Env) (otherText : string)
           (st : WorkspaceState) (w : World) : WorkspaceState * World :=
  if negb (truthy_string (wf_name (workspaceForm st))) then (st, w)
  else
    match await_write env (workspaceWrite st) w with
    | (w1, None) =>
        ({| ws_saving := false; showWorkspaceModal := false;
            editingWorkspace := editingWorkspace st;
            workspaceForm := workspaceForm st |}, w1)
    | (w1, Some t) =>
        ({| ws_saving := false; showWorkspaceModal := showWorkspaceModal st;
            editingWorkspace := editingWorkspace st;
            workspaceForm := workspaceForm st |},
         alert (failedText otherText t) w1)
    end.

End AdminGivingCirclePage.

(** ** Binary64 representations, for the proofs about sums *)
Module Binary64.

(** [m] shifted left by [n] binary places. *)
Definition shl (m : positive) (n : nat) : positive := Nat.iter n xO m.

(** The binary64 representation of a positive integer below 2^53. *)
Definition canon (z : positive) : spec_float :=
  S754_finite false (shl z (Z.to_nat (53 - Zpos (digits2_pos z))))
              (Zpos (digits2_pos z) - 53).

End Binary64.

(* ================================================================== *)
(** * Part II.  Properties                                             *)
(* ================================================================== *)

Import JS Model Binary64.

(** ** Numbers: order and exact sums of whole amounts *)

Lemma Prim2SF_zero : Prim2SF 0%float = S754_zero false.
Proof. reflexivity. Qed.

(** On every double, [x <= 0] excludes [x > 0]. *)
Lemma le0_not_gt0 (x : number) : le0 x = true -> gt0 x = false.
Proof.
  unfold le0, gt0. rewrite FloatAxioms.leb_spec, FloatAxioms.ltb_spec, Prim2SF_zero.
  unfold SFleb, SFltb.
  destruct (Prim2SF x) as [s|s| |s m e]; try destruct s; cbn; congruence.
Qed.

Lemma pos_iter_shl m d : Pos.iter xO m d = shl m (Pos.to_nat d).
Proof. unfold shl. rewrite Pos2Nat.inj_iter. reflexivity. Qed.

Lemma shl_shl m a b : shl (shl m a) b = shl m (a + b).
Proof. unfold shl. rewrite Nat.add_comm. symmetry. apply Nat.iter_add. Qed.

Lemma shl_plus a b n : (shl a n + shl b n = shl (a + b) n)%positive.
Proof.
  induction n as [|n IH]; simpl; [reflexivity|].
  fold (shl a n) (shl b n) (shl (a + b) n). rewrite <- IH. reflexivity.
Qed.

Lemma digits_shl m n :
  Zpos (digits2_pos (shl m n)) = (Zpos (digits2_pos m) + Z.of_nat n)%Z.
Proof.
  induction n as [|n IH]; [simpl; lia|].
  change (shl m (S n)) with (xO (shl m n)). cbn [digits2_pos].
  rewrite Pos2Z.inj_succ, IH. lia.
Qed.

Lemma iter_pos_nat {A} (f : A -> A) p x :
  SpecFloat.iter_pos f p x = Nat.iter (Pos.to_nat p) f x.
Proof.
  revert x. induction p as [p IH|p IH|]; intro x; cbn [SpecFloat.iter_pos].
  - rewrite !IH, Pos2Nat.inj_xI. rewrite <- Nat.iter_add.
    replace (S (2 * Pos.to_nat p)) with (Pos.to_nat p + Pos.to_nat p + 1)%nat by lia.
    rewrite (Nat.iter_add (Pos.to_nat p + Pos.to_nat p) 1). reflexivity.
  - rewrite !IH, Pos2Nat.inj_xO. rewrite <- Nat.iter_add. f_equal. lia.
  - reflexivity.
Qed.

(** Shifting right what was shifted left loses nothing. *)
Lemma shr_shl m n :
  Nat.iter n shr_1 (Build_shr_record (Zpos (shl m n)) false false)
  = Build_shr_record (Zpos m) false false.
Proof.
  induction n as [|n IH]; [reflexivity|].
  rewrite Nat.iter_succ_r. change (shl m (S n)) with (xO (shl m n)).
  cbn [shr_1 orb]. exact IH.
Qed.

Lemma fexp_small d : (1 <= d <= 1000)%Z -> fexp prec emax d = (d - 53)%Z.
Proof. intros H. unfold fexp, emin, prec, emax. lia. Qed.

Lemma round_aux_exact z j :
  (Zpos (digits2_pos z) <= 53)%Z ->
  binary_round_aux prec emax false
    (Zpos (shl z (Z.to_nat (53 - Zpos (digits2_pos z)) + j)))
    (Zpos (digits2_pos z) - 53 - Z.of_nat j) loc_Exact
  = canon z.
Proof.
  intros Hd. set (d := Zpos (digits2_pos z)) in *.
  assert (Hd1 : (1 <= d)%Z) by (unfold d; lia).
  set (K := Z.to_nat (53 - d)).
  unfold binary_round_aux, shr_fexp.
  cbn [Zdigits2 shr_record_of_loc].
  rewrite digits_shl. fold d.
  replace (d + Z.of_nat (K + j) + (d - 53 - Z.of_nat j))%Z
    with (d + 53 - 53)%Z at 1 by (unfold K; lia).
  rewrite fexp_small by lia.
  replace (d + 53 - 53 - 53 - (d - 53 - Z.of_nat j))%Z with (Z.of_nat j) by lia.
  assert (Hshr : shr (Build_shr_record (Zpos (shl z (K + j))) false false)
                     (d - 53 - Z.of_nat j) (Z.of_nat j)
                 = (Build_shr_record (Zpos (shl z K)) false false, (d - 53)%Z)).
  { unfold shr. destruct j as [|j].
    - cbn [Z.of_nat]. rewrite Nat.add_0_r. f_equal. lia.
    - cbn [Z.of_nat]. rewrite iter_pos_nat, SuccNat2Pos.id_succ.
      rewrite <- shl_shl, shr_shl. f_equal. lia. }
  rewrite Hshr. cbn [shr_m loc_of_shr_record round_nearest_even Zdigits2].
  rewrite digits_shl. fold d.
  replace (d + Z.of_nat K + (d - 53))%Z with (d + 53 - 53)%Z by (unfold K; lia).
  rewrite fexp_small by lia.
  replace (d + 53 - 53 - 53 - (d - 53))%Z with 0%Z by lia.
  cbn [shr shr_m].
  replace (d - 53 <=? emax - prec)%Z with true.
  - reflexivity.
  - symmetry. apply Z.leb_le. unfold emax, prec. lia.
Qed.

(** Rounding an integer of at most 53 bits, whatever its alignment, gives
    its representation. *)
Lemma binary_round_exact z k :
  (Zpos (digits2_pos z) <= 53)%Z ->
  binary_round prec emax false (shl z k) (- Z.of_nat k) = canon z.
Proof.
  intros Hd. unfold binary_round.
  rewrite digits_shl.
  set (d := Zpos (digits2_pos z)) in *.
  assert (Hd1 : (1 <= d)%Z) by (unfold d; lia).
  replace (d + Z.of_nat k + - Z.of_nat k)%Z with d by lia.
  rewrite fexp_small by lia.
  unfold shl_align.
  destruct (d - 53 - - Z.of_nat k)%Z as [|p|p] eqn:E.
  - cbn [fst snd]. rewrite <- (round_aux_exact z 0 Hd). fold d.
    f_equal; [f_equal; f_equal|]; lia.
  - rewrite <- (round_aux_exact z (Pos.to_nat p) Hd). fold d.
    f_equal; [f_equal; f_equal|]; lia.
  - rewrite pos_iter_shl, shl_shl.
    rewrite <- (round_aux_exact z 0 Hd). fold d.
    f_equal; [f_equal; f_equal|]; lia.
Qed.

Lemma digits_bound z : (Zpos z < 2 ^ 53)%Z -> (Zpos (digits2_pos z) <= 53)%Z.
Proof.
  intros H.
  assert (E : digits2_pos z = Pos.size z).
  { clear H. induction z as [z IH|z IH|]; cbn [digits2_pos Pos.size];
      rewrite ?IH; reflexivity. }
  rewrite E. pose proof (Pos.size_le z) as L.
  apply Pos2Z.pos_le_pos in L. rewrite Pos2Z.inj_pow in L.
  destruct (Z_le_gt_dec (Zpos (Pos.size z)) 53) as [|G]; [assumption|exfalso].
  assert (2 ^ 54 <= 2 ^ Zpos (Pos.size z))%Z by (apply Z.pow_le_mono_r; lia).
  change (Zpos z~0) with (2 * Zpos z)%Z in L. lia.
Qed.

Lemma shl_align_fst m e ez :
  (ez <= e)%Z -> fst (shl_align m e ez) = shl m (Z.to_nat (e - ez)).
Proof.
  intros H. unfold shl_align. destruct (ez - e)%Z as [|p|p] eqn:E.
  - replace (e - ez)%Z with 0%Z by lia. reflexivity.
  - lia.
  - cbn [fst]. rewrite pos_iter_shl. f_equal. lia.
Qed.

Lemma SFadd_canon a b :
  (Zpos a + Zpos b < 2 ^ 53)%Z ->
  SFadd prec emax (canon a) (canon b) = canon (a + b).
Proof.
  intros H.
  assert (Ha : (Zpos (digits2_pos a) <= 53)%Z) by (apply digits_bound; lia).
  assert (Hb : (Zpos (digits2_pos b) <= 53)%Z) by (apply digits_bound; lia).
  assert (Hab : (Zpos (digits2_pos (a + b)) <= 53)%Z) by (apply digits_bound; lia).
  unfold canon at 1 2. cbn [SFadd cond_Zopp].
  set (da := Zpos (digits2_pos a)) in *. set (db := Zpos (digits2_pos b)) in *.
  assert (1 <= da)%Z by (unfold da; lia). assert (1 <= db)%Z by (unfold db; lia).
  rewrite !shl_align_fst by lia. rewrite !shl_shl.
  set (K := Z.to_nat (- Z.min (da - 53) (db - 53))).
  replace (Z.to_nat (53 - da) + Z.to_nat (da - 53 - Z.min (da - 53) (db - 53)))%nat
    with K by (unfold K; lia).
  replace (Z.to_nat (53 - db) + Z.to_nat (db - 53 - Z.min (da - 53) (db - 53)))%nat
    with K by (unfold K; lia).
  cbn [Z.add]. rewrite shl_plus. cbn [binary_normalize].
  replace (Z.min (da - 53) (db - 53)) with (- Z.of_nat K)%Z by (unfold K; lia).
  apply binary_round_exact. exact Hab.
Qed.

(** The representation of [Z2F z] for a whole number below 2^53. *)
Lemma Prim2SF_Z2F z :
  (0 <= z < 2 ^ 53)%Z ->
  Prim2SF (Z2F z) = match z with Zpos p => canon p | _ => S754_zero false end.
Proof.
  intros H. unfold Z2F. rewrite of_uint63_spec, Uint63.of_Z_spec.
  rewrite Z.mod_small.
  2:{ split; [lia|]. apply Z.lt_trans with (2 ^ 53)%Z; [lia|].
      unfold wB. apply Z.pow_lt_mono_r; cbn; lia. }
  destruct z as [|p|p]; [reflexivity| |lia].
  cbn [binary_normalize].
  change p with (shl p 0) at 1. change 0%Z with (- Z.of_nat 0)%Z.
  apply binary_round_exact. apply digits_bound. lia.
Qed.

(** Adding two whole numbers is exact while the sum stays below 2^53. *)
Lemma Z2F_add a b :
  (0 <= a)%Z -> (0 <= b)%Z -> (a + b < 2 ^ 53)%Z ->
  (Z2F a + Z2F b)%float = Z2F (a + b).
Proof.
  intros Ha Hb H. apply Prim2SF_inj.
  rewrite FloatAxioms.add_spec, !Prim2SF_Z2F by lia.
  destruct a as [|a|a]; destruct b as [|b|b]; try lia; try reflexivity.
  cbn [Z.add]. apply SFadd_canon. lia.
Qed.

Lemma F2Z_nonneg x : (0 <= F2Z x)%Z.
Proof.
  unfold F2Z. destruct (Prim2SF x) as [s|s| |s m e]; try lia.
  destruct s; [lia|]. apply Z.shiftl_nonneg. lia.
Qed.

Lemma wholeTotal_nonneg xs : (0 <= wholeTotal xs)%Z.
Proof.
  induction xs as [|x xs IH]; cbn [wholeTotal fold_right]; [lia|].
  fold (wholeTotal xs). pose proof (F2Z_nonneg x). lia.
Qed.

Lemma wholeTotal_perm xs ys : Permutation xs ys -> wholeTotal xs = wholeTotal ys.
Proof.
  induction 1 as [|x xs ys _ IH|x y xs|xs ys zs _ IH1 _ IH2].
  - reflexivity.
  - change (F2Z x + wholeTotal xs = F2Z x + wholeTotal ys)%Z. lia.
  - change (F2Z y + (F2Z x + wholeTotal xs)
            = F2Z x + (F2Z y + wholeTotal xs))%Z. lia.
  - congruence.
Qed.

Lemma wholeAmounts_perm xs ys :
  Permutation xs ys -> wholeAmounts xs -> wholeAmounts ys.
Proof.
  intros P [F T]. split.
  - eapply Permutation_Forall; eassumption.
  - rewrite <- (wholeTotal_perm xs ys P). exact T.
Qed.

(** The running sum [reduce((sum, x) => sum + x, 0)] over numbers. *)
Lemma sum_whole_acc xs : forall acc,
  (0 <= acc)%Z -> Forall whole xs -> (acc + wholeTotal xs < 2 ^ 53)%Z ->
  fold_left (fun s x => (s + x)%float) xs (Z2F acc) = Z2F (acc + wholeTotal xs).
Proof.
  induction xs as [|x xs IH]; intros acc Hacc F T.
  - cbn [fold_left wholeTotal fold_right]. rewrite Z.add_0_r. reflexivity.
  - cbn [fold_left wholeTotal fold_right] in *. fold (wholeTotal xs) in *.
    inversion F as [|? ? Hx Hxs]; subst.
    pose proof (F2Z_nonneg x) as Hnn. pose proof (wholeTotal_nonneg xs) as Hn.
    red in Hx. set (z := F2Z x) in *.
    replace (Z2F acc + x)%float with (Z2F (acc + z)).
    + rewrite IH by (try assumption; lia). f_equal. lia.
    + rewrite Hx at 1. symmetry. apply Z2F_add; lia.
Qed.

Lemma sum_whole xs :
  wholeAmounts xs ->
  fold_left (fun s x => (s + x)%float) xs 0%float = Z2F (wholeTotal xs).
Proof.
  intros [F T]. change 0%float with (Z2F 0).
  rewrite sum_whole_acc by (try assumption; lia). reflexivity.
Qed.

Lemma sum_whole_perm xs ys :
  Permutation xs ys -> wholeAmounts xs ->
  fold_left (fun s x => (s + x)%float) ys 0%float
  = fold_left (fun s x => (s + x)%float) xs 0%float.
Proof.
  intros P W.
  rewrite (sum_whole xs W), (sum_whole ys (wholeAmounts_perm xs ys P W)).
  rewrite (wholeTotal_perm xs ys P). reflexivity.
Qed.

Lemma fold_left_map_sum {A} (f : A -> number) (l : list A) : forall init,
  fold_left (fun s a => (s + f a)%float) l init
  = fold_left (fun s x => (s + x)%float) (map f l) init.
Proof. induction l as [|a l IH]; intro init; cbn; [reflexivity|apply IH]. Qed.

Lemma filter_perm {A} (f : A -> bool) l l' :
  Permutation l l' -> Permutation (filter f l) (filter f l').
Proof.
  induction 1 as [|x l l' _ IH|x y l|l l' l'' _ IH1 _ IH2]; cbn.
  - constructor.
  - destruct (f x); [constructor|]; exact IH.
  - destruct (f x), (f y); try reflexivity. constructor.
  - etransitivity; eassumption.
Qed.

(** Two doubles that differ as values are different terms. *)
Ltac float_discriminate H :=
  apply (f_equal Prim2SF) in H; vm_compute in H; discriminate H.

(** ** Rollups (C7) *)

Lemma totalContributed_amounts ps :
  PartnersPage.totalContributed ps
  = fold_left (fun s x => (s + x)%float) (PartnersPage.contributedAmounts ps) 0%float.
Proof.
  unfold PartnersPage.totalContributed, PartnersPage.contributedAmounts, reduce.
  apply fold_left_map_sum.
Qed.

Lemma totalIncome_amounts ts :
  LedgerPage.totalIncome ts
  = fold_left (fun s x => (s + x)%float)
              (LedgerPage.amountsOfType LedgerPage.income ts) 0%float.
Proof.
  unfold LedgerPage.totalIncome, LedgerPage.amountsOfType, reduce.
  apply fold_left_map_sum.
Qed.

Lemma totalExpenses_amounts ts :
  LedgerPage.totalExpenses ts
  = fold_left (fun s x => (s + x)%float)
              (LedgerPage.amountsOfType LedgerPage.expense ts) 0%float.
Proof.
  unfold LedgerPage.totalExpenses, LedgerPage.amountsOfType, reduce.
  apply fold_left_map_sum.
Qed.

Lemma contributedAmounts_perm ps ps' :
  Permutation ps ps' ->
  Permutation (PartnersPage.contributedAmounts ps) (PartnersPage.contributedAmounts ps').
Proof.
  intros P. unfold PartnersPage.contributedAmounts, PartnersPage.contributingPartners.
  apply Permutation_map, filter_perm, P.
Qed.

Lemma amountsOfType_perm ty ts ts' :
  Permutation ts ts' ->
  Permutation (LedgerPage.amountsOfType ty ts) (LedgerPage.amountsOfType ty ts').
Proof.
  intros P. unfold LedgerPage.amountsOfType, LedgerPage.ofType.
  apply Permutation_map, filter_perm, P.
Qed.

(** C7, as the specification states it, fails: three partner amounts of
    0.1, 0.2 and 0.3 add up to 0.6000000000000001 in that order and to 0.6
    in the reverse order, so the sum depends on the order of the list. *)
Lemma sum_depends_on_order :
  let ps := [ PartnersPage.withAmount "A" 0.1%float;
              PartnersPage.withAmount "B" 0.2%float;
              PartnersPage.withAmount "C" 0.3%float ] in
  Permutation ps (rev ps)
  /\ PartnersPage.totalContributed ps = 0.6000000000000001%float
  /\ PartnersPage.totalContributed (rev ps) = 0.6%float
  /\ PartnersPage.contributingCount ps = 3
  /\ PartnersPage.totalContributed ps <> PartnersPage.totalContributed (rev ps).
Proof.
  cbv zeta. split; [apply Permutation_rev|].
  repeat split; try (vm_compute; reflexivity).
  intro H. float_discriminate H.
Qed.

(** C7 (amended).  For every list of partners or transactions and every
    permutation of it, the counts are the same; the sums are the same
    whenever the amounts added are whole numbers whose total is below 2^53,
    so that every addition is exact; and the same list gives the same sums
    again. *)
Theorem rollup_order_independent :
  forall (ps ps' : list PartnersPage.Partner)
         (ts ts' : list LedgerPage.Transaction),
    Permutation ps ps' -> Permutation ts ts' ->
    (PartnersPage.contributingCount ps' = PartnersPage.contributingCount ps
     /\ LedgerPage.incomeCount ts' = LedgerPage.incomeCount ts
     /\ LedgerPage.expenseCount ts' = LedgerPage.expenseCount ts)
    /\ (wholeAmounts (PartnersPage.contributedAmounts ps) ->
        PartnersPage.totalContributed ps' = PartnersPage.totalContributed ps)
    /\ (wholeAmounts (LedgerPage.amountsOfType LedgerPage.income ts) ->
        LedgerPage.totalIncome ts' = LedgerPage.totalIncome ts)
    /\ (wholeAmounts (LedgerPage.amountsOfType LedgerPage.expense ts) ->
        LedgerPage.totalExpenses ts' = LedgerPage.totalExpenses ts)
    /\ (ps' = ps ->
        PartnersPage.totalContributed ps' = PartnersPage.totalContributed ps)
    /\ (ts' = ts ->
        LedgerPage.totalIncome ts' = LedgerPage.totalIncome ts
        /\ LedgerPage.totalExpenses ts' = LedgerPage.totalExpenses ts).
Proof.
  intros ps ps' ts ts' Pp Pt.
  repeat match goal with |- _ /\ _ => split end;
    try (intros ->; try split; reflexivity).
  - unfold PartnersPage.contributingCount, PartnersPage.contributingPartners.
    symmetry. apply Permutation_length, filter_perm, Pp.
  - unfold LedgerPage.incomeCount, LedgerPage.ofType.
    symmetry. apply Permutation_length, filter_perm, Pt.
  - unfold LedgerPage.expenseCount, LedgerPage.ofType.
    symmetry. apply Permutation_length, filter_perm, Pt.
  - intros W. rewrite !totalContributed_amounts.
    apply sum_whole_perm; [apply contributedAmounts_perm, Pp | exact W].
  - intros W. rewrite !totalIncome_amounts.
    apply sum_whole_perm; [apply amountsOfType_perm, Pt | exact W].
  - intros W. rewrite !totalExpenses_amounts.
    apply sum_whole_perm; [apply amountsOfType_perm, Pt | exact W].
Qed.

(** The specification's example: amounts 100 and 250 give sum 350 and
    count 2 in either order, for partners and for donations. *)
Lemma rollup_order_independent_example :
  let ps := [ PartnersPage.withAmount "A" 100%float;
              PartnersPage.withAmount "B" 250%float ] in
  let ts := [ LedgerPage.entry LedgerPage.income 100%float;
              LedgerPage.entry LedgerPage.income 250%float ] in
  (Permutation ps (rev ps) /\ Permutation ts (rev ts))
  /\ (wholeAmounts (PartnersPage.contributedAmounts ps)
      /\ wholeAmounts (LedgerPage.amountsOfType LedgerPage.income ts))
  /\ (PartnersPage.totalContributed (rev ps) = PartnersPage.totalContributed ps
      /\ PartnersPage.totalContributed ps = 350%float
      /\ PartnersPage.contributingCount (rev ps) = 2
      /\ PartnersPage.contributingCount ps = 2)
  /\ (LedgerPage.totalIncome (rev ts) = LedgerPage.totalIncome ts
      /\ LedgerPage.totalIncome ts = 350%float
      /\ LedgerPage.incomeCount (rev ts) = 2
      /\ LedgerPage.incomeCount ts = 2).
Proof.
  cbv zeta.
  assert (Pp : Permutation
                 [ PartnersPage.withAmount "A" 100%float;
                   PartnersPage.withAmount "B" 250%float ]
                 (rev [ PartnersPage.withAmount "A" 100%float;
                        PartnersPage.withAmount "B" 250%float ]))
    by apply Permutation_rev.
  assert (Pt : Permutation
                 [ LedgerPage.entry LedgerPage.income 100%float;
                   LedgerPage.entry LedgerPage.income 250%float ]
                 (rev [ LedgerPage.entry LedgerPage.income 100%float;
                        LedgerPage.entry LedgerPage.income 250%float ]))
    by apply Permutation_rev.
  assert (Wp : wholeAmounts
                 (PartnersPage.contributedAmounts
                    [ PartnersPage.withAmount "A" 100%float;
                      PartnersPage.withAmount "B" 250%float ])).
  { split; [repeat constructor; vm_compute; reflexivity | vm_compute; reflexivity]. }
  assert (Wt : wholeAmounts
                 (LedgerPage.amountsOfType LedgerPage.income
                    [ LedgerPage.entry LedgerPage.income 100%float;
                      LedgerPage.entry LedgerPage.income 250%float ])).
  { split; [repeat constructor; vm_compute; reflexivity | vm_compute; reflexivity]. }
  destruct (rollup_order_independent _ _ _ _ Pp Pt) as [[Cp [Ci _]] [Sp [Si _]]].
  split; [split; assumption|].
  split; [split; assumption|].
  split.
  - split; [exact (Sp Wp)|]. split; [vm_compute; reflexivity|].
    split; [rewrite Cp|]; vm_compute; reflexivity.
  - split; [exact (Si Wt)|]. split; [vm_compute; reflexivity|].
    split; [rewrite Ci|]; vm_compute; reflexivity.
Defined.

(** ** Progress percentages (C1) *)

(** Decides a display by the guard [goal > 0] in the context. *)
Ltac by_guard :=
  intros;
  try match goal with H : le0 _ = true |- _ => apply le0_not_gt0 in H end;
  try match goal with H : gt0 _ = _ |- _ => rewrite H end;
  reflexivity.

(** C1, as the specification states it, fails for the label: on the projects
    dashboard a project that raised 300 of a goal of 100 is labelled with
    100, and on the giving-circle page a workspace that spent 300 of 100
    received is labelled with 100, while the unclamped ratio is 300. *)
Lemma label_is_clamped :
  ((300 / 100) * 100)%float = 300%float
  /\ ProjectsPage.progressLabelNumber (Some 300%float) (Some 100%float) = 100%float
  /\ ProjectsPage.progressLabelNumber (Some 300%float) (Some 100%float)
     <> ((300 / 100) * 100)%float
  /\ GivingCirclePage.allocatedLabel (GivingCirclePage.sample 100%float 300%float)
     = Some 100%float
  /\ GivingCirclePage.allocatedLabel (GivingCirclePage.sample 100%float 300%float)
     <> Some ((300 / 100) * 100)%float.
Proof.
  repeat split; try (vm_compute; reflexivity).
  - intro H. float_discriminate H.
  - intro H. apply (f_equal (option_map Prim2SF)) in H.
    vm_compute in H. discriminate H.
Qed.

(** C1 (amended).  The width of a progress bar is 0 when [goal > 0] does not
    hold, in particular when [goal <= 0], and [min(raised / goal * 100, 100)]
    otherwise, on the ledger page and on both projects dashboards.  The
    label is the unclamped ratio on the ledger page (rounded to an integer)
    and on the dashboard without communities; on the dashboard with
    communities it is the clamped width itself, and on the giving-circle
    page, where bar and label exist only when the amount received is
    positive, it is the rounded ratio clamped to 100. *)
Theorem progress_display :
  (forall p : LedgerPage.Project,
      let ratio := ((LedgerPage.p_raised p / LedgerPage.p_goal p) * 100)%float in
      (gt0 (LedgerPage.p_goal p) = true ->
       LedgerPage.progressWidth p = Math_min ratio 100%float
       /\ LedgerPage.progressLabel p = Math_round ratio)
      /\ (gt0 (LedgerPage.p_goal p) = false ->
          LedgerPage.progressWidth p = 0%float
          /\ LedgerPage.progressLabel p = 0%float)
      /\ (le0 (LedgerPage.p_goal p) = true ->
          LedgerPage.progressWidth p = 0%float
          /\ LedgerPage.progressLabel p = 0%float))
  /\ (forall raised goal : number,
         let ratio := ((raised / goal) * 100)%float in
         (gt0 goal = true ->
          ProjectsPage.progressWidth (Some raised) (Some goal)
          = Math_min ratio 100%float)
         /\ (gt0 goal = false ->
             ProjectsPage.progressWidth (Some raised) (Some goal) = 0%float)
         /\ (le0 goal = true ->
             ProjectsPage.progressWidth (Some raised) (Some goal) = 0%float)
         /\ ProjectsPage.progressLabelNumber (Some raised) (Some goal)
            = ProjectsPage.progressWidth (Some raised) (Some goal))
  /\ (forall raised goal : option number,
         ProjectsPage.progressPct raised goal
         = ProjectsPage.progressPct
             (Some (match raised with Some r => r | None => 0%float end))
             (Some (match goal with Some g => g | None => 1%float end)))
  /\ (forall p : DashboardProjectsPage.Project,
         let ratio :=
           ((or_number (DashboardProjectsPage.raised p) 0%float
             / DashboardProjectsPage.goal p) * 100)%float in
         (gt0 (DashboardProjectsPage.goal p) = true ->
          DashboardProjectsPage.progressWidth p = Math_min ratio 100%float
          /\ DashboardProjectsPage.progressLabelNumber p = ratio)
         /\ (gt0 (DashboardProjectsPage.goal p) = false ->
             DashboardProjectsPage.progressWidth p = 0%float
             /\ DashboardProjectsPage.progressLabelNumber p = 0%float)
         /\ (le0 (DashboardProjectsPage.goal p) = true ->
             DashboardProjectsPage.progressWidth p = 0%float
             /\ DashboardProjectsPage.progressLabelNumber p = 0%float))
  /\ (forall w : Workspace,
         let ratio :=
           ((GivingCirclePage.totalSpent w / ws_totalReceived w) * 100)%float in
         (gt0 (ws_totalReceived w) = true ->
          GivingCirclePage.allocatedWidth w = Some (Math_min ratio 100%float)
          /\ GivingCirclePage.allocatedLabel w
             = Some (Math_min (Math_round ratio) 100%float))
         /\ (gt0 (ws_totalReceived w) = false ->
             GivingCirclePage.allocatedWidth w = None
             /\ GivingCirclePage.allocatedLabel w = None)
         /\ (le0 (ws_totalReceived w) = true ->
             GivingCirclePage.allocatedWidth w = None
             /\ GivingCirclePage.allocatedLabel w = None)).
Proof.
  split; [|split; [|split; [|split]]].
  - intros p ratio. unfold LedgerPage.progressWidth, LedgerPage.progressLabel.
    repeat split; by_guard.
  - intros raised goal ratio.
    unfold ProjectsPage.progressLabelNumber, ProjectsPage.progressWidth,
      ProjectsPage.progressPct.
    repeat split; by_guard.
  - intros [r|] [g|]; reflexivity.
  - intros p ratio.
    unfold DashboardProjectsPage.progressWidth,
      DashboardProjectsPage.progressLabelNumber.
    repeat split; by_guard.
  - intros w ratio.
    unfold GivingCirclePage.allocatedWidth, GivingCirclePage.allocatedLabel.
    repeat split; by_guard.
Qed.

(** On the ledger page the same project is labelled 300 over a bar of
    width 100; an absent goal on the dashboard counts as 1. *)
Example ledger_label_unclamped :
  let p := {| LedgerPage.p_id := "p"; LedgerPage.p_title := "P";
              LedgerPage.p_raised := 300%float; LedgerPage.p_goal := 100%float;
              LedgerPage.p_category := "water"; LedgerPage.p_isActive := true |} in
  LedgerPage.progressLabel p = 300%float
  /\ LedgerPage.progressWidth p = 100%float
  /\ ProjectsPage.progressPct (Some 0.5%float) None = 50%float
  /\ ProjectsPage.progressPct None (Some 80%float) = 0%float.
Proof. cbv zeta. repeat split; vm_compute; reflexivity. Qed.

(** ** Flattening completed projects (C2) *)

Lemma fold_left_push {A B} (g : A -> B) (l : list A) : forall items,
  fold_left (fun acc a => CompletedProjectsPage.push acc (g a)) l items
  = items ++ map g l.
Proof.
  induction l as [|a l IH]; intro items; cbn [fold_left map].
  - symmetry. apply app_nil_r.
  - rewrite IH. unfold CompletedProjectsPage.push. rewrite <- app_assoc. reflexivity.
Qed.

Lemma forEach_body_app items data :
  CompletedProjectsPage.forEach_body items data
  = items ++ CompletedProjectsPage.itemsOf data.
Proof.
  unfold CompletedProjectsPage.forEach_body, CompletedProjectsPage.itemsOf.
  destruct (CompletedProjectsPage.isCompleted data
            && negb (CompletedProjectsPage.isParent data));
    destruct (CompletedProjectsPage.isParent data);
    destruct (CompletedProjectsPage.p_subProjects data) as [subs|];
    rewrite ?fold_left_push; unfold CompletedProjectsPage.push;
    rewrite ?app_nil_r, <- ?app_assoc; reflexivity.
Qed.

Lemma flatten_acc docs : forall items,
  fold_left CompletedProjectsPage.forEach_body docs items
  = items ++ flat_map CompletedProjectsPage.itemsOf docs.
Proof.
  induction docs as [|d docs IH]; intro items; cbn [fold_left flat_map].
  - symmetry. apply app_nil_r.
  - rewrite IH, forEach_body_app, <- app_assoc. reflexivity.
Qed.

Lemma flatten_flat_map docs :
  CompletedProjectsPage.flatten docs
  = flat_map CompletedProjectsPage.itemsOf docs.
Proof. unfold CompletedProjectsPage.flatten. apply flatten_acc. Qed.

Lemma in_itemsOf item d :
  In item (CompletedProjectsPage.itemsOf d) <->
  (CompletedProjectsPage.isCompleted d = true
   /\ CompletedProjectsPage.isParent d = false
   /\ item = CompletedProjectsPage.topItem d)
  \/ (exists subs s,
         CompletedProjectsPage.isParent d = true
         /\ CompletedProjectsPage.p_subProjects d = Some subs
         /\ In s subs
         /\ CompletedProjectsPage.subCompleted s = true
         /\ item = CompletedProjectsPage.subItem d s).
Proof.
  unfold CompletedProjectsPage.itemsOf. rewrite in_app_iff. split.
  - intros [H|H].
    + left.
      destruct (CompletedProjectsPage.isCompleted d);
        destruct (CompletedProjectsPage.isParent d); cbn in H;
        try contradiction.
      destruct H as [H|[]]. auto.
    + right.
      destruct (CompletedProjectsPage.isParent d); [|contradiction].
      destruct (CompletedProjectsPage.p_subProjects d) as [subs|]; [|contradiction].
      apply in_map_iff in H. destruct H as [s [E Hs]].
      apply filter_In in Hs. destruct Hs as [Hin Hc].
      exists subs, s. auto.
  - intros [[Hc [Hp E]]|[subs [s [Hp [Hs [Hin [Hc E]]]]]]].
    + left. rewrite Hc, Hp. cbn. auto.
    + right. rewrite Hp, Hs. apply in_map_iff. exists s. split; [auto|].
      apply filter_In. auto.
Qed.

Lemma flagged_true b :
  truthy_opt truthy_bool b = CompletedProjectsPage.flagged b.
Proof. destruct b as [[|]|]; reflexivity. Qed.

Lemma flagged_spec b : CompletedProjectsPage.flagged b = true <-> b = Some true.
Proof. destruct b as [[|]|]; cbn; split; congruence. Qed.

Lemma not_flagged_spec b : CompletedProjectsPage.flagged b = false <-> b <> Some true.
Proof. destruct b as [[|]|]; cbn; split; congruence. Qed.

Lemma itemsOf_contract d :
  CompletedProjectsPage.itemsOf d = CompletedProjectsPage.contractItems d.
Proof.
  unfold CompletedProjectsPage.itemsOf, CompletedProjectsPage.contractItems,
    CompletedProjectsPage.isCompleted, CompletedProjectsPage.isParent.
  rewrite !flagged_true.
  assert (E : forall subs,
             filter CompletedProjectsPage.subCompleted subs
             = filter (fun s => CompletedProjectsPage.flagged (sub_isCompleted s)) subs).
  { intro subs. apply filter_ext. intro s.
    unfold CompletedProjectsPage.subCompleted. apply flagged_true. }
  destruct (CompletedProjectsPage.flagged (CompletedProjectsPage.p_isCompleted d));
    destruct (CompletedProjectsPage.flagged (CompletedProjectsPage.p_isParent d));
    destruct (CompletedProjectsPage.p_subProjects d) as [subs|];
    cbn [andb negb]; rewrite ?E; reflexivity.
Qed.

(** C2.  The flat list holds, project after project, one item for a
    project whose [isCompleted] field is [true] and whose [isParent] field
    is not, and one item for each sub-project with [isCompleted] [true] of a
    project with [isParent] [true], tagged with the parent's title and
    carrying the parent's supporters, and nothing else; the example parent
    with Well A completed and Well B not yields the single item Well A, and
    next to a completed and an uncompleted project only the completed one
    and Well A are listed. *)
Theorem flatten_completed_items :
  (forall docs,
      CompletedProjectsPage.flatten docs
      = flat_map CompletedProjectsPage.contractItems docs)
  /\ (forall docs item,
         In item (CompletedProjectsPage.flatten docs) <->
         (exists d, In d docs
                    /\ CompletedProjectsPage.p_isCompleted d = Some true
                    /\ CompletedProjectsPage.p_isParent d <> Some true
                    /\ item = CompletedProjectsPage.topItem d)
         \/ (exists d subs s,
                In d docs
                /\ CompletedProjectsPage.p_isParent d = Some true
                /\ CompletedProjectsPage.p_subProjects d = Some subs
                /\ In s subs
                /\ sub_isCompleted s = Some true
                /\ item = CompletedProjectsPage.subItem d s))
  /\ (forall d s,
         CompletedProjectsPage.parentTitle (CompletedProjectsPage.subItem d s)
         = Some (CompletedProjectsPage.p_title d)
         /\ CompletedProjectsPage.supporters (CompletedProjectsPage.subItem d s)
            = CompletedProjectsPage.p_supporters d
         /\ CompletedProjectsPage.communityName (CompletedProjectsPage.subItem d s)
            = sub_communityName s
         /\ CompletedProjectsPage.title (CompletedProjectsPage.subItem d s)
            = sub_title s)
  /\ (forall d,
         CompletedProjectsPage.parentTitle (CompletedProjectsPage.topItem d) = None
         /\ CompletedProjectsPage.title (CompletedProjectsPage.topItem d)
            = CompletedProjectsPage.p_title d
         /\ CompletedProjectsPage.supporters (CompletedProjectsPage.topItem d)
            = CompletedProjectsPage.p_supporters d)
  /\ (let wellA_item :=
        {| CompletedProjectsPage.id := "water_a";
           CompletedProjectsPage.title := "Well A";
           CompletedProjectsPage.subtitle := None;
           CompletedProjectsPage.description := EmptyString;
           CompletedProjectsPage.category := EmptyString;
           CompletedProjectsPage.goal := 0%float;
           CompletedProjectsPage.raised := Some 0%float;
           CompletedProjectsPage.supporters := Some 12%float;
           CompletedProjectsPage.image := None;
           CompletedProjectsPage.completionData :=
             Some {| completedDate := Some "2024-01-01"%string;
                     completionStory := None; beforeImages := None;
                     afterImages := None; progressImages := None;
                     testimonials := None; impactStats := None |};
           CompletedProjectsPage.parentTitle := Some "Water Program"%string;
           CompletedProjectsPage.communityName := None;
           CompletedProjectsPage.isSubProject := Some true |} in
      let school_item :=
        {| CompletedProjectsPage.id := "school";
           CompletedProjectsPage.title := "School";
           CompletedProjectsPage.subtitle := None;
           CompletedProjectsPage.description := EmptyString;
           CompletedProjectsPage.category := EmptyString;
           CompletedProjectsPage.goal := 0%float;
           CompletedProjectsPage.raised := None;
           CompletedProjectsPage.supporters := None;
           CompletedProjectsPage.image := None;
           CompletedProjectsPage.completionData :=
             Some {| completedDate := Some "2023-05-01"%string;
                     completionStory := None; beforeImages := None;
                     afterImages := None; progressImages := None;
                     testimonials := None; impactStats := None |};
           CompletedProjectsPage.parentTitle := None;
           CompletedProjectsPage.communityName := None;
           CompletedProjectsPage.isSubProject := None |} in
      CompletedProjectsPage.flatten [CompletedProjectsPage.waterProgram]
      = [wellA_item]
      /\ CompletedProjectsPage.flatten
           [ CompletedProjectsPage.school; CompletedProjectsPage.library;
             CompletedProjectsPage.waterProgram ]
         = [school_item; wellA_item]
      /\ CompletedProjectsPage.flatten [CompletedProjectsPage.library] = []).
Proof.
  split.
  { intro docs. rewrite flatten_flat_map. apply flat_map_ext.
    intro d. apply itemsOf_contract. }
  split.
  { intros docs item. rewrite flatten_flat_map, in_flat_map. split.
    - intros [d [Hd Hi]]. apply in_itemsOf in Hi.
      destruct Hi as [[Hc [Hp E]]|[subs [s [Hp [Hs [Hin [Hc E]]]]]]].
      + left. exists d.
        unfold CompletedProjectsPage.isCompleted in Hc.
        unfold CompletedProjectsPage.isParent in Hp.
        rewrite flagged_true in Hc, Hp.
        apply flagged_spec in Hc. apply not_flagged_spec in Hp. auto.
      + right. exists d, subs, s.
        unfold CompletedProjectsPage.isParent in Hp.
        unfold CompletedProjectsPage.subCompleted in Hc.
        rewrite flagged_true in Hc, Hp.
        apply flagged_spec in Hc, Hp. auto 7.
    - intros [[d [Hd [Hc [Hp E]]]]|[d [subs [s [Hd [Hp [Hs [Hin [Hc E]]]]]]]]].
      + exists d. split; [assumption|]. apply in_itemsOf. left.
        unfold CompletedProjectsPage.isCompleted, CompletedProjectsPage.isParent.
        rewrite !flagged_true.
        apply flagged_spec in Hc. apply not_flagged_spec in Hp. auto.
      + exists d. split; [assumption|]. apply in_itemsOf. right.
        exists subs, s.
        unfold CompletedProjectsPage.isParent, CompletedProjectsPage.subCompleted.
        rewrite !flagged_true.
        apply flagged_spec in Hc, Hp. auto 7. }
  split; [intros d s; repeat split|].
  split; [intros d; repeat split|].
  cbv zeta. repeat split; vm_compute; reflexivity.
Qed.

(** ** Sorting by completion date (C6) *)

Lemma insert_perm {A} (cmp : A -> A -> option Z) x l :
  Permutation (insert cmp x l) (x :: l).
Proof.
  induction l as [|y l IH]; cbn [insert]; [reflexivity|].
  destruct (0 <? SortCompare cmp x y)%Z; [|reflexivity].
  rewrite IH. apply perm_swap.
Qed.

Lemma sort_perm {A} (cmp : A -> A -> option Z) l : Permutation (sort cmp l) l.
Proof.
  induction l as [|x l IH]; cbn [sort fold_right]; [reflexivity|].
  fold (sort cmp l). rewrite insert_perm. constructor. exact IH.
Qed.

Section SortedByKey.
Context {A : Type}.
Variable cmp : A -> A -> option Z.
Variable key : A -> Z.

Lemma insert_sorted x l :
  (forall b, In b l -> cmp x b = Some (key b - key x)%Z) ->
  Sorted (descending key) l -> Sorted (descending key) (insert cmp x l).
Proof.
  intros Hc Hs. induction Hs as [|y l Hs IH Hd]; cbn [insert].
  - repeat constructor.
  - unfold SortCompare. rewrite (Hc y) by (left; reflexivity).
    destruct (0 <? key y - key x)%Z eqn:E.
    + apply Z.ltb_lt in E. constructor.
      * apply IH. intros b Hb. apply Hc. right. exact Hb.
      * destruct Hd as [|z l' Hyz]; cbn [insert].
        -- constructor. unfold descending. lia.
        -- unfold SortCompare. rewrite (Hc z) by (right; left; reflexivity).
           destruct (0 <? key z - key x)%Z eqn:E'.
           ++ constructor. exact Hyz.
           ++ constructor. unfold descending. lia.
    + apply Z.ltb_ge in E. constructor.
      * constructor; assumption.
      * constructor. unfold descending. lia.
Qed.

Lemma sort_sorted l : compares cmp key l -> Sorted (descending key) (sort cmp l).
Proof.
  induction l as [|x l IH]; intros Hc; cbn [sort fold_right]; [constructor|].
  fold (sort cmp l). apply insert_sorted.
  - intros b Hb. apply Hc; [left; reflexivity|right].
    apply (Permutation_in _ (sort_perm cmp l)). exact Hb.
  - apply IH. intros a b Ha Hb. apply Hc; right; assumption.
Qed.

Lemma sort_strongly_sorted l :
  compares cmp key l -> StronglySorted (descending key) (sort cmp l).
Proof.
  intros Hc. apply Sorted_StronglySorted; [|apply sort_sorted, Hc].
  intros a b c. unfold descending. lia.
Qed.
End SortedByKey.

Lemma strongly_sorted_nth {A} (R : A -> A -> Prop) l :
  StronglySorted R l ->
  forall i j a b, i < j -> nth_error l i = Some a -> nth_error l j = Some b -> R a b.
Proof.
  induction 1 as [|x l Hs IH Hall]; intros i j a b Hij Ha Hb.
  - destruct i; discriminate.
  - destruct j as [|j]; [lia|]. cbn in Hb. destruct i as [|i].
    + cbn in Ha. injection Ha as <-.
      rewrite Forall_forall in Hall. apply Hall. eapply nth_error_In, Hb.
    + cbn in Ha. apply (IH i j); [lia|assumption|assumption].
Qed.

Lemma sortKey_no_date getTime a :
  CompletedProjectsPage.hasDate a = false ->
  CompletedProjectsPage.sortKey getTime a = Some 0%Z.
Proof.
  unfold CompletedProjectsPage.hasDate, CompletedProjectsPage.sortKey.
  destruct (CompletedProjectsPage.completionData a) as [cd|]; [|reflexivity].
  destruct (completedDate cd) as [d|]; [|reflexivity].
  cbn. intros ->. reflexivity.
Qed.

(** C6, as the specification states it, fails: a completion date that is
    not a date makes the comparator answer [NaN], which the sort takes as
    equal.  The snapshot of the Clinic (completed without a date), the
    Garden (completed on a date that is not a date) and the School
    (completed in May 2023) is shown in that order, so the undated Clinic
    comes before the School, whose date is later than the epoch, and the
    list is not in descending order of its time values. *)
Lemma undated_item_before_dated :
  let docs := [ CompletedProjectsPage.clinic; CompletedProjectsPage.garden;
                CompletedProjectsPage.school ] in
  let out := CompletedProjectsPage.completedItems
               CompletedProjectsPage.isoDateTime docs in
  let time := CompletedProjectsPage.timeValue CompletedProjectsPage.isoDateTime in
  map CompletedProjectsPage.title out = ["Clinic"; "Garden"; "School"]%string
  /\ map CompletedProjectsPage.hasDate out = [false; true; true]
  /\ map (CompletedProjectsPage.sortKey CompletedProjectsPage.isoDateTime) out
     = [Some 0; None; Some 1682899200000]%Z
  /\ (exists i j a b,
         nth_error out i = Some a /\ nth_error out j = Some b
         /\ CompletedProjectsPage.hasDate a = false
         /\ (0 < time b)%Z
         /\ i < j)
  /\ ~ StronglySorted (fun a b => (time b <= time a)%Z) out.
Proof.
  intros docs out time.
  split; [vm_compute; reflexivity|].
  split; [vm_compute; reflexivity|].
  split; [vm_compute; reflexivity|].
  split.
  - exists 0, 2,
      (CompletedProjectsPage.topItem CompletedProjectsPage.clinic),
      (CompletedProjectsPage.topItem CompletedProjectsPage.school).
    split; [vm_compute; reflexivity|].
    split; [vm_compute; reflexivity|].
    split; [reflexivity|].
    split; [vm_compute; reflexivity|lia].
  - intro H.
    assert (A : nth_error out 0
                = Some (CompletedProjectsPage.topItem CompletedProjectsPage.clinic))
      by (vm_compute; reflexivity).
    assert (B : nth_error out 2
                = Some (CompletedProjectsPage.topItem CompletedProjectsPage.school))
      by (vm_compute; reflexivity).
    pose proof (strongly_sorted_nth _ out H 0 2 _ _ ltac:(lia) A B) as L.
    vm_compute in L. apply L. reflexivity.
Qed.

(** C6 (amended).  When every completion date present is a date, the list
    handed to the page is the flat list reordered by completion date, latest
    first;
    an item without a completion date has the time value 0, and comes after
    every item whose date is later than the epoch. *)
Theorem completed_items_sorted :
  forall (getTime : string -> option Z)
         (docs : list CompletedProjectsPage.FirestoreProject),
    (forall item, In item (CompletedProjectsPage.flatten docs) ->
                  CompletedProjectsPage.sortKey getTime item <> None) ->
    let out := CompletedProjectsPage.completedItems getTime docs in
    let time := CompletedProjectsPage.timeValue getTime in
    Permutation out (CompletedProjectsPage.flatten docs)
    /\ StronglySorted (fun a b => (time b <= time a)%Z) out
    /\ (forall a, In a out -> CompletedProjectsPage.hasDate a = false ->
                  CompletedProjectsPage.sortKey getTime a = Some 0%Z
                  /\ time a = 0%Z)
    /\ (forall i j a b,
           nth_error out i = Some a -> nth_error out j = Some b ->
           (0 < time a)%Z -> CompletedProjectsPage.hasDate b = false ->
           i < j).
Proof.
  intros getTime docs Hvalid out time.
  assert (Hperm : Permutation out (CompletedProjectsPage.flatten docs))
    by apply sort_perm.
  assert (Hsorted : StronglySorted (fun a b => (time b <= time a)%Z) out).
  { apply (sort_strongly_sorted (CompletedProjectsPage.byDateDesc getTime) time).
    intros a b Ha Hb. unfold CompletedProjectsPage.byDateDesc, time,
      CompletedProjectsPage.timeValue.
    pose proof (Hvalid a Ha) as Va. pose proof (Hvalid b Hb) as Vb.
    destruct (CompletedProjectsPage.sortKey getTime a);
      destruct (CompletedProjectsPage.sortKey getTime b);
      try contradiction; reflexivity. }
  assert (Hzero : forall a, CompletedProjectsPage.hasDate a = false ->
                            CompletedProjectsPage.sortKey getTime a = Some 0%Z
                            /\ time a = 0%Z).
  { intros a Ha. unfold time, CompletedProjectsPage.timeValue.
    rewrite (sortKey_no_date getTime a Ha). split; reflexivity. }
  split; [exact Hperm|]. split; [exact Hsorted|].
  split; [intros a _ Ha; apply Hzero, Ha|].
  intros i j a b Ha Hb Hpos Hnd.
  destruct (Hzero b Hnd) as [_ Hb0].
  destruct (Nat.lt_trichotomy i j) as [Hlt|[Heq|Hgt]]; [exact Hlt| |].
  - subst j. rewrite Ha in Hb. injection Hb as <-. lia.
  - pose proof (strongly_sorted_nth _ out Hsorted j i b a Hgt Hb Ha) as Hle.
    cbn beta in Hle. lia.
Qed.

(** The example: a project completed in May 2023, Well A completed in
    January 2024 and a project completed without a date are shown as
    Well A, the 2023 project, the undated project. *)
Lemma completed_items_sorted_example :
  let docs := [ CompletedProjectsPage.clinic; CompletedProjectsPage.school;
                CompletedProjectsPage.waterProgram ] in
  let out := CompletedProjectsPage.completedItems
               CompletedProjectsPage.isoDateTime docs in
  let time := CompletedProjectsPage.timeValue CompletedProjectsPage.isoDateTime in
  (forall item, In item (CompletedProjectsPage.flatten docs) ->
                CompletedProjectsPage.sortKey CompletedProjectsPage.isoDateTime item
                <> None)
  /\ map CompletedProjectsPage.title out = ["Well A"; "School"; "Clinic"]%string
  /\ map time out = [1704067200000; 1682899200000; 0]%Z
  /\ StronglySorted (fun a b => (time b <= time a)%Z) out
  /\ (forall i j a b,
         nth_error out i = Some a -> nth_error out j = Some b ->
         (0 < time a)%Z -> CompletedProjectsPage.hasDate b = false ->
         i < j).
Proof.
  cbv zeta.
  assert (Hvalid :
            forall item,
              In item (CompletedProjectsPage.flatten
                         [ CompletedProjectsPage.clinic; CompletedProjectsPage.school;
                           CompletedProjectsPage.waterProgram ]) ->
              CompletedProjectsPage.sortKey CompletedProjectsPage.isoDateTime item
              <> None).
  { intros item [H|[H|[H|[]]]]; subst item; vm_compute; discriminate. }
  destruct (completed_items_sorted CompletedProjectsPage.isoDateTime _ Hvalid)
    as [_ [Hs [_ Hafter]]].
  split; [exact Hvalid|].
  split; [vm_compute; reflexivity|].
  split; [vm_compute; reflexivity|].
  split; [exact Hs | exact Hafter].
Defined.

(** ** Merging the fixed partners with the live ones (C3) *)

Lemma has_foundingIds seed n :
  PartnersPage.has (PartnersPage.foundingIds seed) n
  = existsb (fun q => String.eqb n (toLowerCase (PartnersPage.name q))) seed.
Proof.
  unfold PartnersPage.has, PartnersPage.foundingIds.
  induction seed as [|q seed IH]; cbn; [reflexivity|]. rewrite IH. reflexivity.
Qed.

(** C3.  The partners shown are the fixed entries, in their order, followed
    by exactly the live entries, in their order, whose lowercased name is
    the lowercased name of no fixed entry; a live entry that collides with
    a fixed one is dropped and the fixed one stays.  Merging [Acme] with
    [ACME; Beta] gives [Acme; Beta]. *)
Theorem merged_partner_display :
  (forall seed live,
      PartnersPage.displayPartners seed live
      = seed ++ filter
                  (fun p => forallb
                              (fun q => negb (String.eqb
                                                (toLowerCase (PartnersPage.name p))
                                                (toLowerCase (PartnersPage.name q))))
                              seed)
                  live)
  /\ (forall seed live p,
         In p (PartnersPage.additionalPartners seed live) <->
         In p live
         /\ forall q, In q seed ->
                      toLowerCase (PartnersPage.name q)
                      <> toLowerCase (PartnersPage.name p))
  /\ (forall seed live q, In q seed -> In q (PartnersPage.displayPartners seed live))
  /\ (forall seed live p q,
         In q seed ->
         toLowerCase (PartnersPage.name q) = toLowerCase (PartnersPage.name p) ->
         ~ In p (PartnersPage.additionalPartners seed live))
  /\ PartnersPage.displayPartners
       [PartnersPage.named "Acme"]
       [PartnersPage.named "ACME"; PartnersPage.named "Beta"]
     = [PartnersPage.named "Acme"; PartnersPage.named "Beta"].
Proof.
  assert (Hin : forall seed live p,
             In p (PartnersPage.additionalPartners seed live) <->
             In p live
             /\ forall q, In q seed ->
                          toLowerCase (PartnersPage.name q)
                          <> toLowerCase (PartnersPage.name p)).
  { intros seed live p. unfold PartnersPage.additionalPartners.
    rewrite filter_In, has_foundingIds, negb_true_iff.
    split; intros [Hl H]; (split; [exact Hl|]).
    - intros q Hq E.
      assert (X : existsb (fun q0 => String.eqb (toLowerCase (PartnersPage.name p))
                                       (toLowerCase (PartnersPage.name q0))) seed
                  = true).
      { apply existsb_exists. exists q. split; [exact Hq|].
        apply String.eqb_eq. symmetry. exact E. }
      congruence.
    - destruct (existsb _ seed) eqn:X; [|reflexivity].
      apply existsb_exists in X. destruct X as [q [Hq E]].
      apply String.eqb_eq in E. exfalso. apply (H q Hq). symmetry. exact E. }
  split.
  { intros seed live. unfold PartnersPage.displayPartners,
      PartnersPage.additionalPartners. f_equal.
    apply filter_ext. intro p. rewrite has_foundingIds.
    induction seed as [|q seed IH]; cbn; [reflexivity|].
    rewrite negb_orb, IH. reflexivity. }
  split; [exact Hin|].
  split.
  { intros seed live q Hq. unfold PartnersPage.displayPartners.
    apply in_or_app. left. exact Hq. }
  split.
  { intros seed live p q Hq E Hp. apply Hin in Hp. destruct Hp as [_ H].
    exact (H q Hq E). }
  reflexivity.
Qed.

(** The page merges with its own fixed list: a live "techsoup" is dropped. *)
Example page_partners_example :
  map PartnersPage.name
      (PartnersPage.pagePartners
         [PartnersPage.named "techsoup"; PartnersPage.named "Beta"])
  = ["Grow with Google"; "GoodStack"; "TechSoup"; "Beta"]%string.
Proof. reflexivity. Qed.

(** ** The completion payload (C4, C5) *)









(** White space alone is blank too: an entry of spaces and a tab is removed. *)
Example image_lists_cleaned_example :
  filter ProjectsPage.nonBlank
         [ " "; "http://x/1.jpg"; String (ascii_of_nat 9) " "; " http://x/2.jpg " ]%string
  = [ "http://x/1.jpg"; " http://x/2.jpg " ]%string.
Proof. reflexivity. Qed.

(** ** Handlers and the writes they issue *)

Lemma skipn_exact {A} (l r : list A) : skipn (List.length l) (l ++ r) = r.
Proof. induction l as [|x l IH]; cbn; [reflexivity|exact IH]. Qed.

Lemma newWrites_none w w' :
  Firestore.issued w' = Firestore.issued w -> Firestore.newWrites w w' = [].
Proof.
  intros E. unfold Firestore.newWrites. rewrite E.
  rewrite <- (app_nil_r (Firestore.issued w)) at 2. apply skipn_exact.
Qed.

Lemma newWrites_one w w' wr :
  Firestore.issued w' = Firestore.issued w ++ [wr] ->
  Firestore.newWrites w w' = [wr].
Proof. intros E. unfold Firestore.newWrites. rewrite E. apply skipn_exact. Qed.

(** An awaited write is logged, whether it rejects or not, and leaves the
    alerts alone; the store changes only when it resolves. *)
Lemma await_write_issued env wr w :
  Firestore.issued (fst (Firestore.await_write env wr w))
  = Firestore.issued w ++ [wr].
Proof. unfold Firestore.await_write. destruct (Firestore.rejects env wr); reflexivity. Qed.

Lemma await_write_rejected env wr w t :
  Firestore.rejects env wr = Some t ->
  Firestore.db (fst (Firestore.await_write env wr w)) = Firestore.db w.
Proof. intros E. unfold Firestore.await_write. rewrite E. reflexivity. Qed.

(** ** Validation before any write (C8) *)

(** C8.  When the title is empty, the description is empty or [goal <= 0],
    either project handler shows its alert and returns: the component's
    state, the store and the log of issued writes are what they were. *)
Theorem invalid_project_form_blocked :
  (forall (env : Firestore.Env) (st : ProjectsPage.State) (w : Firestore.World),
      ProjectsPage.f_title (ProjectsPage.formData st) = EmptyString
      \/ ProjectsPage.f_description (ProjectsPage.formData st) = EmptyString
      \/ le0 (ProjectsPage.f_goal (ProjectsPage.formData st)) = true ->
      let r := ProjectsPage.handleProjectSubmit env st w in
      fst r = st
      /\ Firestore.db (snd r) = Firestore.db w
      /\ Firestore.issued (snd r) = Firestore.issued w
      /\ Firestore.newWrites w (snd r) = []
      /\ Firestore.alerts (snd r)
         = Firestore.alerts w ++ ["Please fill in all required fields"%string])
  /\ (forall (env : Firestore.Env) (st : DashboardProjectsPage.State)
             (w : Firestore.World),
         DashboardProjectsPage.f_title (DashboardProjectsPage.formData st)
         = EmptyString
         \/ DashboardProjectsPage.f_description (DashboardProjectsPage.formData st)
            = EmptyString
         \/ le0 (DashboardProjectsPage.f_goal (DashboardProjectsPage.formData st))
            = true ->
         let r := DashboardProjectsPage.handleSubmit env st w in
         fst r = st
         /\ Firestore.db (snd r) = Firestore.db w
         /\ Firestore.issued (snd r) = Firestore.issued w
         /\ Firestore.newWrites w (snd r) = []
         /\ Firestore.alerts (snd r)
            = Firestore.alerts w
              ++ ["Please fill in all required fields (Title, Description, Goal)"%string]).
Proof.
  split.
  - intros env st w H r.
    assert (I : ProjectsPage.projectFormInvalid (ProjectsPage.formData st) = true).
    { unfold ProjectsPage.projectFormInvalid.
      destruct H as [H|[H|H]]; rewrite H; cbn; rewrite ?orb_true_r; reflexivity. }
    unfold r, ProjectsPage.handleProjectSubmit. rewrite I. cbn [fst snd].
    repeat split. apply newWrites_none. reflexivity.
  - intros env st w H r.
    assert (I : DashboardProjectsPage.formInvalid
                  (DashboardProjectsPage.formData st) = true).
    { unfold DashboardProjectsPage.formInvalid.
      destruct H as [H|[H|H]]; rewrite H; cbn; rewrite ?orb_true_r; reflexivity. }
    unfold r, DashboardProjectsPage.handleSubmit. rewrite I. cbn [fst snd].
    repeat split. apply newWrites_none. reflexivity.
Qed.

(** A form that passes the validation issues exactly one write: the
    validation is the only way out before the write. *)
Lemma valid_project_form_writes env st w :
  ProjectsPage.projectFormInvalid (ProjectsPage.formData st) = false ->
  Firestore.newWrites w (snd (ProjectsPage.handleProjectSubmit env st w))
  = [ProjectsPage.projectWrite st].
Proof.
  intros V. unfold ProjectsPage.handleProjectSubmit. rewrite V.
  pose proof (await_write_issued env (ProjectsPage.projectWrite st) w) as I.
  destruct (Firestore.await_write env (ProjectsPage.projectWrite st) w) as [w1 [t|]];
    cbn [fst snd] in *; apply newWrites_one; cbn; exact I.
Qed.

Lemma valid_dashboard_form_writes env st w :
  DashboardProjectsPage.formInvalid (DashboardProjectsPage.formData st) = false ->
  Firestore.newWrites w (snd (DashboardProjectsPage.handleSubmit env st w))
  = [DashboardProjectsPage.submitWrite st].
Proof.
  intros V. unfold DashboardProjectsPage.handleSubmit. rewrite V.
  pose proof (await_write_issued env (DashboardProjectsPage.submitWrite st) w) as I.
  destruct (Firestore.await_write env (DashboardProjectsPage.submitWrite st) w)
    as [w1 [t|]];
    cbn [fst snd] in *; apply newWrites_one; cbn; exact I.
Qed.

(** The untouched form has no title: submitting it changes nothing but the
    alerts.  With a title, a description and a goal of 500 the project is
    added to the store. *)
Example project_submit_example :
  let st := ProjectsPage.withForm ProjectsPage.defaultFormData
              (ProjectsPage.initialState "2024-01-01") in
  let filled :=
    {| ProjectsPage.f_title := "Well"; ProjectsPage.f_subtitle := EmptyString;
       ProjectsPage.f_tagline := EmptyString;
       ProjectsPage.f_description := "A well";
       ProjectsPage.f_callToAction := EmptyString;
       ProjectsPage.f_category := "water"; ProjectsPage.f_goal := 500%float;
       ProjectsPage.f_raised := 0%float; ProjectsPage.f_supporters := 0%float;
       ProjectsPage.f_image := EmptyString; ProjectsPage.f_tag := EmptyString;
       ProjectsPage.f_isActive := true; ProjectsPage.f_isLive := false;
       ProjectsPage.f_isCompleted := false; ProjectsPage.f_isParent := false |} in
  let env := Firestore.allResolve "doc1" in
  ProjectsPage.handleProjectSubmit env st Firestore.emptyWorld
  = (st, Firestore.alert "Please fill in all required fields" Firestore.emptyWorld)
  /\ map Firestore.doc_id
         (Firestore.docs_of "projects"
            (Firestore.db
               (snd (ProjectsPage.handleProjectSubmit env
                       (ProjectsPage.withForm filled st) Firestore.emptyWorld))))
     = ["doc1"%string]
  /\ Firestore.alerts
       (snd (ProjectsPage.handleProjectSubmit env
               (ProjectsPage.withForm filled st) Firestore.emptyWorld))
     = [].
Proof. cbv zeta. repeat split. Qed.

(** ** The exported file (C9) *)

Lemma split_head_app c date rest :
  (forall a, In a (list_ascii_of_string date) -> a <> c) ->
  split_head c (date ++ String c rest)%string = date.
Proof.
  induction date as [|a date IH]; intros H; cbn.
  - rewrite Ascii.eqb_refl. reflexivity.
  - destruct (Ascii.eqb a c) eqn:E.
    + apply Ascii.eqb_eq in E. exfalso. apply (H a); [left; reflexivity|exact E].
    + f_equal. apply IH. intros b Hb. apply H. right. exact Hb.
Qed.

Lemma string_app_assoc (a b c : string) : ((a ++ b) ++ c = a ++ b ++ c)%string.
Proof. induction a as [|x a IH]; cbn; [reflexivity|]. rewrite IH. reflexivity. Qed.

Lemma string_app_nil_r (a : string) : (a ++ EmptyString = a)%string.
Proof. induction a as [|x a IH]; cbn; [reflexivity|]. rewrite IH. reflexivity. Qed.

(** A joined array, written out: the first element, then each further
    element after a separator. *)
Lemma join_cons sep x l :
  join sep (x :: l)
  = (x ++ fold_right (fun y rest => sep ++ y ++ rest) EmptyString l)%string.
Proof.
  revert x. induction l as [|y l IH]; intro x.
  - cbn. symmetry. apply string_app_nil_r.
  - change (join sep (x :: y :: l)) with (x ++ sep ++ join sep (y :: l))%string.
    rewrite IH. reflexivity.
Qed.

(** C9.  The exported text is the header row
    [Date,Type,Description,Project,Amount,Category,Receipt/Payment] followed,
    for each transaction of the list and in its order, by a line feed and
    the row of its seven cells, each between two double quotes and
    separated by commas; the file is named ledger-<date>.csv with the date
    part of the current ISO time.  A donation and an expense exported on
    3 November 2026 give the three lines written out below. *)
Theorem csv_export :
  (forall (toLocaleDateString : string -> string)
          (Number_toString : number -> string) (nowISOString : string)
          (transactions : list LedgerPage.Transaction),
      let file := LedgerPage.exportToCSV toLocaleDateString Number_toString
                    nowISOString transactions in
      let q := String (ascii_of_nat 34) EmptyString in
      let lf := String (ascii_of_nat 10) EmptyString in
      let typeText := fun t =>
        match LedgerPage.type t with
        | LedgerPage.income => "income"%string
        | LedgerPage.expense => "expense"%string
        end in
      let lastCell := fun t =>
        match LedgerPage.receipt t, LedgerPage.paymentMethod t with
        | Some (String c r), _ => String c r
        | _, Some (String c r) => String c r
        | _, _ => EmptyString
        end in
      let row := fun t =>
        (q ++ toLocaleDateString (LedgerPage.date t) ++ q ++ ","
           ++ q ++ typeText t ++ q ++ ","
           ++ q ++ LedgerPage.description t ++ q ++ ","
           ++ q ++ LedgerPage.project t ++ q ++ ","
           ++ q ++ Number_toString (LedgerPage.amount t) ++ q ++ ","
           ++ q ++ LedgerPage.category t ++ q ++ ","
           ++ q ++ lastCell t ++ q)%string in
      LedgerPage.csvContent file
      = ("Date,Type,Description,Project,Amount,Category,Receipt/Payment"
           ++ fold_right (fun t rest => lf ++ row t ++ rest) EmptyString
                         transactions)%string
      /\ LedgerPage.download file
         = ("ledger-" ++ split_head "T" nowISOString ++ ".csv")%string
      /\ (forall date rest,
             (forall a, In a (list_ascii_of_string date) -> a <> "T"%char) ->
             nowISOString = (date ++ String "T" rest)%string ->
             LedgerPage.download file = ("ledger-" ++ date ++ ".csv")%string))
  /\ (let q := String (ascii_of_nat 34) EmptyString in
      let lf := String (ascii_of_nat 10) EmptyString in
      let ts := [ {| LedgerPage.id := "d1";
                     LedgerPage.date := "2026-01-02T10:00:00.000Z";
                     LedgerPage.type := LedgerPage.income;
                     LedgerPage.category := "donation";
                     LedgerPage.description := "Donation from Anonymous";
                     LedgerPage.amount := 100%float;
                     LedgerPage.project := "General";
                     LedgerPage.receipt := None;
                     LedgerPage.paymentMethod := Some "Stripe"%string;
                     LedgerPage.donorEmail := None |};
                  {| LedgerPage.id := "e1";
                     LedgerPage.date := "2026-01-03T10:00:00.000Z";
                     LedgerPage.type := LedgerPage.expense;
                     LedgerPage.category := "general";
                     LedgerPage.description := "Pump";
                     LedgerPage.amount := 40%float; LedgerPage.project := "Well";
                     LedgerPage.receipt := None; LedgerPage.paymentMethod := None;
                     LedgerPage.donorEmail := None |} ] in
      let file :=
        LedgerPage.exportToCSV
          (fun d => if String.eqb d "2026-01-02T10:00:00.000Z"
                    then "1/2/2026"%string else "1/3/2026"%string)
          (fun a => if PrimFloat.eqb a 100 then "100"%string else "40"%string)
          "2026-11-03T09:15:00.000Z" ts in
      LedgerPage.download file = "ledger-2026-11-03.csv"%string
      /\ LedgerPage.csvContent file
         = ("Date,Type,Description,Project,Amount,Category,Receipt/Payment" ++ lf
              ++ q ++ "1/2/2026" ++ q ++ "," ++ q ++ "income" ++ q ++ ","
              ++ q ++ "Donation from Anonymous" ++ q ++ ","
              ++ q ++ "General" ++ q ++ "," ++ q ++ "100" ++ q ++ ","
              ++ q ++ "donation" ++ q ++ "," ++ q ++ "Stripe" ++ q ++ lf
              ++ q ++ "1/3/2026" ++ q ++ "," ++ q ++ "expense" ++ q ++ ","
              ++ q ++ "Pump" ++ q ++ "," ++ q ++ "Well" ++ q ++ ","
              ++ q ++ "40" ++ q ++ "," ++ q ++ "general" ++ q ++ ","
              ++ q ++ q)%string
      /\ String.length (LedgerPage.csvContent file) = 196).
Proof.
  split.
  - intros toLocaleDateString Number_toString nowISOString transactions
      file q lf typeText lastCell row.
    split; [|split].
    + unfold file, LedgerPage.exportToCSV, LedgerPage.csvLines.
      cbn [LedgerPage.csvContent]. rewrite join_cons. f_equal.
      rewrite map_map.
      induction transactions as [|t ts IH]; [reflexivity|].
      cbn [map fold_right]. rewrite IH. f_equal. f_equal.
      unfold row, LedgerPage.csvRow, LedgerPage.quoteCell. cbn [map].
      rewrite join_cons. cbn [fold_right].
      assert (L : or_string (LedgerPage.receipt t)
                    (or_string (LedgerPage.paymentMethod t) EmptyString)
                  = lastCell t).
      { unfold lastCell, or_string.
        destruct (LedgerPage.receipt t) as [[|c r]|];
          destruct (LedgerPage.paymentMethod t) as [[|c' r']|]; reflexivity. }
      rewrite L.
      assert (T : LedgerPage.type_string (LedgerPage.type t) = typeText t)
        by (unfold typeText; destruct (LedgerPage.type t); reflexivity).
      rewrite T.
      change LedgerPage.dquote with q.
      rewrite !string_app_assoc, string_app_nil_r. reflexivity.
    + reflexivity.
    + intros date rest Hd E. unfold file, LedgerPage.exportToCSV.
      cbn [LedgerPage.download]. rewrite E, split_head_app by exact Hd. reflexivity.
  - cbv zeta. repeat split; vm_compute; reflexivity.
Qed.

(** ** Writes of embedded arrays (C10) *)

Section EmbeddedArrays.
Context {A : Type}.
Variable idOf : A -> string.
Variable target : string.

(** The map of the edit handlers replaces the elements with the target's id
    and returns the others as they are. *)
Lemma edit_keptInPlace (change : A -> A) l :
  Firestore.keptInPlace idOf target l
    (map (fun x => if String.eqb (idOf x) target then change x else x) l).
Proof.
  unfold Firestore.keptInPlace. split; [apply length_map|].
  intros i x Hx Hid. rewrite nth_error_map, Hx. cbn [option_map].
  apply String.eqb_neq in Hid. rewrite Hid. reflexivity.
Qed.

Lemma edit_keptInOrder (change : A -> A) l :
  (forall x, idOf (change x) = idOf x) ->
  Firestore.keptInOrder idOf target l
    (map (fun x => if String.eqb (idOf x) target then change x else x) l).
Proof.
  intros Hid. unfold Firestore.keptInOrder.
  induction l as [|x l IH]; cbn [map filter]; [reflexivity|].
  destruct (String.eqb (idOf x) target) eqn:E.
  - rewrite Hid, E. cbn [negb]. exact IH.
  - rewrite E. cbn [negb]. f_equal. exact IH.
Qed.

(** The filter of the delete handlers. *)
Lemma remove_keptInOrder l :
  Firestore.keptInOrder idOf target l
    (filter (fun x => negb (String.eqb (idOf x) target)) l).
Proof.
  unfold Firestore.keptInOrder.
  induction l as [|x l IH]; cbn [filter]; [reflexivity|].
  destruct (negb (String.eqb (idOf x) target)) eqn:E; cbn [filter].
  - rewrite E. f_equal. exact IH.
  - exact IH.
Qed.

Lemma remove_spec l x :
  In x (filter (fun x => negb (String.eqb (idOf x) target)) l)
  <-> In x l /\ idOf x <> target.
Proof. rewrite filter_In, negb_true_iff, String.eqb_neq. reflexivity. Qed.
End EmbeddedArrays.

(** The write of [handleSubProjectSubmit], when it gets that far. *)
Lemma handleSubProjectSubmit_writes env senv st w parent :
  ProjectsPage.subModalParent st = Some parent ->
  forall wr,
    In wr (Firestore.newWrites w
             (snd (ProjectsPage.handleSubProjectSubmit env senv st w))) ->
    wr = Firestore.UpdateDoc "projects" (ProjectsPage.id parent)
           [ ("subProjects"%string,
              Firestore.VSubProjects
                (ProjectsPage.updatedSubs_submit senv parent
                   (ProjectsPage.editingSubProject st) (ProjectsPage.subFormData st)));
             ("updatedAt"%string, Firestore.VServerTimestamp) ].
Proof.
  intros Hp wr. unfold ProjectsPage.handleSubProjectSubmit. rewrite Hp.
  destruct (negb (truthy_string (ProjectsPage.sf_title (ProjectsPage.subFormData st)))
            || le0 (ProjectsPage.sf_goal (ProjectsPage.subFormData st))).
  - cbn [snd]. rewrite newWrites_none by reflexivity. intros [].
  - match goal with |- context [Firestore.await_write env ?x w] =>
      pose proof (await_write_issued env x w) as I;
      destruct (Firestore.await_write env x w) as [w1 [t|]] end;
      cbn [fst snd] in *;
      (rewrite (newWrites_one w _ _) by (cbn; exact I));
      intros [<-|[]]; reflexivity.
Qed.

Lemma handleCompletionSubmit_writes env st w parent :
  ProjectsPage.completingProject st = Some parent ->
  forall wr,
    In wr (Firestore.newWrites w
             (snd (ProjectsPage.handleCompletionSubmit env st w))) ->
    wr = ProjectsPage.completionWrite parent (ProjectsPage.completingSubProject st)
           (ProjectsPage.buildCleanCompletionData (ProjectsPage.completionFormData st)).
Proof.
  intros Hp wr. unfold ProjectsPage.handleCompletionSubmit. rewrite Hp.
  match goal with |- context [Firestore.await_write env ?x w] =>
    pose proof (await_write_issued env x w) as I;
    destruct (Firestore.await_write env x w) as [w1 [t|]] end;
    cbn [fst snd] in *;
    (rewrite (newWrites_one w _ _) by (cbn; exact I));
    intros [<-|[]]; reflexivity.
Qed.

Lemma handleExpenseSubmit_writes env genId otherText st w parent :
  AdminGivingCirclePage.expenseParent st = Some parent ->
  forall wr,
    In wr (Firestore.newWrites w
             (snd (AdminGivingCirclePage.handleExpenseSubmit env genId otherText st w))) ->
    wr = Firestore.UpdateDoc "workspaces" (ws_id parent)
           [ ("expenses"%string,
              Firestore.VExpenses
                (AdminGivingCirclePage.updated_submit genId parent
                   (AdminGivingCirclePage.editingExpense st)
                   (AdminGivingCirclePage.expenseForm st)));
             ("updatedAt"%string, Firestore.VServerTimestamp) ].
Proof.
  intros Hp wr. unfold AdminGivingCirclePage.handleExpenseSubmit. rewrite Hp.
  destruct (negb (truthy_string
                    (AdminGivingCirclePage.ef_description
                       (AdminGivingCirclePage.expenseForm st)))).
  - cbn [snd]. rewrite newWrites_none by reflexivity. intros [].
  - match goal with |- context [Firestore.await_write env ?x w] =>
      pose proof (await_write_issued env x w) as I;
      destruct (Firestore.await_write env x w) as [w1 [t|]] end;
      cbn [fst snd] in *;
      (rewrite (newWrites_one w _ _) by (cbn; exact I));
      intros [<-|[]]; reflexivity.
Qed.

Lemma handleDeleteExpense_writes env otherText typeErrorMessage st w target workspace :
  AdminGivingCirclePage.deletingExpense st = Some (target, workspace) ->
  forall wr,
    In wr (Firestore.newWrites w
             (snd (AdminGivingCirclePage.handleDeleteExpense env otherText
                     typeErrorMessage st w))) ->
    exists expenses,
      ws_expenses workspace = Some expenses
      /\ wr = Firestore.UpdateDoc "workspaces" (ws_id workspace)
                [ ("expenses"%string,
                   Firestore.VExpenses
                     (AdminGivingCirclePage.updated_delete target expenses));
                  ("updatedAt"%string, Firestore.VServerTimestamp) ].
Proof.
  intros Hp wr. unfold AdminGivingCirclePage.handleDeleteExpense. rewrite Hp.
  destruct (ws_expenses workspace) as [expenses|].
  - match goal with |- context [Firestore.await_write env ?x w] =>
      pose proof (await_write_issued env x w) as I;
      destruct (Firestore.await_write env x w) as [w1 [t|]] end;
      cbn [fst snd] in *;
      (rewrite (newWrites_one w _ _) by (cbn; exact I));
      intros [<-|[]]; exists expenses; split; reflexivity.
  - cbn [snd]. rewrite newWrites_none by reflexivity. intros [].
Qed.

(** C10.  In the array written by editing a sub-project, by marking a
    sub-project completed and by editing an expense, every element whose id
    is not the target's is at its position, unchanged, and the array has
    the length it had; in the array written by deleting an expense the
    elements whose id is not the target's are all there, unchanged and in
    their order, and nothing else is. *)
Theorem embedded_array_frame :
  (forall env senv st w parent e wr arr,
      ProjectsPage.subModalParent st = Some parent ->
      ProjectsPage.editingSubProject st = Some e ->
      In wr (Firestore.newWrites w
               (snd (ProjectsPage.handleSubProjectSubmit env senv st w))) ->
      ProjectsPage.writtenSubProjects wr = Some arr ->
      Firestore.keptInPlace sub_id (sub_id e) (ProjectsPage.subsOf parent) arr
      /\ Firestore.keptInOrder sub_id (sub_id e) (ProjectsPage.subsOf parent) arr)
  /\ (forall env st w parent sub wr arr,
         ProjectsPage.completingProject st = Some parent ->
         ProjectsPage.completingSubProject st = Some sub ->
         In wr (Firestore.newWrites w
                  (snd (ProjectsPage.handleCompletionSubmit env st w))) ->
         ProjectsPage.writtenSubProjects wr = Some arr ->
         Firestore.keptInPlace sub_id (sub_id sub) (ProjectsPage.subsOf parent) arr
         /\ Firestore.keptInOrder sub_id (sub_id sub) (ProjectsPage.subsOf parent) arr)
  /\ (forall env genId otherText st w parent e wr arr,
         AdminGivingCirclePage.expenseParent st = Some parent ->
         AdminGivingCirclePage.editingExpense st = Some e ->
         In wr (Firestore.newWrites w
                  (snd (AdminGivingCirclePage.handleExpenseSubmit env genId
                          otherText st w))) ->
         AdminGivingCirclePage.writtenExpenses wr = Some arr ->
         Firestore.keptInPlace ex_id (ex_id e)
           (AdminGivingCirclePage.expensesOf parent) arr
         /\ Firestore.keptInOrder ex_id (ex_id e)
              (AdminGivingCirclePage.expensesOf parent) arr)
  /\ (forall env otherText typeErrorMessage st w target workspace wr arr,
         AdminGivingCirclePage.deletingExpense st = Some (target, workspace) ->
         In wr (Firestore.newWrites w
                  (snd (AdminGivingCirclePage.handleDeleteExpense env otherText
                          typeErrorMessage st w))) ->
         AdminGivingCirclePage.writtenExpenses wr = Some arr ->
         exists old,
           ws_expenses workspace = Some old
           /\ Firestore.keptInOrder ex_id (ex_id target) old arr
           /\ (forall x, In x arr <-> In x old /\ ex_id x <> ex_id target)).
Proof.
  split; [|split; [|split]].
  - intros env senv st w parent e wr arr Hp He Hin Hw.
    apply (handleSubProjectSubmit_writes env senv st w parent Hp) in Hin.
    subst wr. rewrite He in Hw. cbn in Hw. injection Hw as <-. split.
    + apply edit_keptInPlace.
    + apply edit_keptInOrder. intro x. reflexivity.
  - intros env st w parent sub wr arr Hp Hs Hin Hw.
    apply (handleCompletionSubmit_writes env st w parent Hp) in Hin.
    subst wr. rewrite Hs in Hw. cbn in Hw. injection Hw as <-. split.
    + apply edit_keptInPlace.
    + apply edit_keptInOrder. intro x. reflexivity.
  - intros env genId otherText st w parent e wr arr Hp He Hin Hw.
    apply (handleExpenseSubmit_writes env genId otherText st w parent Hp) in Hin.
    subst wr. rewrite He in Hw. cbn in Hw. injection Hw as <-. split.
    + apply edit_keptInPlace.
    + apply edit_keptInOrder. intro x. reflexivity.
  - intros env otherText typeErrorMessage st w target workspace wr arr Hp Hin Hw.
    apply (handleDeleteExpense_writes env otherText typeErrorMessage st w
             target workspace Hp) in Hin.
    destruct Hin as [old [Ho ->]]. cbn in Hw. injection Hw as <-.
    exists old. split; [exact Ho|]. split.
    + apply remove_keptInOrder.
    + intro x. apply remove_spec.
Qed.

(** Editing Well B in a parent that holds Well A and Well B writes Well A as
    it was, followed by Well B with the form's fields. *)
Example edit_sub_project_example :
  let parent :=
    {| ProjectsPage.id := "water"; ProjectsPage.title := "Water Program";
       ProjectsPage.description := EmptyString; ProjectsPage.category := "water";
       ProjectsPage.goal := 1000%float; ProjectsPage.raised := None;
       ProjectsPage.supporters := None; ProjectsPage.isCompleted := None;
       ProjectsPage.isParent := Some true;
       ProjectsPage.subProjects :=
         Some [CompletedProjectsPage.wellA; CompletedProjectsPage.wellB];
       ProjectsPage.completionData := None |} in
  let form :=
    {| ProjectsPage.sf_title := "Well B2"; ProjectsPage.sf_description := "Deeper";
       ProjectsPage.sf_communityName := "North"; ProjectsPage.sf_goal := 10%float;
       ProjectsPage.sf_raised := 5%float |} in
  let st :=
    {| ProjectsPage.saving := false; ProjectsPage.showModal := false;
       ProjectsPage.editingProject := None;
       ProjectsPage.formData := ProjectsPage.defaultFormData;
       ProjectsPage.showSubModal := true;
       ProjectsPage.subModalParent := Some parent;
       ProjectsPage.editingSubProject := Some CompletedProjectsPage.wellB;
       ProjectsPage.subFormData := form;
       ProjectsPage.showCompletionModal := false;
       ProjectsPage.completingProject := None;
       ProjectsPage.completingSubProject := None;
       ProjectsPage.completionFormData :=
         ProjectsPage.defaultCompletionForm "2024-01-01" |} in
  let senv := {| ProjectsPage.generatedSubId := "sub_1";
                 ProjectsPage.nowISOString := "2024-01-01T00:00:00.000Z" |} in
  map ProjectsPage.writtenSubProjects
      (Firestore.newWrites Firestore.emptyWorld
         (snd (ProjectsPage.handleSubProjectSubmit (Firestore.allResolve "x") senv st
                 Firestore.emptyWorld)))
  = [ Some [ CompletedProjectsPage.wellA;
             ProjectsPage.applySubForm CompletedProjectsPage.wellB form ] ].
Proof. cbv zeta. reflexivity. Qed.

(** Deleting the second of three expenses writes the first and the third. *)
Example delete_expense_example :
  let e := fun i a => {| ex_id := i; ex_description := "item"; ex_amount := a;
                         ex_date := None; ex_note := None |} in
  let workspace :=
    {| ws_id := "w"; ws_name := "Workspace"; ws_logo := None;
       ws_totalReceived := 100%float; ws_date := None; ws_note := None;
       ws_expenses := Some [e "1" 10%float; e "2" 20%float; e "3" 30%float]%string |} in
  let st :=
    {| AdminGivingCirclePage.saving := false;
       AdminGivingCirclePage.deleting := false;
       AdminGivingCirclePage.showExpenseModal := false;
       AdminGivingCirclePage.expenseParent := None;
       AdminGivingCirclePage.editingExpense := None;
       AdminGivingCirclePage.expenseForm :=
         {| AdminGivingCirclePage.ef_description := EmptyString;
            AdminGivingCirclePage.ef_amount := 0%float;
            AdminGivingCirclePage.ef_date := EmptyString;
            AdminGivingCirclePage.ef_note := EmptyString |};
       AdminGivingCirclePage.showDeleteExpense := true;
       AdminGivingCirclePage.deletingExpense :=
         Some (e "2"%string 20%float, workspace) |} in
  map AdminGivingCirclePage.writtenExpenses
      (Firestore.newWrites Firestore.emptyWorld
         (snd (AdminGivingCirclePage.handleDeleteExpense (Firestore.allResolve "x")
                 "err" "TypeError" st Firestore.emptyWorld)))
  = [ Some [e "1" 10%float; e "3" 30%float]%string ].
Proof. cbv zeta. reflexivity. Qed.

(* ================================================================== *)
(** * Part III.  Further properties of the pages                       *)
(* ================================================================== *)

(** ** Bars never pass 100 *)

Lemma SFcompare_antisym x y :
  SFcompare y x = option_map CompOpp (SFcompare x y).
Proof.
  destruct x as [sx|sx| |sx mx ex], y as [sy|sy| |sy my ey]; cbn;
    try reflexivity;
    try (destruct sx; reflexivity); try (destruct sy; reflexivity);
    try (destruct sx, sy; reflexivity).
  destruct sx, sy; cbn; try reflexivity;
    rewrite (Z.compare_antisym ex ey); destruct (ex ?= ey)%Z; cbn; try reflexivity;
    rewrite (Pos.compare_cont_antisym); cbn;
    destruct (Pos.compare_cont Eq mx my); reflexivity.
Qed.

Lemma ltb_asym (a b : number) : PrimFloat.ltb a b = true -> PrimFloat.ltb b a = false.
Proof.
  rewrite !FloatAxioms.ltb_spec. unfold SFltb.
  rewrite (SFcompare_antisym (Prim2SF a) (Prim2SF b)).
  destruct (SFcompare (Prim2SF a) (Prim2SF b)) as [[| |]|]; cbn; congruence.
Qed.

Lemma ltb_irrefl (a : number) : PrimFloat.ltb a a = false.
Proof.
  destruct (PrimFloat.ltb a a) eqn:E; [|reflexivity].
  pose proof (ltb_asym a a E). congruence.
Qed.

Lemma ltb_nan_r (b : number) : PrimFloat.ltb b NaN = false.
Proof.
  rewrite FloatAxioms.ltb_spec. unfold SFltb.
  change (Prim2SF NaN) with S754_nan.
  destruct (Prim2SF b) as [s|s| |s m e]; reflexivity.
Qed.

(** [Math.min(a, b)] is never above [b]. *)
Lemma Math_min_bound (a b : number) : PrimFloat.ltb b (Math_min a b) = false.
Proof.
  unfold Math_min.
  destruct (PrimFloat.is_nan a || PrimFloat.is_nan b); [apply ltb_nan_r|].
  destruct (PrimFloat.ltb a b) eqn:Eab; [apply ltb_asym, Eab|].
  destruct (PrimFloat.ltb b a) eqn:Eba; [apply ltb_irrefl|].
  destruct (PrimFloat.get_sign a); [exact Eba|apply ltb_irrefl].
Qed.

(** X1.  No progress bar is wider than 100, whatever the amounts are: on
    the ledger page, on both projects dashboards and on the giving-circle
    page, where the label is bounded as well. *)
Theorem bars_never_exceed_100 :
  (forall p, PrimFloat.ltb 100 (LedgerPage.progressWidth p) = false)
  /\ (forall raised goal,
         PrimFloat.ltb 100 (ProjectsPage.progressPct raised goal) = false)
  /\ (forall p, PrimFloat.ltb 100 (DashboardProjectsPage.progressWidth p) = false)
  /\ (forall w x, GivingCirclePage.allocatedWidth w = Some x ->
                  PrimFloat.ltb 100 x = false)
  /\ (forall w x, GivingCirclePage.allocatedLabel w = Some x ->
                  PrimFloat.ltb 100 x = false).
Proof.
  repeat match goal with |- _ /\ _ => split end.
  - intro p. unfold LedgerPage.progressWidth.
    destruct (gt0 (LedgerPage.p_goal p)); [apply Math_min_bound|reflexivity].
  - intros raised goal. unfold ProjectsPage.progressPct.
    destruct (gt0 _); [apply Math_min_bound|reflexivity].
  - intro p. unfold DashboardProjectsPage.progressWidth.
    destruct (gt0 _); [apply Math_min_bound|reflexivity].
  - intros w x. unfold GivingCirclePage.allocatedWidth.
    destruct (gt0 _); [|discriminate].
    intro H. apply (f_equal (fun o => match o with Some v => v | None => x end)) in H.
    rewrite <- H. apply Math_min_bound.
  - intros w x. unfold GivingCirclePage.allocatedLabel.
    destruct (gt0 _); [|discriminate].
    intro H. apply (f_equal (fun o => match o with Some v => v | None => x end)) in H.
    rewrite <- H. apply Math_min_bound.
Qed.

(** ** Expanding and collapsing cards *)

Lemma Set_has_delete s x y :
  Set_has (Set_delete s x) y = Set_has s y && negb (String.eqb y x).
Proof.
  unfold Set_has, Set_delete. induction s as [|z s IH]; cbn; [reflexivity|].
  destruct (String.eqb z x) eqn:E; cbn.
  - rewrite IH. apply String.eqb_eq in E. subst z.
    destruct (String.eqb y x) eqn:F; cbn; [rewrite andb_false_r|]; reflexivity.
  - rewrite IH. destruct (String.eqb y z) eqn:F; cbn; [|reflexivity].
    apply String.eqb_eq in F. subst z. rewrite E. reflexivity.
Qed.

Lemma Set_has_add s x y :
  Set_has (Set_add s x) y = Set_has s y || String.eqb y x.
Proof.
  unfold Set_add. destruct (Set_has s x) eqn:H.
  - destruct (String.eqb y x) eqn:E; [|rewrite orb_false_r; reflexivity].
    apply String.eqb_eq in E. subst y. rewrite H. reflexivity.
  - unfold Set_has. rewrite existsb_app. cbn. rewrite orb_false_r. reflexivity.
Qed.

Lemma Set_delete_absent s x : Set_has s x = false -> Set_delete s x = s.
Proof.
  unfold Set_has, Set_delete. induction s as [|z s IH]; cbn; [reflexivity|].
  intro H. apply orb_false_iff in H. destruct H as [E H].
  rewrite String.eqb_sym, E. cbn. f_equal. apply IH, H.
Qed.

Lemma Set_delete_app s r x : Set_delete (s ++ r) x = Set_delete s x ++ Set_delete r x.
Proof. unfold Set_delete. apply filter_app. Qed.

(** X2.  Toggling a card changes whether that card is expanded and no other
    card; toggling it twice gives back the expanded cards, and, for a card
    that was collapsed, the very same set. *)
Theorem toggleExpand_membership :
  forall (id : string) (prev : list string),
    Set_has (ProjectsPage.toggleExpand id prev) id = negb (Set_has prev id)
    /\ (forall y, y <> id ->
                  Set_has (ProjectsPage.toggleExpand id prev) y = Set_has prev y)
    /\ (forall y,
           Set_has (ProjectsPage.toggleExpand id (ProjectsPage.toggleExpand id prev)) y
           = Set_has prev y)
    /\ (NoDup prev -> NoDup (ProjectsPage.toggleExpand id prev))
    /\ (Set_has prev id = false ->
        ProjectsPage.toggleExpand id (ProjectsPage.toggleExpand id prev) = prev).
Proof.
  intros id prev.
  assert (H1 : forall s, Set_has (ProjectsPage.toggleExpand id s) id
                         = negb (Set_has s id)).
  { intro s. unfold ProjectsPage.toggleExpand. destruct (Set_has s id) eqn:H.
    - rewrite Set_has_delete, String.eqb_refl. apply andb_false_r.
    - rewrite Set_has_add, String.eqb_refl. apply orb_true_r. }
  assert (H2 : forall s y, y <> id ->
                           Set_has (ProjectsPage.toggleExpand id s) y = Set_has s y).
  { intros s y N. apply String.eqb_neq in N. unfold ProjectsPage.toggleExpand.
    destruct (Set_has s id).
    - rewrite Set_has_delete, N. apply andb_true_r.
    - rewrite Set_has_add, N. apply orb_false_r. }
  split; [apply H1|]. split; [apply H2|]. split; [|split].
  - intro y. destruct (String.eqb y id) eqn:E.
    + apply String.eqb_eq in E. subst y. rewrite !H1. apply negb_involutive.
    + apply String.eqb_neq in E. rewrite !H2 by exact E. reflexivity.
  - intro ND. unfold ProjectsPage.toggleExpand. destruct (Set_has prev id) eqn:H.
    + unfold Set_delete. apply NoDup_filter, ND.
    + unfold Set_add. rewrite H.
      apply NoDup_app; [exact ND | repeat constructor; intros [] |].
      intros x Hx [E|[]]. subst x.
      assert (Set_has prev id = true)
        by (apply existsb_exists; exists id; split; [exact Hx|apply String.eqb_refl]).
      congruence.
  - intro H. unfold ProjectsPage.toggleExpand at 2. rewrite H.
    unfold ProjectsPage.toggleExpand.
    replace (Set_has (Set_add prev id) id) with true
      by (symmetry; rewrite Set_has_add, String.eqb_refl; apply orb_true_r).
    unfold Set_add. rewrite H, Set_delete_app, (Set_delete_absent prev id H).
    cbn. rewrite String.eqb_refl. cbn. apply app_nil_r.
Qed.

(** ** The lists of the completion form *)

Lemma orOne_nonempty {A} (one : A) (arr : list A) : ProjectsPage.orOne one arr <> [].
Proof. destruct arr; discriminate. Qed.

Lemma listOrOne_nonempty {A} (one : A) (arr : option (list A)) :
  ProjectsPage.listOrOne one arr <> [].
Proof. destruct arr as [[|x l]|]; discriminate. Qed.

Lemma assign_index_nonempty {A} i (v : A) arr arr' :
  assign_index i v arr = Some arr' -> arr' <> [].
Proof.
  destruct arr as [|x arr]; destruct i as [|i]; cbn; try discriminate.
  - intros [= <-]. discriminate.
  - intros [= <-]. discriminate.
  - destruct (assign_index i v arr); cbn; [intros [= <-]|]; discriminate.
Qed.

Lemma app_one_nonempty {A} (l : list A) x : l ++ [x] <> [].
Proof. destruct l; discriminate. Qed.

Lemma setImages_hasFields type arr f :
  arr <> [] -> ProjectsPage.hasFields f ->
  ProjectsPage.hasFields (ProjectsPage.setImages type arr f).
Proof.
  intros N [Hb [Ha [Hp Ht]]]. unfold ProjectsPage.hasFields.
  destruct type; cbn; auto.
Qed.

Lemma setTestimonials_hasFields arr f :
  arr <> [] -> ProjectsPage.hasFields f ->
  ProjectsPage.hasFields (ProjectsPage.setTestimonials arr f).
Proof. intros N [Hb [Ha [Hp Ht]]]. unfold ProjectsPage.hasFields. cbn. auto. Qed.

Lemma formStep_hasFields f f' :
  ProjectsPage.formStep f f' -> ProjectsPage.hasFields f -> ProjectsPage.hasFields f'.
Proof.
  intros S H. destruct S as [type f|type index value f f' E|type index f|f
                             |index field value f f' E|index f
                             |loadDay today data f|date story stats f].
  - apply setImages_hasFields; [apply app_one_nonempty|exact H].
  - unfold ProjectsPage.updateImageField in E.
    destruct (assign_index index value (ProjectsPage.getImages type f)) as [arr|] eqn:A;
      [|discriminate].
    cbn in E. injection E as <-.
    apply setImages_hasFields; [eapply assign_index_nonempty, A|exact H].
  - apply setImages_hasFields; [apply orOne_nonempty|exact H].
  - apply setTestimonials_hasFields; [apply app_one_nonempty|exact H].
  - unfold ProjectsPage.updateTestimonial in E.
    destruct (nth_error (cf_testimonials f) index) as [t|]; [|discriminate].
    destruct (assign_index index (ProjectsPage.assignField field value t)
                (cf_testimonials f)) as [arr|] eqn:A; [|discriminate].
    cbn in E. injection E as <-.
    apply setTestimonials_hasFields; [eapply assign_index_nonempty, A|exact H].
  - apply setTestimonials_hasFields; [apply orOne_nonempty|exact H].
  - unfold ProjectsPage.prefillCompletionForm, ProjectsPage.hasFields.
    destruct data as [data|]; cbn.
    + repeat split; try apply listOrOne_nonempty.
      destruct (testimonials data) as [[|t l]|]; discriminate.
    + repeat split; discriminate.
  - destruct H as [Hb [Ha [Hp Ht]]]. unfold ProjectsPage.hasFields. cbn. auto.
Qed.

(** X3.  Whatever the administrator does in the completion form of the
    dashboard with communities (adding, editing and removing fields,
    opening the form on stored data, typing), each of the three image
    lists and the list of testimonials keeps at least one field. *)
Theorem completion_form_keeps_fields :
  forall (loadDay : string) (f : CompletionForm),
    ProjectsPage.formReachable loadDay f -> ProjectsPage.hasFields f.
Proof.
  intros loadDay f R. induction R as [|f f' R IH S].
  - unfold ProjectsPage.hasFields. cbn. repeat split; discriminate.
  - eapply formStep_hasFields; eassumption.
Qed.

(** Removing the only before-image field of the first form, then opening
    the form on data stored with empty lists. *)
Lemma completion_form_keeps_fields_example :
  let noLists :=
    {| completedDate := Some "2024-02-02"%string; completionStory := None;
       beforeImages := Some []; afterImages := None; progressImages := Some [];
       testimonials := Some []; impactStats := None |} in
  let f1 := ProjectsPage.removeImageField ProjectsPage.beforeImagesField 0
              (ProjectsPage.defaultCompletionForm "2024-01-01") in
  let f2 := ProjectsPage.prefillCompletionForm "2024-01-01" "2024-03-03" (Some noLists) in
  ProjectsPage.formReachable "2024-01-01" f2
  /\ cf_beforeImages f1 = [EmptyString]
  /\ cf_beforeImages f2 = [EmptyString]
  /\ ProjectsPage.hasFields f2.
Proof.
  cbv zeta.
  assert (R : ProjectsPage.formReachable "2024-01-01"
                (ProjectsPage.prefillCompletionForm "2024-01-01" "2024-03-03"
                   (Some {| completedDate := Some "2024-02-02"%string;
                            completionStory := None;
                            beforeImages := Some []; afterImages := None;
                            progressImages := Some [];
                            testimonials := Some []; impactStats := None |}))).
  { eapply ProjectsPage.reach_step.
    - eapply ProjectsPage.reach_step.
      + apply ProjectsPage.reach_initial.
      + apply (ProjectsPage.step_removeImage ProjectsPage.beforeImagesField 0).
    - apply ProjectsPage.step_prefill. }
  split; [exact R|]. split; [reflexivity|]. split; [reflexivity|].
  exact (completion_form_keeps_fields _ _ R).
Defined.

Lemma filter_index_remove {A} (l : list A) : forall index k,
  filter_index (fun i => negb (Nat.eqb i (k + index))) k l
  = firstn index l ++ skipn (S index) l.
Proof.
  induction l as [|x l IH]; intros index k; cbn [filter_index].
  - destruct index; reflexivity.
  - destruct index as [|index].
    + rewrite Nat.add_0_r, Nat.eqb_refl. cbn [negb firstn skipn app].
      clear IH. revert k. induction l as [|y l IHl]; intro k; cbn [filter_index];
        [reflexivity|].
      replace (Nat.eqb (S k) k) with false
        by (symmetry; apply Nat.eqb_neq; lia).
      cbn [negb]. f_equal.
      specialize (IHl (S k)).
      assert (G : forall m j, j < m ->
                    filter_index (fun i => negb (Nat.eqb i j)) m l = l).
      { clear. induction l as [|z l IH]; intros m j Hj; cbn; [reflexivity|].
        replace (Nat.eqb m j) with false by (symmetry; apply Nat.eqb_neq; lia).
        cbn. f_equal. apply IH. lia. }
      apply G. lia.
    + replace (Nat.eqb k (k + S index)) with false
        by (symmetry; apply Nat.eqb_neq; lia).
      cbn [negb firstn skipn app]. f_equal.
      replace (k + S index) with (S k + index) by lia. apply IH.
Qed.

Lemma firstn_skipn_beyond {A} (l : list A) index :
  List.length l <= index -> firstn index l ++ skipn (S index) l = l.
Proof.
  intro H. rewrite firstn_all2 by exact H. rewrite skipn_all2 by lia.
  apply app_nil_r.
Qed.

(** X4.  Removing a field of a list of image addresses removes the entry at
    that index and keeps the others in their order; an index beyond the
    list removes nothing; the last remaining field is not removed but
    emptied.  The other lists and the testimonials are untouched. *)
Theorem removeImageField_effect :
  forall (type : ProjectsPage.ImageField) (index : nat) (f : CompletionForm),
    let l := ProjectsPage.getImages type f in
    let f' := ProjectsPage.removeImageField type index f in
    let l' := ProjectsPage.getImages type f' in
    (index < List.length l -> 2 <= List.length l ->
     l' = firstn index l ++ skipn (S index) l
     /\ List.length l' = List.length l - 1)
    /\ (List.length l <= index -> l <> [] -> l' = l)
    /\ (List.length l <= 1 -> index = 0 -> l' = [EmptyString])
    /\ (forall other, other <> type ->
                      ProjectsPage.getImages other f' = ProjectsPage.getImages other f)
    /\ cf_testimonials f' = cf_testimonials f.
Proof.
  intros type index f l f' l'.
  assert (E : l' = ProjectsPage.orOne EmptyString
                     (firstn index l ++ skipn (S index) l)).
  { unfold l', f', ProjectsPage.removeImageField.
    rewrite (filter_index_remove _ index 0). fold l. destruct type; reflexivity. }
  split; [|split; [|split; [|split]]].
  - intros Hi H2. rewrite E.
    assert (L : List.length (firstn index l ++ skipn (S index) l)
                = List.length l - 1).
    { rewrite length_app, length_firstn, length_skipn. lia. }
    destruct (firstn index l ++ skipn (S index) l) as [|x r] eqn:R.
    + cbn in L. lia.
    + split; [reflexivity|exact L].
  - intros Hi N. rewrite E, firstn_skipn_beyond by exact Hi.
    destruct l; [contradiction|reflexivity].
  - intros H1 ->. rewrite E. destruct l as [|x [|y l0]]; cbn in *; try reflexivity.
    lia.
  - intros other N. unfold f', ProjectsPage.removeImageField.
    destruct other, type; try reflexivity; contradiction.
  - destruct type; reflexivity.
Qed.

(** ** Saving a completion and opening it again *)

Lemma filter_idem {A} (f : A -> bool) l : filter f (filter f l) = filter f l.
Proof.
  induction l as [|x l IH]; cbn; [reflexivity|].
  destruct (f x) eqn:E; cbn; [rewrite E; f_equal|]; exact IH.
Qed.

Lemma or_string_some s : or_string (Some s) EmptyString = s.
Proof. destruct s; reflexivity. Qed.

Lemma testimonial_back l :
  map (fun t => {| tf_name := t_name t; tf_text := t_text t;
                   tf_role := or_string (t_role t) EmptyString |})
      (map testimonial_of_form l) = l.
Proof.
  induction l as [|[n x r] l IH]; cbn [map]; [reflexivity|].
  rewrite IH. unfold testimonial_of_form.
  cbn [t_name t_text t_role tf_name tf_text tf_role].
  rewrite or_string_some. reflexivity.
Qed.

(** The images a cleaned list gives back to the form, cleaned again. *)
Lemma reclean_listOrOne (keep : string -> bool) l :
  keep EmptyString = false ->
  filter keep (ProjectsPage.listOrOne EmptyString (Some (filter keep l)))
  = filter keep l.
Proof.
  intro K. destruct (filter keep l) as [|x r] eqn:E; cbn [ProjectsPage.listOrOne].
  - cbn. rewrite K. reflexivity.
  - rewrite <- E. apply filter_idem.
Qed.

(** The testimonials a cleaned list gives back to the form, cleaned again. *)
Lemma reclean_testimonials (keep : TestimonialForm -> bool) l :
  keep {| tf_name := EmptyString; tf_text := EmptyString; tf_role := EmptyString |}
  = false ->
  filter keep
    match map testimonial_of_form (filter keep l) with
    | t :: r =>
        map (fun t => {| tf_name := t_name t; tf_text := t_text t;
                         tf_role := or_string (t_role t) EmptyString |})
            (t :: r)
    | [] => [ {| tf_name := EmptyString; tf_text := EmptyString;
                 tf_role := EmptyString |} ]
    end
  = filter keep l.
Proof.
  intro K. destruct (filter keep l) as [|x r] eqn:E.
  - cbn. rewrite K. reflexivity.
  - replace (match map testimonial_of_form (x :: r) with
             | t :: r0 =>
                 map (fun t => {| tf_name := t_name t; tf_text := t_text t;
                                  tf_role := or_string (t_role t) EmptyString |})
                     (t :: r0)
             | [] => [ {| tf_name := EmptyString; tf_text := EmptyString;
                          tf_role := EmptyString |} ]
             end) with (x :: r) by (symmetry; exact (testimonial_back (x :: r))).
    rewrite <- E. apply filter_idem.
Qed.

Lemma impactStats_back s :
  {| isf_peopleHelped := isf_peopleHelped s;
     isf_itemsDistributed := isf_itemsDistributed s;
     isf_customMetric := isf_customMetric s |} = s.
Proof. destruct s; reflexivity. Qed.

(** X5.  A completion saved with a date, opened again in the form and saved
    without a change, persists the same data: cleaning what the form shows
    for cleaned data gives that data, on both dashboards. *)
Theorem clean_prefill_round_trip :
  forall (loadDay today : string) (form : CompletionForm),
    cf_completedDate form <> EmptyString ->
    ProjectsPage.buildCleanCompletionData
      (ProjectsPage.prefillCompletionForm loadDay today
         (Some (ProjectsPage.buildCleanCompletionData form)))
    = ProjectsPage.buildCleanCompletionData form
    /\ DashboardProjectsPage.cleanCompletionData
         (DashboardProjectsPage.openCompletionForm today
            (Some (DashboardProjectsPage.cleanCompletionData form)))
       = DashboardProjectsPage.cleanCompletionData form.
Proof.
  intros loadDay today form D.
  assert (Hd : or_string (Some (cf_completedDate form)) today = cf_completedDate form).
  { cbn. destruct (cf_completedDate form); [contradiction|reflexivity]. }
  split.
  - unfold ProjectsPage.buildCleanCompletionData,
      ProjectsPage.prefillCompletionForm.
    cbn [completedDate completionStory beforeImages afterImages progressImages
         testimonials impactStats cf_completedDate cf_completionStory
         cf_beforeImages cf_afterImages cf_progressImages cf_testimonials
         cf_impactStats].
    rewrite Hd, or_string_some.
    rewrite !reclean_listOrOne by reflexivity.
    rewrite reclean_testimonials by reflexivity.
    unfold impactStats_of_form.
    cbn [peopleHelped itemsDistributed customMetric isf_peopleHelped
         isf_itemsDistributed isf_customMetric].
    reflexivity.
  - unfold DashboardProjectsPage.cleanCompletionData,
      DashboardProjectsPage.openCompletionForm.
    cbn [completedDate completionStory beforeImages afterImages progressImages
         testimonials impactStats cf_completedDate cf_completionStory
         cf_beforeImages cf_afterImages cf_progressImages cf_testimonials
         cf_impactStats].
    rewrite Hd, or_string_some, !filter_idem.
    rewrite reclean_testimonials by reflexivity.
    unfold impactStats_of_form.
    cbn [peopleHelped itemsDistributed customMetric isf_peopleHelped
         isf_itemsDistributed isf_customMetric].
    reflexivity.
Qed.

(** A form with a blank address and a testimonial without text. *)
Lemma clean_prefill_round_trip_example :
  let form :=
    {| cf_completedDate := "2024-01-01"; cf_completionStory := "Done";
       cf_beforeImages := [" "; "http://x/1.jpg"]%string;
       cf_afterImages := [EmptyString];
       cf_progressImages := ["http://x/2.jpg"; "http://x/3.jpg"]%string;
       cf_testimonials :=
         [ {| tf_name := "Ann"; tf_text := EmptyString; tf_role := EmptyString |};
           {| tf_name := "Bo"; tf_text := "Thanks"; tf_role := "Teacher" |} ];
       cf_impactStats :=
         {| isf_peopleHelped := 40%float; isf_itemsDistributed := 0%float;
            isf_customMetric := "2 wells" |} |} in
  cf_completedDate form <> EmptyString
  /\ cf_beforeImages
       (ProjectsPage.prefillCompletionForm "2023-12-31" "2024-06-01"
          (Some (ProjectsPage.buildCleanCompletionData form)))
     = ["http://x/1.jpg"%string]
  /\ cf_afterImages
       (ProjectsPage.prefillCompletionForm "2023-12-31" "2024-06-01"
          (Some (ProjectsPage.buildCleanCompletionData form)))
     = [EmptyString]
  /\ cf_afterImages
       (DashboardProjectsPage.openCompletionForm "2024-06-01"
          (Some (DashboardProjectsPage.cleanCompletionData form)))
     = []
  /\ ProjectsPage.buildCleanCompletionData
       (ProjectsPage.prefillCompletionForm "2023-12-31" "2024-06-01"
          (Some (ProjectsPage.buildCleanCompletionData form)))
     = ProjectsPage.buildCleanCompletionData form
  /\ DashboardProjectsPage.cleanCompletionData
       (DashboardProjectsPage.openCompletionForm "2024-06-01"
          (Some (DashboardProjectsPage.cleanCompletionData form)))
     = DashboardProjectsPage.cleanCompletionData form.
Proof.
  cbv zeta.
  split; [discriminate|].
  split; [reflexivity|]. split; [reflexivity|]. split; [reflexivity|].
  refine (clean_prefill_round_trip "2023-12-31" "2024-06-01" _ _). discriminate.
Defined.

(** ** Communities: adding and deleting *)

(** X6.  Submitting the community form when no community is being edited
    writes the parent's array with one element appended: the elements that
    were there are at their positions, unchanged, and the new one has the
    generated id, the fields of the form, and is not completed. *)
Theorem add_sub_project_appends :
  forall env senv st w parent wr arr,
    ProjectsPage.subModalParent st = Some parent ->
    ProjectsPage.editingSubProject st = None ->
    In wr (Firestore.newWrites w
             (snd (ProjectsPage.handleSubProjectSubmit env senv st w))) ->
    ProjectsPage.writtenSubProjects wr = Some arr ->
    exists new,
      arr = ProjectsPage.subsOf parent ++ [new]
      /\ sub_id new = ProjectsPage.generatedSubId senv
      /\ sub_title new = ProjectsPage.sf_title (ProjectsPage.subFormData st)
      /\ sub_goal new = ProjectsPage.sf_goal (ProjectsPage.subFormData st)
      /\ sub_raised new = ProjectsPage.sf_raised (ProjectsPage.subFormData st)
      /\ sub_isCompleted new = Some false
      /\ sub_completionData new = None
      /\ List.length arr = S (List.length (ProjectsPage.subsOf parent))
      /\ (forall i s, nth_error (ProjectsPage.subsOf parent) i = Some s ->
                      nth_error arr i = Some s).
Proof.
  intros env senv st w parent wr arr Hp He Hin Hw.
  apply (handleSubProjectSubmit_writes env senv st w parent Hp) in Hin.
  subst wr. rewrite He in Hw. cbn in Hw. injection Hw as <-.
  eexists. split; [reflexivity|]. cbn.
  repeat split.
  - rewrite length_app. cbn. lia.
  - intros i s H. rewrite nth_error_app1; [exact H|].
    apply nth_error_Some. congruence.
Qed.

(** Adding Well C to a parent that holds Well A and Well B. *)
Lemma add_sub_project_appends_example :
  let parent :=
    {| ProjectsPage.id := "water"; ProjectsPage.title := "Water Program";
       ProjectsPage.description := EmptyString; ProjectsPage.category := "water";
       ProjectsPage.goal := 1000%float; ProjectsPage.raised := None;
       ProjectsPage.supporters := None; ProjectsPage.isCompleted := None;
       ProjectsPage.isParent := Some true;
       ProjectsPage.subProjects :=
         Some [CompletedProjectsPage.wellA; CompletedProjectsPage.wellB];
       ProjectsPage.completionData := None |} in
  let form :=
    {| ProjectsPage.sf_title := "Well C"; ProjectsPage.sf_description := EmptyString;
       ProjectsPage.sf_communityName := "South"; ProjectsPage.sf_goal := 10%float;
       ProjectsPage.sf_raised := 0%float |} in
  let st :=
    {| ProjectsPage.saving := false; ProjectsPage.showModal := false;
       ProjectsPage.editingProject := None;
       ProjectsPage.formData := ProjectsPage.defaultFormData;
       ProjectsPage.showSubModal := true;
       ProjectsPage.subModalParent := Some parent;
       ProjectsPage.editingSubProject := None;
       ProjectsPage.subFormData := form;
       ProjectsPage.showCompletionModal := false;
       ProjectsPage.completingProject := None;
       ProjectsPage.completingSubProject := None;
       ProjectsPage.completionFormData :=
         ProjectsPage.defaultCompletionForm "2024-01-01" |} in
  let senv := {| ProjectsPage.generatedSubId := "sub_1";
                 ProjectsPage.nowISOString := "2024-01-01T00:00:00.000Z" |} in
  let wr :=
    Firestore.UpdateDoc "projects" "water"
      [ ("subProjects"%string,
         Firestore.VSubProjects
           (ProjectsPage.updatedSubs_submit senv parent None form));
        ("updatedAt"%string, Firestore.VServerTimestamp) ] in
  Firestore.newWrites Firestore.emptyWorld
    (snd (ProjectsPage.handleSubProjectSubmit (Firestore.allResolve "x") senv st
            Firestore.emptyWorld)) = [wr]
  /\ exists new,
       ProjectsPage.updatedSubs_submit senv parent None form
       = [CompletedProjectsPage.wellA; CompletedProjectsPage.wellB] ++ [new]
       /\ sub_id new = "sub_1"%string.
Proof.
  intros parent form st senv wr. split; [reflexivity|].
  destruct (add_sub_project_appends (Firestore.allResolve "x") senv st
              Firestore.emptyWorld parent wr
              (ProjectsPage.updatedSubs_submit senv parent None form)
              eq_refl eq_refl (or_introl eq_refl) eq_refl)
    as [new [E [I _]]].
  exists new. split; [exact E|exact I].
Defined.

Lemma handleDeleteSubProject_writes env st w sub parent :
  ProjectsPage.deletingSubProject st = Some (sub, parent) ->
  Firestore.newWrites w (snd (ProjectsPage.handleDeleteSubProject env st w))
  = [ Firestore.UpdateDoc "projects" (ProjectsPage.id parent)
        [ ("subProjects"%string,
           Firestore.VSubProjects
             (filter (fun s => negb (String.eqb (sub_id s) (sub_id sub)))
                     (ProjectsPage.subsOf parent)));
          ("updatedAt"%string, Firestore.VServerTimestamp) ] ].
Proof.
  intros Hd. unfold ProjectsPage.handleDeleteSubProject. rewrite Hd.
  match goal with |- context [Firestore.await_write env ?x w] =>
    pose proof (await_write_issued env x w) as I;
    destruct (Firestore.await_write env x w) as [w1 [t|]] end;
    cbn [fst snd] in *; apply newWrites_one; cbn; exact I.
Qed.

(** X7.  Deleting a community issues one write of the parent's array
    without the elements that have the deleted one's id: the others are all
    there, unchanged and in their order.  When the write resolves the dialog
    is closed; when it rejects the dialog stays as it was (both the flag
    that shows it and the community it names are kept), the store is as it
    was and the message is shown. *)
Theorem delete_sub_project_frame :
  forall env st w sub parent,
    ProjectsPage.deletingSubProject st = Some (sub, parent) ->
    let r := ProjectsPage.handleDeleteSubProject env st w in
    exists arr wr,
      Firestore.newWrites w (snd r) = [wr]
      /\ ProjectsPage.writtenSubProjects wr = Some arr
      /\ Firestore.keptInOrder sub_id (sub_id sub) (ProjectsPage.subsOf parent) arr
      /\ (forall x, In x arr <-> In x (ProjectsPage.subsOf parent)
                                 /\ sub_id x <> sub_id sub)
      /\ (Firestore.rejects env wr = None ->
          ProjectsPage.deletingSubProject (fst r) = None
          /\ ProjectsPage.showDeleteSubModal (fst r) = false
          /\ Firestore.alerts (snd r) = Firestore.alerts w)
      /\ (forall t, Firestore.rejects env wr = Some t ->
                    ProjectsPage.deletingSubProject (fst r) = Some (sub, parent)
                    /\ ProjectsPage.showDeleteSubModal (fst r)
                       = ProjectsPage.showDeleteSubModal st
                    /\ Firestore.db (snd r) = Firestore.db w
                    /\ Firestore.alerts (snd r)
                       = Firestore.alerts w
                         ++ [("Failed to delete: " ++ error_message t)%string])
      /\ ProjectsPage.deleting (fst r) = false.
Proof.
  intros env st w sub parent Hd r.
  eexists. eexists.
  split; [apply (handleDeleteSubProject_writes env st w sub parent Hd)|].
  split; [reflexivity|].
  split; [apply remove_keptInOrder|].
  split; [intro x; apply remove_spec|].
  unfold r, ProjectsPage.handleDeleteSubProject, Firestore.await_write.
  rewrite Hd.
  repeat split.
  - match goal with H : Firestore.rejects _ _ = None |- _ => rewrite H end.
    reflexivity.
  - match goal with H : Firestore.rejects _ _ = None |- _ => rewrite H end.
    reflexivity.
  - match goal with H : Firestore.rejects _ _ = None |- _ => rewrite H end.
    reflexivity.
  - match goal with H : Firestore.rejects _ _ = Some _ |- _ => rewrite H end.
    reflexivity.
  - match goal with H : Firestore.rejects _ _ = Some _ |- _ => rewrite H end.
    reflexivity.
  - match goal with H : Firestore.rejects _ _ = Some _ |- _ => rewrite H end.
    reflexivity.
  - match goal with H : Firestore.rejects _ _ = Some _ |- _ => rewrite H end.
    reflexivity.
  - match goal with |- context [Firestore.rejects env ?x] =>
      destruct (Firestore.rejects env x) end; reflexivity.
Qed.

(** Deleting Well A from a parent that holds Well A and Well B. *)
Lemma delete_sub_project_frame_example :
  let parent :=
    {| ProjectsPage.id := "water"; ProjectsPage.title := "Water Program";
       ProjectsPage.description := EmptyString; ProjectsPage.category := "water";
       ProjectsPage.goal := 1000%float; ProjectsPage.raised := None;
       ProjectsPage.supporters := None; ProjectsPage.isCompleted := None;
       ProjectsPage.isParent := Some true;
       ProjectsPage.subProjects :=
         Some [CompletedProjectsPage.wellA; CompletedProjectsPage.wellB];
       ProjectsPage.completionData := None |} in
  let st := {| ProjectsPage.deleting := false;
               ProjectsPage.showDeleteSubModal := true;
               ProjectsPage.deletingSubProject :=
                 Some (CompletedProjectsPage.wellA, parent) |} in
  let r := ProjectsPage.handleDeleteSubProject (Firestore.allResolve "x") st
             Firestore.emptyWorld in
  let offline := {| Firestore.rejects := fun _ => Some (ErrorObject "offline");
                    Firestore.newDocId := "x" |} in
  let r' := ProjectsPage.handleDeleteSubProject offline st Firestore.emptyWorld in
  map ProjectsPage.writtenSubProjects (Firestore.newWrites Firestore.emptyWorld (snd r))
  = [Some [CompletedProjectsPage.wellB]]
  /\ ProjectsPage.showDeleteSubModal (fst r) = false
  /\ ProjectsPage.showDeleteSubModal (fst r') = true
  /\ ProjectsPage.deletingSubProject (fst r')
     = Some (CompletedProjectsPage.wellA, parent)
  /\ Firestore.alerts (snd r') = ["Failed to delete: offline"%string]
  /\ exists arr wr,
       Firestore.newWrites Firestore.emptyWorld (snd r) = [wr]
       /\ ProjectsPage.writtenSubProjects wr = Some arr
       /\ forall x, In x arr <-> In x (ProjectsPage.subsOf parent)
                                 /\ sub_id x <> sub_id CompletedProjectsPage.wellA.
Proof.
  intros parent st r offline r'. split; [reflexivity|].
  split; [reflexivity|]. split; [reflexivity|]. split; [reflexivity|].
  split; [reflexivity|].
  destruct (delete_sub_project_frame (Firestore.allResolve "x") st
              Firestore.emptyWorld CompletedProjectsPage.wellA parent eq_refl)
    as [arr [wr [E [W [_ [I _]]]]]].
  exists arr, wr. split; [exact E|]. split; [exact W|exact I].
Defined.

(** ** Forms that are not submitted *)

(** X8.  A community form without a parent, without a title or with
    [goal <= 0] is answered by an alert and nothing is written.  An expense
    form without a workspace or without a description, a completion without
    a project and a deletion without an expense are dropped in silence:
    state, store, log and alerts are what they were. *)
Theorem incomplete_forms_write_nothing :
  (forall env senv st w,
      ProjectsPage.subModalParent st = None
      \/ ProjectsPage.sf_title (ProjectsPage.subFormData st) = EmptyString
      \/ le0 (ProjectsPage.sf_goal (ProjectsPage.subFormData st)) = true ->
      ProjectsPage.handleSubProjectSubmit env senv st w
      = (st, Firestore.alert "Please fill in Title and Goal" w)
      /\ Firestore.newWrites w
           (snd (ProjectsPage.handleSubProjectSubmit env senv st w)) = [])
  /\ (forall env genId otherText st w,
         AdminGivingCirclePage.expenseParent st = None
         \/ AdminGivingCirclePage.ef_description (AdminGivingCirclePage.expenseForm st)
            = EmptyString ->
         AdminGivingCirclePage.handleExpenseSubmit env genId otherText st w = (st, w))
  /\ (forall env st w,
         ProjectsPage.completingProject st = None ->
         ProjectsPage.handleCompletionSubmit env st w = (st, w))
  /\ (forall env st w,
         DashboardProjectsPage.completingProject st = None ->
         DashboardProjectsPage.handleCompletionSubmit env st w = (st, w))
  /\ (forall env otherText typeErrorMessage st w,
         AdminGivingCirclePage.deletingExpense st = None ->
         AdminGivingCirclePage.handleDeleteExpense env otherText typeErrorMessage st w
         = (st, w)).
Proof.
  repeat match goal with |- _ /\ _ => split end.
  - intros env senv st w H.
    assert (E : ProjectsPage.handleSubProjectSubmit env senv st w
                = (st, Firestore.alert "Please fill in Title and Goal" w)).
    { unfold ProjectsPage.handleSubProjectSubmit.
      destruct H as [H|[H|H]]; rewrite H;
        destruct (ProjectsPage.subModalParent st); cbn;
        rewrite ?orb_true_r; reflexivity. }
    split; [exact E|]. rewrite E. apply newWrites_none. reflexivity.
  - intros env genId otherText st w H.
    unfold AdminGivingCirclePage.handleExpenseSubmit.
    destruct H as [H|H]; rewrite H; [reflexivity|].
    destruct (AdminGivingCirclePage.expenseParent st); reflexivity.
  - intros env st w H. unfold ProjectsPage.handleCompletionSubmit.
    rewrite H. reflexivity.
  - intros env st w H. unfold DashboardProjectsPage.handleCompletionSubmit.
    rewrite H. reflexivity.
  - intros env otherText typeErrorMessage st w H.
    unfold AdminGivingCirclePage.handleDeleteExpense. rewrite H. reflexivity.
Qed.

(** ** Writes that reject, writes that resolve *)

(** X9.  When the awaited write rejects, the store is as it was, the alert
    carries the handler's prefix and the error's message, and the component
    is in the state it was in with [saving] off: the modal is open and the
    form holds what was typed. *)
Theorem rejected_write_keeps_form :
  (forall env st w t,
      ProjectsPage.projectFormInvalid (ProjectsPage.formData st) = false ->
      Firestore.rejects env (ProjectsPage.projectWrite st) = Some t ->
      let r := ProjectsPage.handleProjectSubmit env st w in
      fst r = ProjectsPage.setSaving false st
      /\ Firestore.db (snd r) = Firestore.db w
      /\ Firestore.alerts (snd r)
         = Firestore.alerts w ++ [("Failed to save: " ++ error_message t)%string])
  /\ (forall env st w t,
         DashboardProjectsPage.formInvalid (DashboardProjectsPage.formData st) = false ->
         Firestore.rejects env (DashboardProjectsPage.submitWrite st) = Some t ->
         let r := DashboardProjectsPage.handleSubmit env st w in
         fst r = DashboardProjectsPage.setSaving false st
         /\ Firestore.db (snd r) = Firestore.db w
         /\ Firestore.alerts (snd r)
            = Firestore.alerts w
              ++ [("Failed to save project: " ++ error_message t)%string])
  /\ (forall env st w parent t,
         ProjectsPage.completingProject st = Some parent ->
         Firestore.rejects env
           (ProjectsPage.completionWrite parent (ProjectsPage.completingSubProject st)
              (ProjectsPage.buildCleanCompletionData
                 (ProjectsPage.completionFormData st))) = Some t ->
         let r := ProjectsPage.handleCompletionSubmit env st w in
         fst r = ProjectsPage.setSaving false st
         /\ Firestore.db (snd r) = Firestore.db w
         /\ Firestore.alerts (snd r)
            = Firestore.alerts w ++ [("Failed: " ++ error_message t)%string])
  /\ (forall env genId otherText st w parent t,
         AdminGivingCirclePage.expenseParent st = Some parent ->
         AdminGivingCirclePage.ef_description (AdminGivingCirclePage.expenseForm st)
         <> EmptyString ->
         Firestore.rejects env
           (Firestore.UpdateDoc "workspaces" (ws_id parent)
              [ ("expenses"%string,
                 Firestore.VExpenses
                   (AdminGivingCirclePage.updated_submit genId parent
                      (AdminGivingCirclePage.editingExpense st)
                      (AdminGivingCirclePage.expenseForm st)));
                ("updatedAt"%string, Firestore.VServerTimestamp) ]) = Some t ->
         let r := AdminGivingCirclePage.handleExpenseSubmit env genId otherText st w in
         fst r = AdminGivingCirclePage.setSaving false st
         /\ Firestore.db (snd r) = Firestore.db w
         /\ Firestore.alerts (snd r)
            = Firestore.alerts w ++ [AdminGivingCirclePage.failedText otherText t]).
Proof.
  split; [|split; [|split]].
  - intros env st w t V R r. unfold r, ProjectsPage.handleProjectSubmit,
      Firestore.await_write. rewrite V, R. repeat split.
  - intros env st w t V R r. unfold r, DashboardProjectsPage.handleSubmit,
      Firestore.await_write. rewrite V, R. repeat split.
  - intros env st w parent t P R r. unfold r, ProjectsPage.handleCompletionSubmit,
      Firestore.await_write. rewrite P, R. repeat split.
  - intros env genId otherText st w parent t P D R r.
    unfold r, AdminGivingCirclePage.handleExpenseSubmit, Firestore.await_write.
    rewrite P.
    destruct (AdminGivingCirclePage.ef_description
                (AdminGivingCirclePage.expenseForm st)) eqn:E;
      [contradiction|].
    cbn [truthy_string negb]. rewrite R. repeat split.
Qed.

Lemma docs_of_set_docs coll ds db :
  Firestore.docs_of coll (Firestore.set_docs coll ds db) = ds.
Proof.
  induction db as [|[c ds'] db IH]; cbn.
  - rewrite String.eqb_refl. reflexivity.
  - destruct (String.eqb c coll) eqn:E; cbn; rewrite E; [reflexivity|exact IH].
Qed.

Lemma docs_of_set_docs_other coll coll' ds db :
  coll' <> coll ->
  Firestore.docs_of coll' (Firestore.set_docs coll ds db) = Firestore.docs_of coll' db.
Proof.
  intro N. induction db as [|[c ds'] db IH]; cbn.
  - apply String.eqb_neq in N. rewrite String.eqb_sym, N. reflexivity.
  - destruct (String.eqb c coll) eqn:E; cbn.
    + apply String.eqb_eq in E. subst c.
      replace (String.eqb coll coll') with false
        by (symmetry; apply String.eqb_neq; congruence).
      reflexivity.
    + rewrite IH. reflexivity.
Qed.

(** X10.  A project added on the dashboard with communities, when the write
    resolves, is one more document of the collection [projects], the others
    as they were and every other collection untouched; it holds the form's
    title, description and goal, is not completed and has no communities,
    whatever the form says about completion; the modal closes and nothing
    is alerted. *)
Theorem added_project_is_stored :
  forall env st w,
    ProjectsPage.projectFormInvalid (ProjectsPage.formData st) = false ->
    ProjectsPage.editingProject st = None ->
    Firestore.rejects env (ProjectsPage.projectWrite st) = None ->
    let r := ProjectsPage.handleProjectSubmit env st w in
    exists data,
      Firestore.docs_of "projects" (Firestore.db (snd r))
      = Firestore.docs_of "projects" (Firestore.db w)
        ++ [ {| Firestore.doc_id := Firestore.newDocId env;
                Firestore.doc_fields := data |} ]
      /\ (forall coll, coll <> "projects"%string ->
                       Firestore.docs_of coll (Firestore.db (snd r))
                       = Firestore.docs_of coll (Firestore.db w))
      /\ Firestore.get_field "title" data
         = Some (Firestore.VString (ProjectsPage.f_title (ProjectsPage.formData st)))
      /\ Firestore.get_field "description" data
         = Some (Firestore.VString
                   (ProjectsPage.f_description (ProjectsPage.formData st)))
      /\ Firestore.get_field "goal" data
         = Some (Firestore.VNumber (ProjectsPage.f_goal (ProjectsPage.formData st)))
      /\ Firestore.get_field "isCompleted" data = Some (Firestore.VBool false)
      /\ Firestore.get_field "subProjects" data = Some (Firestore.VSubProjects [])
      /\ ProjectsPage.showModal (fst r) = false
      /\ ProjectsPage.saving (fst r) = false
      /\ Firestore.alerts (snd r) = Firestore.alerts w.
Proof.
  intros env st w V E R r.
  unfold r, ProjectsPage.handleProjectSubmit, Firestore.await_write.
  rewrite V, R. cbn [fst snd Firestore.db Firestore.alerts].
  unfold ProjectsPage.projectWrite in *. rewrite E in *.
  eexists. split.
  - cbn [Firestore.apply_write]. rewrite docs_of_set_docs. reflexivity.
  - split.
    + intros coll N. cbn [Firestore.apply_write].
      apply docs_of_set_docs_other. exact N.
    + repeat split.
Qed.

(** A form marked completed, added to an empty collection. *)
Lemma added_project_is_stored_example :
  let filled :=
    {| ProjectsPage.f_title := "Well"; ProjectsPage.f_subtitle := EmptyString;
       ProjectsPage.f_tagline := EmptyString;
       ProjectsPage.f_description := "A well";
       ProjectsPage.f_callToAction := EmptyString;
       ProjectsPage.f_category := "water"; ProjectsPage.f_goal := 500%float;
       ProjectsPage.f_raised := 0%float; ProjectsPage.f_supporters := 0%float;
       ProjectsPage.f_image := EmptyString; ProjectsPage.f_tag := EmptyString;
       ProjectsPage.f_isActive := true; ProjectsPage.f_isLive := false;
       ProjectsPage.f_isCompleted := true; ProjectsPage.f_isParent := false |} in
  let st := ProjectsPage.withForm filled (ProjectsPage.initialState "2024-01-01") in
  let r := ProjectsPage.handleProjectSubmit (Firestore.allResolve "doc1") st
             Firestore.emptyWorld in
  exists data,
    Firestore.docs_of "projects" (Firestore.db (snd r))
    = [ {| Firestore.doc_id := "doc1"; Firestore.doc_fields := data |} ]
    /\ Firestore.get_field "isCompleted" data = Some (Firestore.VBool false).
Proof.
  intros filled st r.
  destruct (added_project_is_stored (Firestore.allResolve "doc1") st
              Firestore.emptyWorld eq_refl eq_refl eq_refl)
    as [data [D [_ [_ [_ [_ [C _]]]]]]].
  exists data. split; [exact D|exact C].
Defined.

(** ** Filtering and searching the ledger *)

Lemma lower_char_idem c : lower_char (lower_char c) = lower_char c.
Proof. destruct c as [[] [] [] [] [] [] [] []]; reflexivity. Qed.

Lemma toLowerCase_idem s : toLowerCase (toLowerCase s) = toLowerCase s.
Proof.
  induction s as [|c s IH]; cbn; [reflexivity|].
  rewrite lower_char_idem, IH. reflexivity.
Qed.

Lemma prefix_refl s : String.prefix s s = true.
Proof. induction s as [|c s IH]; cbn; [reflexivity|].
       destruct (ascii_dec c c); [exact IH|contradiction]. Qed.

Lemma includes_refl s : includes s s = true.
Proof. destruct s; cbn [includes]; rewrite prefix_refl; reflexivity. Qed.

Lemma includes_empty s : includes s EmptyString = true.
Proof. destruct s; reflexivity. Qed.

Lemma matchesFilter_type ty t :
  LedgerPage.matchesFilter (LedgerPage.type_string ty) t
  = LedgerPage.type_eqb (LedgerPage.type t) ty.
Proof.
  unfold LedgerPage.matchesFilter. destruct ty, (LedgerPage.type t); reflexivity.
Qed.

(** X11.  The ledger's list: the filter [all] with an empty search shows
    every transaction; the filter of a type with an empty search shows the
    transactions of that type; a filter that is neither shows none; the
    search does not see the case of the term, and finds a transaction by
    its own description or project in any case. *)
Theorem ledger_filter_and_search :
  (forall ts, LedgerPage.filteredTransactions "all" EmptyString ts = ts)
  /\ (forall ty ts,
         LedgerPage.filteredTransactions (LedgerPage.type_string ty) EmptyString ts
         = LedgerPage.ofType ty ts)
  /\ (forall f term ts,
         f <> "all"%string -> f <> "income"%string -> f <> "expense"%string ->
         LedgerPage.filteredTransactions f term ts = [])
  /\ (forall f term ts,
         LedgerPage.filteredTransactions f (toLowerCase term) ts
         = LedgerPage.filteredTransactions f term ts)
  /\ (forall term t ts,
         In t ts ->
         toLowerCase term = toLowerCase (LedgerPage.description t)
         \/ toLowerCase term = toLowerCase (LedgerPage.project t) ->
         In t (LedgerPage.filteredTransactions "all" term ts))
  /\ (forall f term ts t,
         In t (LedgerPage.filteredTransactions f term ts) -> In t ts).
Proof.
  repeat match goal with |- _ /\ _ => split end.
  - intro ts. unfold LedgerPage.filteredTransactions.
    induction ts as [|t ts IH]; cbn [filter]; [reflexivity|].
    unfold LedgerPage.matchesSearch at 1. cbn [toLowerCase].
    rewrite includes_empty. cbn. f_equal. exact IH.
  - intros ty ts. unfold LedgerPage.filteredTransactions, LedgerPage.ofType.
    apply filter_ext. intro t. rewrite matchesFilter_type.
    unfold LedgerPage.matchesSearch. cbn [toLowerCase].
    rewrite includes_empty. cbn. apply andb_true_r.
  - intros f term ts Na Ni Ne. unfold LedgerPage.filteredTransactions.
    induction ts as [|t ts IH]; cbn [filter]; [reflexivity|].
    replace (LedgerPage.matchesFilter f t) with false; [exact IH|].
    symmetry. unfold LedgerPage.matchesFilter. apply orb_false_iff. split.
    + apply String.eqb_neq. exact Na.
    + apply String.eqb_neq. destruct (LedgerPage.type t); cbn; congruence.
  - intros f term ts. unfold LedgerPage.filteredTransactions.
    apply filter_ext. intro t. unfold LedgerPage.matchesSearch.
    rewrite toLowerCase_idem. reflexivity.
  - intros term t ts Hin H. unfold LedgerPage.filteredTransactions.
    apply filter_In. split; [exact Hin|]. cbn [LedgerPage.matchesFilter andb].
    unfold LedgerPage.matchesFilter. cbn [String.eqb orb andb].
    unfold LedgerPage.matchesSearch.
    destruct H as [H|H]; rewrite H, includes_refl; [reflexivity|apply orb_true_r].
  - intros f term ts t H. unfold LedgerPage.filteredTransactions in H.
    apply filter_In in H. apply H.
Qed.

(** ** Fetching the ledger *)

Lemma fold_left_snoc {A B} (g : A -> B) (l : list A) : forall acc,
  fold_left (fun all x => all ++ [g x]) l acc = acc ++ map g l.
Proof.
  induction l as [|a l IH]; intro acc; cbn [fold_left map].
  - symmetry. apply app_nil_r.
  - rewrite IH, <- app_assoc. reflexivity.
Qed.

Lemma pushEach_some {A} (entry : A -> option LedgerPage.Transaction) docs :
  forall acc out,
    LedgerPage.pushEach entry docs acc = Some out <->
    exists ts, map entry docs = map Some ts /\ out = acc ++ ts.
Proof.
  induction docs as [|d docs IH]; intros acc out; cbn [LedgerPage.pushEach map].
  - split.
    + intros [= <-]. exists []. split; [reflexivity|]. symmetry. apply app_nil_r.
    + intros [[|t ts] [E ->]]; [|discriminate]. rewrite app_nil_r. reflexivity.
  - destruct (entry d) as [t|].
    + rewrite IH. split.
      * intros [ts [E ->]]. exists (t :: ts). cbn [map]. rewrite E.
        split; [reflexivity|]. rewrite <- app_assoc. reflexivity.
      * intros [[|t' ts] [E ->]]; [discriminate|]. cbn [map] in E.
        injection E as <- E. exists ts. split; [exact E|].
        rewrite <- app_assoc. reflexivity.
    + split; [discriminate|]. intros [[|t' ts] [E _]]; discriminate.
Qed.


(** What [fetchData] sets, when it sets a list: the entries of the
    documents, donations first, sorted. *)
Lemma fetchTransactions_some now getTime donations expenses out :
  LedgerPage.fetchTransactions now getTime donations expenses = Some out <->
  exists ds xs,
    map (LedgerPage.donationTransaction now) donations = map Some ds
    /\ map (LedgerPage.expenseTransaction now) expenses = map Some xs
    /\ out = sort (LedgerPage.newestFirst getTime) (ds ++ xs).
Proof.
  unfold LedgerPage.fetchTransactions. split.
  - destruct (LedgerPage.pushEach _ donations []) as [all|] eqn:D; [|discriminate].
    destruct (LedgerPage.pushEach _ expenses all) as [all'|] eqn:X; [|discriminate].
    intros [= <-].
    apply pushEach_some in D. destruct D as [ds [Ed ->]].
    apply pushEach_some in X. destruct X as [xs [Ex ->]].
    exists ds, xs. auto.
  - intros [ds [xs [Ed [Ex ->]]]].
    assert (D : LedgerPage.pushEach (LedgerPage.donationTransaction now) donations []
                = Some ([] ++ ds))
      by (apply pushEach_some; exists ds; auto).
    rewrite D.
    assert (X : LedgerPage.pushEach (LedgerPage.expenseTransaction now) expenses
                  ([] ++ ds) = Some (([] ++ ds) ++ xs))
      by (apply pushEach_some; exists xs; auto).
    rewrite X. reflexivity.
Qed.



Lemma map_some_all {A B} (f : A -> option B) (P : B -> Prop) l :
  (forall d, In d l -> exists t, f d = Some t /\ P t) ->
  exists ts, map f l = map Some ts /\ Forall P ts.
Proof.
  induction l as [|d l IH]; intro H.
  - exists []. split; [reflexivity|constructor].
  - destruct (H d (or_introl eq_refl)) as [t [E Pt]].
    destruct IH as [ts [Es F]]; [intros d' I; apply H; right; exact I|].
    exists (t :: ts). cbn [map]. rewrite E, Es. split; [reflexivity|].
    constructor; assumption.
Qed.




(** An expense whose [createdAt] holds ten trillion seconds, a time no date
    has: the fetch sets no list, and the ledger keeps showing what it
    showed. *)
Example fetch_without_list :
  let x :=
    {| LedgerPage.xp_id := "e1";
       LedgerPage.xp_createdAt :=
         {| LedgerPage.toDate := LedgerPage.NoToDate;
            LedgerPage.seconds := Some None |};
       LedgerPage.xp_date := Some "2024-01-01"%string;
       LedgerPage.xp_category := None; LedgerPage.xp_description := None;
       LedgerPage.xp_amount := Some 40%float; LedgerPage.xp_project := None;
       LedgerPage.xp_receipt := None |} in
  let st := {| LedgerPage.transactions := []; LedgerPage.loading := true |} in
  LedgerPage.fetchTransactions "2024-06-01T00:00:00.000Z"
    CompletedProjectsPage.isoDateTime [] [x] = None
  /\ LedgerPage.fetchData "2024-06-01T00:00:00.000Z"
       CompletedProjectsPage.isoDateTime [] [x] st
     = {| LedgerPage.transactions := []; LedgerPage.loading := false |}.
Proof. cbv zeta. split; reflexivity. Qed.

(** X13.  When the date of every document can be made and is a date, the
    ledger is set to the transactions by date, the latest first. *)
Theorem fetched_transactions_sorted :
  forall now getTime donations expenses,
    (forall d, In d donations ->
               exists t, LedgerPage.donationTransaction now d = Some t
                         /\ getTime (LedgerPage.date t) <> None) ->
    (forall x, In x expenses ->
               exists t, LedgerPage.expenseTransaction now x = Some t
                         /\ getTime (LedgerPage.date t) <> None) ->
    exists ts,
      LedgerPage.fetchTransactions now getTime donations expenses = Some ts
      /\ (forall st,
             LedgerPage.transactions
               (LedgerPage.fetchData now getTime donations expenses st) = ts)
      /\ StronglySorted
           (fun a b => (LedgerPage.timeOf getTime b <= LedgerPage.timeOf getTime a)%Z)
           ts.
Proof.
  intros now getTime donations expenses Hd Hx.
  destruct (map_some_all _ _ donations Hd) as [ds [Ed Fd]].
  destruct (map_some_all _ _ expenses Hx) as [xs [Ex Fx]].
  assert (E : LedgerPage.fetchTransactions now getTime donations expenses
              = Some (sort (LedgerPage.newestFirst getTime) (ds ++ xs))).
  { apply fetchTransactions_some. exists ds, xs. auto. }
  eexists. split; [exact E|]. split.
  - intro st. unfold LedgerPage.fetchData. rewrite E. reflexivity.
  - apply (sort_strongly_sorted (LedgerPage.newestFirst getTime)
             (LedgerPage.timeOf getTime)).
    assert (V : forall t, In t (ds ++ xs) -> getTime (LedgerPage.date t) <> None).
    { intros t H. apply in_app_or in H. rewrite Forall_forall in Fd, Fx.
      destruct H as [H|H]; [apply Fd|apply Fx]; exact H. }
    intros a b Ha Hb. unfold LedgerPage.newestFirst, LedgerPage.timeOf.
    pose proof (V a Ha). pose proof (V b Hb).
    destruct (getTime (LedgerPage.date a)), (getTime (LedgerPage.date b));
      try contradiction; reflexivity.
Qed.

(** A donation of February and two expenses of January and March, with
    the day of a date string as its time value. *)
Lemma fetched_transactions_sorted_example :
  let dayOf := fun s => CompletedProjectsPage.isoDateTime (split_head "T" s) in
  let donations :=
    [ {| LedgerPage.dn_id := "d1";
         LedgerPage.dn_createdAt :=
           {| LedgerPage.toDate :=
                LedgerPage.ToDateMethod (Some "2024-02-01T10:00:00.000Z"%string);
              LedgerPage.seconds := Some (Some "2024-02-01T10:00:00.000Z"%string) |};
         LedgerPage.dn_donorEmail := None; LedgerPage.dn_amount := Some 100%float;
         LedgerPage.dn_projectId := None |} ] in
  let x := fun i d =>
    {| LedgerPage.xp_id := i;
       LedgerPage.xp_createdAt :=
         {| LedgerPage.toDate := LedgerPage.NoToDate; LedgerPage.seconds := None |};
       LedgerPage.xp_date := Some d; LedgerPage.xp_category := None;
       LedgerPage.xp_description := None; LedgerPage.xp_amount := None;
       LedgerPage.xp_project := None; LedgerPage.xp_receipt := None |} in
  let expenses := [ x "e1" "2024-01-01"; x "e2" "2024-03-01" ]%string in
  let fetched := LedgerPage.fetchTransactions "2024-06-01T00:00:00.000Z" dayOf
                   donations expenses in
  option_map (map LedgerPage.id) fetched = Some ["e2"; "d1"; "e1"]%string
  /\ option_map (map LedgerPage.description) fetched
     = Some ["Expense"; "Donation from Anonymous"; "Expense"]%string
  /\ exists ts,
       fetched = Some ts
       /\ StronglySorted
            (fun a b => (LedgerPage.timeOf dayOf b <= LedgerPage.timeOf dayOf a)%Z) ts.
Proof.
  intros dayOf donations x expenses fetched.
  split; [vm_compute; reflexivity|]. split; [vm_compute; reflexivity|].
  destruct (fetched_transactions_sorted "2024-06-01T00:00:00.000Z" dayOf
              donations expenses) as [ts [E [_ S]]].
  - intros d [<-|[]]. eexists. split; [reflexivity|]. vm_compute. discriminate.
  - intros y [<-|[<-|[]]]; (eexists; split; [reflexivity|]); vm_compute; discriminate.
  - exists ts. split; [exact E|exact S].
Defined.

(** ** The id of a project created on the dashboard without communities *)

Lemma dashes_chars b s c :
  In c (list_ascii_of_string (DashboardProjectsPage.dashes b s)) ->
  c = "-"%char \/ (In c (list_ascii_of_string s) /\ is_white c = false).
Proof.
  revert b. induction s as [|a s IH]; intros b H; cbn in H; [contradiction|].
  destruct (is_white a) eqn:W.
  - destruct b.
    + destruct (IH true H) as [E|[I N]]; [left; exact E|right].
      split; [right; exact I|exact N].
    + cbn in H. destruct H as [E|H]; [left; symmetry; exact E|].
      destruct (IH true H) as [E|[I N]]; [left; exact E|right].
      split; [right; exact I|exact N].
  - cbn in H. destruct H as [E|H].
    + right. subst c. split; [left; reflexivity|exact W].
    + destruct (IH false H) as [E|[I N]]; [left; exact E|right].
      split; [right; exact I|exact N].
Qed.

Lemma dashes_no_white s :
  (forall c, In c (list_ascii_of_string s) -> is_white c = false) ->
  forall b, DashboardProjectsPage.dashes b s = s.
Proof.
  induction s as [|a s IH]; intros H b; cbn; [reflexivity|].
  rewrite (H a) by (left; reflexivity). f_equal.
  apply IH. intros c Hc. apply H. right. exact Hc.
Qed.

Lemma toLowerCase_chars s c :
  In c (list_ascii_of_string (toLowerCase s)) -> lower_char c = c.
Proof.
  induction s as [|a s IH]; cbn; [contradiction|].
  intros [E|H]; [subst c; apply lower_char_idem|apply IH, H].
Qed.

Lemma toLowerCase_fixed s :
  (forall c, In c (list_ascii_of_string s) -> lower_char c = c) ->
  toLowerCase s = s.
Proof.
  induction s as [|a s IH]; intro H; cbn; [reflexivity|].
  rewrite (H a) by (left; reflexivity). f_equal.
  apply IH. intros c Hc. apply H. right. exact Hc.
Qed.

(** X14.  The id stored with a new project, made from its title, holds no
    white space and no capital letter, and making an id from it again gives
    the same id. *)
Theorem project_id_is_a_slug :
  forall f : DashboardProjectsPage.FormData,
    let s := DashboardProjectsPage.projectId f in
    (forall c, In c (list_ascii_of_string s) ->
               is_white c = false /\ lower_char c = c)
    /\ DashboardProjectsPage.dashes false (toLowerCase s) = s.
Proof.
  intros f s.
  assert (H : forall c, In c (list_ascii_of_string s) ->
                        is_white c = false /\ lower_char c = c).
  { intros c Hc. unfold s, DashboardProjectsPage.projectId in Hc.
    apply dashes_chars in Hc. destruct Hc as [->|[I N]].
    - split; reflexivity.
    - split; [exact N|]. eapply toLowerCase_chars, I. }
  split; [exact H|].
  rewrite (toLowerCase_fixed s) by (intros c Hc; apply H, Hc).
  apply dashes_no_white. intros c Hc. apply H, Hc.
Qed.

Example project_id_example :
  DashboardProjectsPage.dashes false (toLowerCase "Clean  Water for All ")
  = "clean-water-for-all-"%string.
Proof. reflexivity. Qed.

(** X15.  A project created on the dashboard without communities is stored
    under the id the store gives it, with the id made from its title among
    its fields; the list reads that field over the document's id, so the
    project is listed under the id made from its title, and an edit of the
    listed project is a write to the document of that id. *)
Theorem created_project_listed_under_slug :
  forall env st w,
    DashboardProjectsPage.formInvalid (DashboardProjectsPage.formData st) = false ->
    DashboardProjectsPage.editingProject st = None ->
    Firestore.rejects env (DashboardProjectsPage.submitWrite st) = None ->
    let slug := DashboardProjectsPage.projectId (DashboardProjectsPage.formData st) in
    let w' := snd (DashboardProjectsPage.handleSubmit env st w) in
    exists d,
      Firestore.docs_of "projects" (Firestore.db w')
      = Firestore.docs_of "projects" (Firestore.db w) ++ [d]
      /\ Firestore.doc_id d = Firestore.newDocId env
      /\ DashboardProjectsPage.listedId d = Some slug
      /\ (forall p f' st',
             DashboardProjectsPage.id p = slug ->
             exists data,
               DashboardProjectsPage.submitWrite
                 (DashboardProjectsPage.editing p f' st')
               = Firestore.UpdateDoc "projects" slug data).
Proof.
  intros env st w V E R slug w'.
  unfold w', DashboardProjectsPage.handleSubmit, Firestore.await_write.
  rewrite V, R. cbn [fst snd Firestore.db].
  unfold DashboardProjectsPage.submitWrite in *. rewrite E in *.
  eexists. split.
  - cbn [Firestore.apply_write]. rewrite docs_of_set_docs. reflexivity.
  - split; [reflexivity|]. split; [reflexivity|].
    intros p f' st' Hp. cbn [DashboardProjectsPage.editing
                               DashboardProjectsPage.editingProject
                               DashboardProjectsPage.formData].
    rewrite Hp. eexists. reflexivity.
Qed.

(** A project titled "Clean Water", stored as document [doc1]. *)
Lemma created_project_listed_under_slug_example :
  let f :=
    {| DashboardProjectsPage.f_title := "Clean Water";
       DashboardProjectsPage.f_subtitle := EmptyString;
       DashboardProjectsPage.f_tagline := EmptyString;
       DashboardProjectsPage.f_description := "Wells";
       DashboardProjectsPage.f_callToAction := EmptyString;
       DashboardProjectsPage.f_category := "water";
       DashboardProjectsPage.f_goal := 500%float;
       DashboardProjectsPage.f_raised := 0%float;
       DashboardProjectsPage.f_supporters := 0%float;
       DashboardProjectsPage.f_image := EmptyString;
       DashboardProjectsPage.f_tag := EmptyString;
       DashboardProjectsPage.f_isActive := true;
       DashboardProjectsPage.f_isLive := false;
       DashboardProjectsPage.f_isCompleted := false |} in
  let st :=
    {| DashboardProjectsPage.saving := false;
       DashboardProjectsPage.showModal := true;
       DashboardProjectsPage.editingProject := None;
       DashboardProjectsPage.formData := f;
       DashboardProjectsPage.showCompletionModal := false;
       DashboardProjectsPage.completingProject := None;
       DashboardProjectsPage.completionFormData :=
         ProjectsPage.defaultCompletionForm "2024-01-01" |} in
  let w' := snd (DashboardProjectsPage.handleSubmit (Firestore.allResolve "doc1") st
                   Firestore.emptyWorld) in
  exists d,
    Firestore.docs_of "projects" (Firestore.db w') = [d]
    /\ Firestore.doc_id d = "doc1"%string
    /\ DashboardProjectsPage.listedId d = Some "clean-water"%string.
Proof.
  intros f st w'.
  destruct (created_project_listed_under_slug (Firestore.allResolve "doc1") st
              Firestore.emptyWorld eq_refl eq_refl eq_refl)
    as [d [D [I [L _]]]].
  exists d. split; [exact D|]. split; [exact I|exact L].
Defined.

(** ** The two sections of the dashboard, and the communities of a card *)

Lemma filter_partition {A} (f : A -> bool) l :
  Permutation (filter (fun x => negb (f x)) l ++ filter f l) l.
Proof.
  induction l as [|x l IH]; cbn; [constructor|].
  destruct (f x); cbn.
  - rewrite <- Permutation_middle. constructor. exact IH.
  - constructor. exact IH.
Qed.

Lemma find_first_none {A} (test : A -> bool) l :
  find_first test l = None <-> filter (fun x => negb (test x)) l = l.
Proof.
  induction l as [|x l IH]; cbn; [tauto|].
  destruct (test x) eqn:T; cbn.
  - split; [discriminate|]. intro H.
    assert (L : List.length (filter (fun x => negb (test x)) l) <= List.length l)
      by apply filter_length_le.
    apply (f_equal (@List.length A)) in H. cbn in H. lia.
  - rewrite IH. split; [intros ->; reflexivity|]. intros [= H]. exact H.
Qed.

Lemma find_first_some {A} (test : A -> bool) l x :
  find_first test l = Some x -> In x l /\ test x = true.
Proof.
  induction l as [|y l IH]; cbn; [discriminate|].
  destruct (test y) eqn:T.
  - intros [= <-]. auto.
  - intro H. destruct (IH H). auto.
Qed.

Lemma find_first_split {A} (test : A -> bool) l x :
  find_first test l = Some x ->
  exists before after,
    l = before ++ x :: after
    /\ Forall (fun y => test y = false) before
    /\ test x = true.
Proof.
  induction l as [|y l IH]; cbn; [discriminate|].
  destruct (test y) eqn:T.
  - intros [= <-]. exists [], l. auto.
  - intro H. destruct (IH H) as [before [after [E [F X]]]].
    exists (y :: before), after. rewrite E. auto.
Qed.

Lemma filter_all_length {A} (f : A -> bool) l :
  List.length (filter f l) = List.length l <-> filter f l = l.
Proof.
  split; [|intros ->; reflexivity].
  induction l as [|x l IH]; cbn; [reflexivity|].
  destruct (f x); cbn.
  - intros [= H]. f_equal. apply IH, H.
  - intro H. pose proof (filter_length_le f l). lia.
Qed.

(** X16.  On both dashboards every project is in exactly one of the two
    sections, active or completed.  On a card, the number of completed
    communities is at most their number, an active community is named
    exactly when not all of them are completed, and the one named is the
    first that is not completed. *)
Theorem dashboard_sections :
  (forall projects,
      Permutation (ProjectsPage.activeProjects projects
                   ++ ProjectsPage.completedProjects projects) projects
      /\ forall p, In p (ProjectsPage.activeProjects projects) ->
                   ~ In p (ProjectsPage.completedProjects projects))
  /\ (forall projects,
         Permutation (DashboardProjectsPage.activeProjects projects
                      ++ DashboardProjectsPage.completedProjects projects) projects
         /\ forall p, In p (DashboardProjectsPage.activeProjects projects) ->
                      ~ In p (DashboardProjectsPage.completedProjects projects))
  /\ (forall p,
         ProjectsPage.completedSubs p <= List.length (ProjectsPage.subsOf p)
         /\ (ProjectsPage.activeSub p = None <->
             ProjectsPage.completedSubs p = List.length (ProjectsPage.subsOf p))
         /\ (forall s, ProjectsPage.activeSub p = Some s ->
                       ProjectsPage.subIsCompleted s = false
                       /\ exists before after,
                            ProjectsPage.subsOf p = before ++ s :: after
                            /\ Forall (fun y => ProjectsPage.subIsCompleted y = true)
                                      before)).
Proof.
  split; [|split].
  - intro projects. split; [apply filter_partition|].
    intros p Ha Hc. unfold ProjectsPage.activeProjects in Ha.
    unfold ProjectsPage.completedProjects in Hc.
    apply filter_In in Ha, Hc. destruct Ha as [_ Ha], Hc as [_ Hc].
    rewrite Hc in Ha. discriminate.
  - intro projects. split; [apply filter_partition|].
    intros p Ha Hc. unfold DashboardProjectsPage.activeProjects in Ha.
    unfold DashboardProjectsPage.completedProjects in Hc.
    apply filter_In in Ha, Hc. destruct Ha as [_ Ha], Hc as [_ Hc].
    rewrite Hc in Ha. discriminate.
  - intro p. unfold ProjectsPage.completedSubs, ProjectsPage.activeSub.
    split; [apply filter_length_le|]. split.
    + rewrite find_first_none, filter_all_length.
      assert (E : filter (fun x => negb (negb (ProjectsPage.subIsCompleted x)))
                         (ProjectsPage.subsOf p)
                  = filter ProjectsPage.subIsCompleted (ProjectsPage.subsOf p))
        by (apply filter_ext; intro s; apply negb_involutive).
      rewrite E. reflexivity.
    + intros s H. apply find_first_split in H.
      destruct H as [before [after [E [F T]]]].
      split; [apply negb_true_iff; exact T|].
      exists before, after. split; [exact E|].
      eapply Forall_impl; [|exact F].
      intros y Hy. apply negb_false_iff. exact Hy.
Qed.

(** ** Supporters on the page of completed projects *)

Lemma supporterAmounts_itemsOf d :
  CompletedProjectsPage.supporterAmounts (CompletedProjectsPage.itemsOf d)
  = repeat (or_number (CompletedProjectsPage.p_supporters d) 0%float)
           (List.length (CompletedProjectsPage.itemsOf d)).
Proof.
  unfold CompletedProjectsPage.supporterAmounts, CompletedProjectsPage.itemsOf.
  rewrite map_app, length_app, repeat_app. f_equal.
  - destruct (CompletedProjectsPage.isCompleted d
              && negb (CompletedProjectsPage.isParent d)); reflexivity.
  - destruct (CompletedProjectsPage.isParent d); [|reflexivity].
    destruct (CompletedProjectsPage.p_subProjects d) as [subs|]; [|reflexivity].
    induction (filter CompletedProjectsPage.subCompleted subs) as [|s l IH];
      cbn; [reflexivity|]. f_equal. exact IH.
Qed.

Lemma wholeTotal_repeat x n : wholeTotal (repeat x n) = (Z.of_nat n * F2Z x)%Z.
Proof.
  induction n as [|n IH]; [reflexivity|].
  cbn [repeat wholeTotal fold_right]. fold (wholeTotal (repeat x n)).
  rewrite IH. lia.
Qed.

(** X17.  The total of supporters on the page of completed projects counts
    a parent's supporters once for each of its completed sub-projects: the
    page adds, for every project, its supporters as many times as it has
    items in the list.  A parent with whole supporters [s] and [n] completed
    sub-projects alone gives the total [n * s]. *)
Theorem supporters_counted_per_item :
  (forall docs,
      CompletedProjectsPage.supporterAmounts (CompletedProjectsPage.flatten docs)
      = flat_map (fun d => repeat (or_number (CompletedProjectsPage.p_supporters d)
                                             0%float)
                                  (List.length (CompletedProjectsPage.itemsOf d)))
                 docs)
  /\ (forall getTime d subs,
         CompletedProjectsPage.isParent d = true ->
         CompletedProjectsPage.p_subProjects d = Some subs ->
         let s := or_number (CompletedProjectsPage.p_supporters d) 0%float in
         let n := List.length (filter CompletedProjectsPage.subCompleted subs) in
         whole s -> (Z.of_nat n * F2Z s < 2 ^ 53)%Z ->
         CompletedProjectsPage.totalSupporters
           (CompletedProjectsPage.completedItems getTime [d])
         = Z2F (Z.of_nat n * F2Z s)).
Proof.
  split.
  - intro docs. rewrite flatten_flat_map.
    induction docs as [|d0 docs IH]; [reflexivity|].
    cbn [flat_map]. unfold CompletedProjectsPage.supporterAmounts in *.
    rewrite map_app, IH. f_equal. apply supporterAmounts_itemsOf.
  - intros getTime d subs Hp Hs s n W B.
    unfold CompletedProjectsPage.totalSupporters, reduce.
    rewrite fold_left_map_sum.
    fold (CompletedProjectsPage.supporterAmounts
            (CompletedProjectsPage.completedItems getTime [d])).
    assert (A : CompletedProjectsPage.supporterAmounts
                  (CompletedProjectsPage.flatten [d]) = repeat s n).
    { rewrite flatten_flat_map. cbn [flat_map]. rewrite app_nil_r.
      rewrite supporterAmounts_itemsOf. fold s. f_equal.
      unfold CompletedProjectsPage.itemsOf. rewrite Hp, Hs.
      rewrite andb_false_r. cbn [app]. apply length_map. }
    assert (Wr : wholeAmounts (repeat s n)).
    { split; [|rewrite wholeTotal_repeat; exact B].
      apply Forall_forall. intros x Hx. apply repeat_spec in Hx. subst x. exact W. }
    assert (P : Permutation (repeat s n)
                  (CompletedProjectsPage.supporterAmounts
                     (CompletedProjectsPage.completedItems getTime [d]))).
    { rewrite <- A. unfold CompletedProjectsPage.supporterAmounts.
      apply Permutation_map. symmetry. apply sort_perm. }
    rewrite (sum_whole_perm _ _ P Wr), (sum_whole _ Wr), wholeTotal_repeat.
    reflexivity.
Qed.

(** A parent with 12 supporters and Well A and Well C completed: 24. *)
Lemma supporters_counted_per_item_example :
  let wellC :=
    {| sub_id := "c"; sub_title := "Well C"; sub_description := None;
       sub_communityName := None; sub_goal := 0%float; sub_raised := 0%float;
       sub_isCompleted := Some true;
       sub_completionData := Some (CompletedProjectsPage.onlyDate "2024-03-01");
       sub_createdAt := None |} in
  let subs := [CompletedProjectsPage.wellA; CompletedProjectsPage.wellB; wellC] in
  let d :=
    {| CompletedProjectsPage.p_id := "water";
       CompletedProjectsPage.p_title := "Water Program";
       CompletedProjectsPage.p_subtitle := None;
       CompletedProjectsPage.p_description := EmptyString;
       CompletedProjectsPage.p_category := EmptyString;
       CompletedProjectsPage.p_goal := 0%float;
       CompletedProjectsPage.p_raised := None;
       CompletedProjectsPage.p_supporters := Some 12%float;
       CompletedProjectsPage.p_image := None;
       CompletedProjectsPage.p_isCompleted := None;
       CompletedProjectsPage.p_isParent := Some true;
       CompletedProjectsPage.p_completionData := None;
       CompletedProjectsPage.p_subProjects := Some subs |} in
  CompletedProjectsPage.totalSupporters
    (CompletedProjectsPage.completedItems CompletedProjectsPage.isoDateTime [d])
  = 24%float.
Proof.
  intros wellC subs d.
  assert (W : whole (or_number (CompletedProjectsPage.p_supporters d) 0%float))
    by (vm_compute; reflexivity).
  assert (B : (Z.of_nat (List.length (filter CompletedProjectsPage.subCompleted subs))
               * F2Z (or_number (CompletedProjectsPage.p_supporters d) 0%float)
               < 2 ^ 53)%Z) by (vm_compute; reflexivity).
  rewrite (proj2 supporters_counted_per_item CompletedProjectsPage.isoDateTime d subs
             eq_refl eq_refl W B).
  vm_compute. reflexivity.
Defined.

(** ** The total of the partners page *)

Lemma gt0_Z2F z : (0 <= z < 2 ^ 53)%Z -> gt0 (Z2F z) = (0 <? z)%Z.
Proof.
  intro H. unfold gt0.
  rewrite FloatAxioms.ltb_spec, Prim2SF_zero, Prim2SF_Z2F by exact H.
  destruct z as [|p|p]; [reflexivity|reflexivity|lia].
Qed.

Lemma contributes_amount p :
  PartnersPage.contributes p = true ->
  gt0 (or_number (PartnersPage.amount p) 0%float) = true.
Proof.
  unfold PartnersPage.contributes, or_number.
  destruct (PartnersPage.amount p) as [a|]; [|discriminate].
  intro H. apply andb_true_iff in H. destruct H as [T G]. rewrite T. exact G.
Qed.

(** X18.  When the contributed amounts are whole numbers with a total below
    2^53, the total the partners page shows is their exact sum, and the
    page shows it exactly when at least one partner contributes. *)
Theorem contributions_total_shown :
  forall ps,
    wholeAmounts (PartnersPage.contributedAmounts ps) ->
    PartnersPage.totalContributed ps
    = Z2F (wholeTotal (PartnersPage.contributedAmounts ps))
    /\ (PartnersPage.showsTotal ps = true <-> PartnersPage.contributingPartners ps <> []).
Proof.
  intros ps W.
  assert (T : PartnersPage.totalContributed ps
              = Z2F (wholeTotal (PartnersPage.contributedAmounts ps))).
  { rewrite totalContributed_amounts. apply sum_whole, W. }
  split; [exact T|].
  unfold PartnersPage.showsTotal. rewrite T.
  pose proof (wholeTotal_nonneg (PartnersPage.contributedAmounts ps)) as N.
  destruct W as [F B]. rewrite gt0_Z2F by lia.
  unfold PartnersPage.contributedAmounts in *.
  assert (C : forall p, In p (PartnersPage.contributingPartners ps) ->
                        PartnersPage.contributes p = true).
  { intros p H. unfold PartnersPage.contributingPartners in H.
    apply filter_In in H. apply H. }
  destruct (PartnersPage.contributingPartners ps) as [|p l].
  - cbn. split; [discriminate|congruence].
  - split; [discriminate|]. intros _. apply Z.ltb_lt.
    cbn [map wholeTotal fold_right] in *.
    inversion F as [|? ? Wp Wl]; subst.
    pose proof (contributes_amount p (C p (or_introl eq_refl))) as G.
    pose proof (F2Z_nonneg (or_number (PartnersPage.amount p) 0%float)) as Np.
    assert (Nl : (0 <= fold_right (fun x acc => F2Z x + acc) 0
                         (map (fun p => or_number (PartnersPage.amount p) 0%float) l))%Z)
      by apply wholeTotal_nonneg.
    destruct (Z.eq_dec (F2Z (or_number (PartnersPage.amount p) 0%float)) 0) as [Z0|NZ];
      [|lia].
    red in Wp. rewrite Z0 in Wp. rewrite Wp in G. vm_compute in G. discriminate.
Qed.

(** Two contributing partners and one without an amount. *)
Lemma contributions_total_shown_example :
  let ps := [ PartnersPage.withAmount "A" 100%float; PartnersPage.named "B";
              PartnersPage.withAmount "C" 250%float ] in
  wholeAmounts (PartnersPage.contributedAmounts ps)
  /\ PartnersPage.totalContributed ps = 350%float
  /\ PartnersPage.showsTotal ps = true
  /\ PartnersPage.showsTotal [PartnersPage.named "B"] = false.
Proof.
  intros ps.
  assert (W : wholeAmounts (PartnersPage.contributedAmounts ps)).
  { split; [repeat constructor; vm_compute; reflexivity | vm_compute; reflexivity]. }
  destruct (contributions_total_shown ps W) as [T S].
  split; [exact W|]. split; [rewrite T; vm_compute; reflexivity|].
  split; [apply S; discriminate | vm_compute; reflexivity].
Defined.

(** ** Editing one field of the completion form *)

Lemma assign_index_spec {A} (v : A) l : forall i,
  (i <= List.length l ->
   exists l', assign_index i v l = Some l'
              /\ nth_error l' i = Some v
              /\ (forall j, j <> i -> nth_error l' j = nth_error l j)
              /\ List.length l' = Nat.max (List.length l) (S i))
  /\ (List.length l < i -> assign_index i v l = None).
Proof.
  induction l as [|x l IH]; intro i.
  - destruct i as [|i]; cbn; split; try lia; intros _.
    + exists [v]. repeat split. intros [|j] N; [contradiction|destruct j; reflexivity].
    + reflexivity.
  - destruct i as [|i]; cbn [assign_index List.length].
    + split; [|lia]. intros _. exists (v :: l). repeat split.
      * intros [|j] N; [contradiction|reflexivity].
      * cbn. lia.
    + destruct (IH i) as [H1 H2]. split.
      * intro Hi. destruct (H1 ltac:(lia)) as [l' [E [Hn [Ho Hl]]]].
        exists (x :: l'). rewrite E. repeat split.
        -- exact Hn.
        -- intros [|j] N; [reflexivity|]. cbn. apply Ho. lia.
        -- cbn. rewrite Hl. lia.
      * intro Hi. rewrite H2 by lia. reflexivity.
Qed.

(** X19.  Typing in the field [index] of a list of image addresses sets that
    entry and no other; one position past the last field the list grows by
    the entry.  Typing in a field of the testimonial [index] changes that
    field of that testimonial and nothing else; for an index at which there
    is no testimonial nothing is set.  The other lists of the form stay as
    they are. *)
Theorem form_field_edits :
  (forall type index value f,
      let l := ProjectsPage.getImages type f in
      (index <= List.length l ->
       exists f',
         ProjectsPage.updateImageField type index value f = Some f'
         /\ nth_error (ProjectsPage.getImages type f') index = Some value
         /\ (forall j, j <> index ->
                       nth_error (ProjectsPage.getImages type f') j = nth_error l j)
         /\ (forall other, other <> type ->
                           ProjectsPage.getImages other f'
                           = ProjectsPage.getImages other f)
         /\ cf_testimonials f' = cf_testimonials f)
      /\ (List.length l < index ->
          ProjectsPage.updateImageField type index value f = None))
  /\ (forall index field value f,
         (forall t, nth_error (cf_testimonials f) index = Some t ->
                    exists f',
                      ProjectsPage.updateTestimonial index field value f = Some f'
                      /\ nth_error (cf_testimonials f') index
                         = Some (ProjectsPage.assignField field value t)
                      /\ (forall j, j <> index ->
                                    nth_error (cf_testimonials f') j
                                    = nth_error (cf_testimonials f) j)
                      /\ List.length (cf_testimonials f')
                         = List.length (cf_testimonials f)
                      /\ (forall type, ProjectsPage.getImages type f'
                                       = ProjectsPage.getImages type f))
         /\ (nth_error (cf_testimonials f) index = None ->
             ProjectsPage.updateTestimonial index field value f = None))
  /\ (forall value t,
         tf_name (ProjectsPage.assignField ProjectsPage.nameField value t) = value
         /\ tf_text (ProjectsPage.assignField ProjectsPage.nameField value t) = tf_text t
         /\ tf_role (ProjectsPage.assignField ProjectsPage.nameField value t) = tf_role t
         /\ tf_text (ProjectsPage.assignField ProjectsPage.textField value t) = value
         /\ tf_name (ProjectsPage.assignField ProjectsPage.textField value t) = tf_name t
         /\ tf_role (ProjectsPage.assignField ProjectsPage.roleField value t) = value).
Proof.
  split; [|split].
  - intros type index value f l.
    destruct (assign_index_spec value l index) as [H1 H2]. split.
    + intro Hi. destruct (H1 Hi) as [l' [E [Hn [Ho _]]]].
      exists (ProjectsPage.setImages type l' f).
      unfold ProjectsPage.updateImageField. fold l. rewrite E.
      split; [reflexivity|].
      assert (G : ProjectsPage.getImages type (ProjectsPage.setImages type l' f) = l')
        by (destruct type; reflexivity).
      rewrite G. split; [exact Hn|]. split; [exact Ho|]. split.
      * intros other N. destruct other, type; try reflexivity; contradiction.
      * destruct type; reflexivity.
    + intro Hi. unfold ProjectsPage.updateImageField. fold l.
      rewrite (H2 Hi). reflexivity.
  - intros index field value f. split.
    + intros t Ht. unfold ProjectsPage.updateTestimonial. rewrite Ht.
      assert (Hi : index <= List.length (cf_testimonials f)).
      { apply Nat.lt_le_incl, nth_error_Some. congruence. }
      destruct (assign_index_spec (ProjectsPage.assignField field value t)
                  (cf_testimonials f) index) as [H1 _].
      destruct (H1 Hi) as [l' [E [Hn [Ho Hl]]]].
      exists (ProjectsPage.setTestimonials l' f). rewrite E.
      split; [reflexivity|]. cbn [ProjectsPage.setTestimonials cf_testimonials].
      split; [exact Hn|]. split; [exact Ho|]. split.
      * rewrite Hl. assert (index < List.length (cf_testimonials f))
          by (apply nth_error_Some; congruence). lia.
      * intro type. destruct type; reflexivity.
    + intro Hn. unfold ProjectsPage.updateTestimonial. rewrite Hn. reflexivity.
  - intros value t. repeat split.
Qed.

(** ** What an edit leaves in the document *)

Lemma get_field_set_field k k' v f :
  Firestore.get_field k (Firestore.set_field k' v f)
  = if String.eqb k' k then Some v else Firestore.get_field k f.
Proof.
  induction f as [|[k0 v0] f IH]; cbn.
  - destruct (String.eqb k' k); reflexivity.
  - destruct (String.eqb k0 k') eqn:E; cbn.
    + apply String.eqb_eq in E. subst k0.
      destruct (String.eqb k' k); reflexivity.
    + destruct (String.eqb k0 k) eqn:F.
      * apply String.eqb_eq in F. subst k0.
        rewrite String.eqb_sym, E. reflexivity.
      * exact IH.
Qed.

(** A spread leaves the fields it does not name. *)
Lemma get_field_spread_absent k over : forall base,
  Firestore.get_field k over = None ->
  Firestore.get_field k (Firestore.spread base over) = Firestore.get_field k base.
Proof.
  unfold Firestore.spread.
  induction over as [|[k0 v0] over IH]; intros base H; cbn in *; [reflexivity|].
  destruct (String.eqb k0 k) eqn:E; [discriminate|].
  rewrite IH by exact H. rewrite get_field_set_field. cbn. rewrite E. reflexivity.
Qed.

(** A spread takes a field from the overriding record when it names it, in
    its last occurrence there. *)
Lemma get_field_spread k over base :
  Firestore.get_field k (Firestore.spread base over)
  = match Firestore.get_field k (rev over) with
    | Some v => Some v
    | None => Firestore.get_field k base
    end.
Proof.
  unfold Firestore.spread.
  induction over as [|[k0 v0] over IH] using rev_ind; [reflexivity|].
  rewrite fold_left_app, rev_app_distr. cbn.
  rewrite get_field_set_field.
  destruct (String.eqb k0 k); [reflexivity|exact IH].
Qed.

(** X20.  An edit of a project writes neither its communities nor its
    completion data nor its creation time, and an edit of a workspace does
    not write its expenses: the document after the update has them as
    before.  A new workspace starts with an empty list of expenses. *)
Theorem edits_keep_embedded_data :
  (forall st p old,
      ProjectsPage.editingProject st = Some p ->
      exists data,
        ProjectsPage.projectWrite st
        = Firestore.UpdateDoc "projects" (ProjectsPage.id p) data
        /\ Firestore.get_field "subProjects" (Firestore.spread old data)
           = Firestore.get_field "subProjects" old
        /\ Firestore.get_field "completionData" (Firestore.spread old data)
           = Firestore.get_field "completionData" old
        /\ Firestore.get_field "createdAt" (Firestore.spread old data)
           = Firestore.get_field "createdAt" old
        /\ Firestore.get_field "title" (Firestore.spread old data)
           = Some (Firestore.VString (ProjectsPage.f_title (ProjectsPage.formData st))))
  /\ (forall st p old,
         DashboardProjectsPage.editingProject st = Some p ->
         exists data,
           DashboardProjectsPage.submitWrite st
           = Firestore.UpdateDoc "projects" (DashboardProjectsPage.id p) data
           /\ Firestore.get_field "completionData" (Firestore.spread old data)
              = Firestore.get_field "completionData" old
           /\ Firestore.get_field "id" (Firestore.spread old data)
              = Firestore.get_field "id" old)
  /\ (forall st ws old,
         AdminGivingCirclePage.editingWorkspace st = Some ws ->
         exists data,
           AdminGivingCirclePage.workspaceWrite st
           = Firestore.UpdateDoc "workspaces" (ws_id ws) data
           /\ Firestore.get_field "expenses" (Firestore.spread old data)
              = Firestore.get_field "expenses" old
           /\ Firestore.get_field "totalReceived" (Firestore.spread old data)
              = Some (Firestore.VNumber
                        (AdminGivingCirclePage.wf_totalReceived
                           (AdminGivingCirclePage.workspaceForm st))))
  /\ (forall st,
         AdminGivingCirclePage.editingWorkspace st = None ->
         exists data,
           AdminGivingCirclePage.workspaceWrite st = Firestore.AddDoc "workspaces" data
           /\ Firestore.get_field "expenses" data = Some (Firestore.VExpenses [])).
Proof.
  split; [|split; [|split]].
  - intros st p old E. unfold ProjectsPage.projectWrite. rewrite E.
    eexists. split; [reflexivity|].
    split; [apply get_field_spread_absent; reflexivity|].
    split; [apply get_field_spread_absent; reflexivity|].
    split; [apply get_field_spread_absent; reflexivity|].
    rewrite get_field_spread. reflexivity.
  - intros st p old E. unfold DashboardProjectsPage.submitWrite. rewrite E.
    eexists. split; [reflexivity|].
    split; apply get_field_spread_absent; reflexivity.
  - intros st ws old E. unfold AdminGivingCirclePage.workspaceWrite. rewrite E.
    eexists. split; [reflexivity|].
    split; [apply get_field_spread_absent; reflexivity|].
    rewrite get_field_spread. reflexivity.
  - intros st E. unfold AdminGivingCirclePage.workspaceWrite. rewrite E.
    eexists. split; reflexivity.
Qed.

(** ** From the completion form to the public page *)

(** X21.  When a parent project is read back with the list of communities
    that the completion of one of them wrote, the page of completed projects
    shows the completed community with the cleaned completion data, the
    communities that were completed before as they were, and nothing else of
    that project. *)
Theorem completion_reaches_public_list parent completing clean d docs :
  In d docs ->
  CompletedProjectsPage.isParent d = true ->
  CompletedProjectsPage.p_subProjects d
  = Some (ProjectsPage.updatedSubs_completion parent completing clean) ->
  (forall s, In s (ProjectsPage.subsOf parent) ->
             (sub_id s = sub_id completing ->
              In (CompletedProjectsPage.subItem d (ProjectsPage.markCompleted s clean))
                 (CompletedProjectsPage.flatten docs)
              /\ CompletedProjectsPage.completionData
                   (CompletedProjectsPage.subItem d (ProjectsPage.markCompleted s clean))
                 = Some clean)
             /\ (sub_id s <> sub_id completing ->
                 CompletedProjectsPage.subCompleted s = true ->
                 In (CompletedProjectsPage.subItem d s)
                    (CompletedProjectsPage.flatten docs)))
  /\ (forall item,
         In item (CompletedProjectsPage.flatten [d]) ->
         exists s,
           In s (ProjectsPage.subsOf parent)
           /\ ((sub_id s = sub_id completing
                /\ item = CompletedProjectsPage.subItem d
                            (ProjectsPage.markCompleted s clean))
               \/ (sub_id s <> sub_id completing
                   /\ CompletedProjectsPage.subCompleted s = true
                   /\ item = CompletedProjectsPage.subItem d s))).
Proof.
  intros Hd Hp Hs. split.
  - intros s Hin. split.
    + intro E. split; [|reflexivity].
      rewrite flatten_flat_map. apply in_flat_map. exists d. split; [exact Hd|].
      apply in_itemsOf. right.
      exists (ProjectsPage.updatedSubs_completion parent completing clean),
        (ProjectsPage.markCompleted s clean).
      repeat split; try assumption.
      unfold ProjectsPage.updatedSubs_completion. apply in_map_iff.
      exists s. split; [|exact Hin].
      apply String.eqb_eq in E. rewrite E. reflexivity.
    + intros N C.
      rewrite flatten_flat_map. apply in_flat_map. exists d. split; [exact Hd|].
      apply in_itemsOf. right.
      exists (ProjectsPage.updatedSubs_completion parent completing clean), s.
      repeat split; try assumption.
      unfold ProjectsPage.updatedSubs_completion. apply in_map_iff.
      exists s. split; [|exact Hin].
      apply String.eqb_neq in N. rewrite N. reflexivity.
  - intros item Hin. rewrite flatten_flat_map in Hin. cbn in Hin.
    rewrite app_nil_r in Hin. apply in_itemsOf in Hin.
    destruct Hin as [[_ [F _]]|[subs [s' [_ [Hs' [Hin [C E]]]]]]]; [congruence|].
    rewrite Hs in Hs'. injection Hs' as <-.
    unfold ProjectsPage.updatedSubs_completion in Hin.
    apply in_map_iff in Hin. destruct Hin as [s [Es Hin]].
    exists s. split; [exact Hin|].
    destruct (String.eqb (sub_id s) (sub_id completing)) eqn:B.
    + left. apply String.eqb_eq in B. subst s'. auto.
    + right. apply String.eqb_neq in B. subst s'. auto.
Qed.

Lemma completion_reaches_public_list_example :
  let parent :=
    {| ProjectsPage.id := "water"; ProjectsPage.title := "Water Program";
       ProjectsPage.description := EmptyString; ProjectsPage.category := "water";
       ProjectsPage.goal := 1000%float; ProjectsPage.raised := None;
       ProjectsPage.supporters := None; ProjectsPage.isCompleted := None;
       ProjectsPage.isParent := Some true;
       ProjectsPage.subProjects :=
         Some [CompletedProjectsPage.wellA; CompletedProjectsPage.wellB];
       ProjectsPage.completionData := None |} in
  let clean := CompletedProjectsPage.onlyDate "2024-06-01" in
  let d :=
    {| CompletedProjectsPage.p_id := "water";
       CompletedProjectsPage.p_title := "Water Program";
       CompletedProjectsPage.p_subtitle := None;
       CompletedProjectsPage.p_description := EmptyString;
       CompletedProjectsPage.p_category := "water";
       CompletedProjectsPage.p_goal := 1000%float;
       CompletedProjectsPage.p_raised := None;
       CompletedProjectsPage.p_supporters := None;
       CompletedProjectsPage.p_image := None;
       CompletedProjectsPage.p_isCompleted := None;
       CompletedProjectsPage.p_isParent := Some true;
       CompletedProjectsPage.p_completionData := None;
       CompletedProjectsPage.p_subProjects :=
         Some (ProjectsPage.updatedSubs_completion parent
                 CompletedProjectsPage.wellB clean) |} in
  In (CompletedProjectsPage.subItem d
        (ProjectsPage.markCompleted CompletedProjectsPage.wellB clean))
     (CompletedProjectsPage.flatten [d])
  /\ In (CompletedProjectsPage.subItem d CompletedProjectsPage.wellA)
        (CompletedProjectsPage.flatten [d]).
Proof.
  intros parent clean d.
  destruct (completion_reaches_public_list parent CompletedProjectsPage.wellB
              clean d [d] (or_introl eq_refl) eq_refl eq_refl) as [H _].
  split.
  - apply (H CompletedProjectsPage.wellB); [right; left; reflexivity|reflexivity].
  - apply (H CompletedProjectsPage.wellA).
    + left; reflexivity.
    + cbn. discriminate.
    + reflexivity.
Defined.

(** ** Saving a workspace *)

(** An update that resolved, document by document. *)
Lemma apply_update_docs newId coll target data db i d :
  nth_error (Firestore.docs_of coll db) i = Some d ->
  nth_error (Firestore.docs_of coll
               (Firestore.apply_write newId (Firestore.UpdateDoc coll target data) db)) i
  = Some (if String.eqb (Firestore.doc_id d) target
          then {| Firestore.doc_id := Firestore.doc_id d;
                  Firestore.doc_fields :=
                    Firestore.spread (Firestore.doc_fields d) data |}
          else d).
Proof.
  intro H. cbn [Firestore.apply_write].
  destruct (existsb (fun d0 => String.eqb (Firestore.doc_id d0) target)
              (Firestore.docs_of coll db)) eqn:E.
  - rewrite docs_of_set_docs, nth_error_map, H. reflexivity.
  - rewrite H. f_equal.
    destruct (String.eqb (Firestore.doc_id d) target) eqn:F; [|reflexivity].
    assert (X : existsb (fun d0 => String.eqb (Firestore.doc_id d0) target)
                  (Firestore.docs_of coll db) = true).
    { apply existsb_exists. exists d. split; [|exact F].
      eapply nth_error_In; exact H. }
    congruence.
Qed.

Lemma apply_update_length newId coll target data db :
  List.length (Firestore.docs_of coll
                 (Firestore.apply_write newId (Firestore.UpdateDoc coll target data) db))
  = List.length (Firestore.docs_of coll db).
Proof.
  cbn [Firestore.apply_write].
  destruct (existsb _ _); [|reflexivity].
  rewrite docs_of_set_docs. apply length_map.
Qed.

(** X22.  Saving an edited workspace whose write resolves leaves as many
    workspaces as before, each under its id and at its place; every
    workspace keeps its expenses and its creation time, the others keep all
    their fields, and the edited one carries the name and the amount of the
    form.  One write is issued, the dialog closes and nothing is alerted. *)
Theorem workspace_edit_keeps_expenses :
  forall env otherText st w ws,
    AdminGivingCirclePage.wf_name (AdminGivingCirclePage.workspaceForm st)
    <> EmptyString ->
    AdminGivingCirclePage.editingWorkspace st = Some ws ->
    Firestore.rejects env (AdminGivingCirclePage.workspaceWrite st) = None ->
    let r := AdminGivingCirclePage.handleWorkspaceSubmit env otherText st w in
    let before := Firestore.docs_of "workspaces" (Firestore.db w) in
    let after := Firestore.docs_of "workspaces" (Firestore.db (snd r)) in
    List.length after = List.length before
    /\ (forall i d,
           nth_error before i = Some d ->
           exists d',
             nth_error after i = Some d'
             /\ Firestore.doc_id d' = Firestore.doc_id d
             /\ Firestore.get_field "expenses" (Firestore.doc_fields d')
                = Firestore.get_field "expenses" (Firestore.doc_fields d)
             /\ Firestore.get_field "createdAt" (Firestore.doc_fields d')
                = Firestore.get_field "createdAt" (Firestore.doc_fields d)
             /\ (Firestore.doc_id d <> ws_id ws -> d' = d)
             /\ (Firestore.doc_id d = ws_id ws ->
                 Firestore.get_field "name" (Firestore.doc_fields d')
                 = Some (Firestore.VString
                           (AdminGivingCirclePage.wf_name
                              (AdminGivingCirclePage.workspaceForm st)))
                 /\ Firestore.get_field "totalReceived" (Firestore.doc_fields d')
                    = Some (Firestore.VNumber
                              (AdminGivingCirclePage.wf_totalReceived
                                 (AdminGivingCirclePage.workspaceForm st)))))
    /\ Firestore.newWrites w (snd r) = [AdminGivingCirclePage.workspaceWrite st]
    /\ AdminGivingCirclePage.showWorkspaceModal (fst r) = false
    /\ AdminGivingCirclePage.ws_saving (fst r) = false
    /\ Firestore.alerts (snd r) = Firestore.alerts w.
Proof.
  intros env otherText st w ws N E R r before after.
  unfold after, before, r, AdminGivingCirclePage.handleWorkspaceSubmit,
    Firestore.await_write.
  destruct (AdminGivingCirclePage.wf_name (AdminGivingCirclePage.workspaceForm st))
    as [|c nm] eqn:Hn; [contradiction|].
  cbn [truthy_string negb]. rewrite R. cbn [fst snd Firestore.db Firestore.alerts].
  assert (W : AdminGivingCirclePage.workspaceWrite st
              = Firestore.UpdateDoc "workspaces" (ws_id ws)
                  (Firestore.spread
                     (AdminGivingCirclePage.workspaceFields
                        (AdminGivingCirclePage.workspaceForm st))
                     [("updatedAt"%string, Firestore.VServerTimestamp)])).
  { unfold AdminGivingCirclePage.workspaceWrite. rewrite E. reflexivity. }
  rewrite W. split; [apply apply_update_length|]. split.
  - intros i d Hd. rewrite (apply_update_docs _ _ _ _ _ _ _ Hd).
    eexists. split; [reflexivity|].
    destruct (String.eqb (Firestore.doc_id d) (ws_id ws)) eqn:B.
    + cbn [Firestore.doc_id Firestore.doc_fields].
      split; [reflexivity|].
      split; [apply get_field_spread_absent; reflexivity|].
      split; [apply get_field_spread_absent; reflexivity|].
      split.
      * apply String.eqb_eq in B. intro X. contradiction.
      * intros _. rewrite !get_field_spread. cbn. rewrite Hn. split; reflexivity.
    + split; [reflexivity|]. split; [reflexivity|]. split; [reflexivity|].
      split; [reflexivity|].
      apply String.eqb_neq in B. intro X. contradiction.
  - split; [|repeat split].
    apply newWrites_one. reflexivity.
Qed.

(** A workspace renamed in a store of two; the other keeps its fields. *)
Lemma workspace_edit_keeps_expenses_example :
  let ws := GivingCirclePage.sample 100%float 40%float in
  let stored id nm :=
    {| Firestore.doc_id := id;
       Firestore.doc_fields :=
         [ ("name"%string, Firestore.VString nm);
           ("expenses"%string, Firestore.VExpenses []) ] |} in
  let w := {| Firestore.db :=
                [("workspaces"%string, [stored (ws_id ws) "Old"%string;
                                        stored "other"%string "Other"%string])];
              Firestore.issued := []; Firestore.alerts := [] |} in
  let st := {| AdminGivingCirclePage.ws_saving := false;
               AdminGivingCirclePage.showWorkspaceModal := true;
               AdminGivingCirclePage.editingWorkspace := Some ws;
               AdminGivingCirclePage.workspaceForm :=
                 {| AdminGivingCirclePage.wf_name := "New";
                    AdminGivingCirclePage.wf_logo := EmptyString;
                    AdminGivingCirclePage.wf_totalReceived := 100%float;
                    AdminGivingCirclePage.wf_date := "2024-01-01";
                    AdminGivingCirclePage.wf_note := EmptyString |} |} in
  let r := AdminGivingCirclePage.handleWorkspaceSubmit (Firestore.allResolve "x")
             EmptyString st w in
  List.length (Firestore.docs_of "workspaces" (Firestore.db (snd r))) = 2
  /\ AdminGivingCirclePage.showWorkspaceModal (fst r) = false.
Proof.
  intros ws stored w st r.
  destruct (workspace_edit_keeps_expenses (Firestore.allResolve "x") EmptyString
              st w ws ltac:(discriminate) eq_refl eq_refl)
    as [L [_ [_ [M _]]]].
  split; [exact L|exact M].
Defined.
